(** * reegis_tools: regional aggregation of coastdat2 time series

    A shallow embedding of [reegis_tools/coastdat.py], [reegis_tools/tools.py]
    and [reegis_tools/inhabitants.py], and the properties of the aggregation
    pipeline that follow from it.

    Numbers.  A Python [float] is modelled by an exact rational ([Qc], the
    canonical rationals, so that equality is Leibniz equality) extended with
    the two infinities and not-a-number.  Rounding and the sign of zero are
    abstracted; overflow to infinity, division by zero and the propagation of
    not-a-number follow IEEE 754, which is what numpy and pandas do.

    Time series.  A pandas Series of one year is the list of its values; its
    index is the position, the hour counted from the first hour of the year.
    Aligning two series on their index is aligning them by position. *)

From Stdlib Require Import ZArith QArith Qcanon Ascii.
From stdpp Require Import base option list strings pretty gmap.

Open Scope Qc_scope.
Open Scope Z_scope.
Open Scope nat_scope.

Set Warnings "-abstract-large-number".

(** ** Floating-point values *)

Inductive float : Type :=
  | Fin (q : Qc)
  | PInf
  | NInf
  | NaN.

Definition zero : float := Fin 0%Qc.

Definition isnan (x : float) : bool :=
  match x with NaN => true | _ => false end.

Definition isfinite (x : float) : bool :=
  match x with Fin _ => true | _ => false end.

(** The infinity whose sign is that of the comparison of a number with zero;
    no sign gives not-a-number. *)
Definition inf_of (c : comparison) : float :=
  match c with Gt => PInf | Lt => NInf | Eq => NaN end.

Definition fadd (x y : float) : float :=
  match x, y with
  | NaN, _ | _, NaN => NaN
  | Fin a, Fin b => Fin (a + b)%Qc
  | PInf, NInf | NInf, PInf => NaN
  | PInf, _ | _, PInf => PInf
  | NInf, _ | _, NInf => NInf
  end.

Definition fmul (x y : float) : float :=
  match x, y with
  | NaN, _ | _, NaN => NaN
  | Fin a, Fin b => Fin (a * b)%Qc
  | Fin a, PInf | PInf, Fin a => inf_of (a ?= 0)%Qc
  | Fin a, NInf | NInf, Fin a => inf_of (CompOpp (a ?= 0)%Qc)
  | PInf, PInf | NInf, NInf => PInf
  | PInf, NInf | NInf, PInf => NInf
  end.

(** Division of numpy: a zero divisor raises nothing.  [0/0] is not-a-number
    and [a/0] is the infinity of the sign of [a]. *)
Definition fdiv (x y : float) : float :=
  match x, y with
  | NaN, _ | _, NaN => NaN
  | Fin a, Fin b =>
      if decide (b = 0%Qc) then inf_of (a ?= 0)%Qc else Fin (a / b)%Qc
  | Fin _, _ => zero
  | PInf, Fin b => match (b ?= 0)%Qc with Lt => NInf | _ => PInf end
  | NInf, Fin b => match (b ?= 0)%Qc with Lt => PInf | _ => NInf end
  | _, _ => NaN
  end.

(** The rational of a natural number, and [float(n)] for a Python [int]. *)
Definition Qc_of_nat (n : nat) : Qc := Q2Qc (inject_Z (Z.of_nat n)).
Definition of_nat (n : nat) : float := Fin (Qc_of_nat n).

(** ** Series and frames *)

Abbreviation Series := (list float).

(** [s[:n]]: the first [n] rows of a series. *)
Definition head_rows (n : nat) (s : Series) : Series := take n s.

(** [s.multiply(c)] and [s.divide(c)] with a scalar. *)
Definition multiply (s : Series) (c : float) : Series := (λ x, fmul x c) <$> s.
Definition divide (s : Series) (c : float) : Series := (λ x, fdiv x c) <$> s.

(** The value of a series at an hour; an hour outside its index is missing,
    which pandas writes as not-a-number. *)
Definition at_hour (s : Series) (h : nat) : float := default NaN (s !! h).

(** Aligning a series on an index of [n] hours: rows outside the index are
    dropped, hours the series lacks are not-a-number. *)
Definition reindex (n : nat) (s : Series) : Series := at_hour s <$> seq 0 n.

(** [sum] of pandas with [skipna=True]: not-a-number entries count as zero,
    and the sum of no entry is zero (pandas 0.22 and later; before, it was
    not-a-number). *)
Definition nansum (xs : list float) : float :=
  foldl (λ acc x, if isnan x then acc else fadd acc x) zero xs.

(** A DataFrame: an index of [df_rows] hours and an ordered list of named
    columns, each aligned on that index. *)
Record DataFrame (K : Type) : Type := mkDataFrame {
  df_rows : nat;
  df_columns : list (K * Series)
}.
Arguments mkDataFrame {K} _ _.
Arguments df_rows {K} _.
Arguments df_columns {K} _.

(** [d[k] = v] on the columns of a frame: an existing column is replaced in
    place, a new one is appended. *)
Fixpoint set_column {K} `{EqDecision K} (k : K) (v : Series)
    (cols : list (K * Series)) : list (K * Series) :=
  match cols with
  | [] => [(k, v)]
  | (k', v') :: rest =>
      if decide (k' = k) then (k, v) :: rest
      else (k', v') :: set_column k v rest
  end.

Fixpoint get_column {K} `{EqDecision K} (k : K)
    (cols : list (K * Series)) : option Series :=
  match cols with
  | [] => None
  | (k', v') :: rest => if decide (k' = k) then Some v' else get_column k rest
  end.

(** [pd.DataFrame(index=my_index)]. *)
Definition empty_frame {K} (n : nat) : DataFrame K := mkDataFrame n [].

(** [df[k] = s].  A frame whose index is empty takes the index of the first
    series assigned to it; otherwise the series is aligned on the frame's
    index. *)
Definition setitem {K} `{EqDecision K} (df : DataFrame K) (k : K)
    (s : Series) : DataFrame K :=
  match df_rows df with
  | O =>
      let n := length s in
      mkDataFrame n
        (set_column k (reindex n s)
           ((λ kv, (kv.1, reindex n kv.2)) <$> df_columns df))
  | S _ =>
      mkDataFrame (df_rows df)
        (set_column k (reindex (df_rows df) s) (df_columns df))
  end.

(** [df.sum(axis=1)]: for every hour the sum over the columns. *)
Definition sum_rows {K} (df : DataFrame K) : Series :=
  (λ h, nansum ((λ kv, at_hour kv.2 h) <$> df_columns df)) <$> seq 0 (df_rows df).

(** ** Exceptions *)

Inductive exn : Type :=
  | KeyError
  | IndexError
  | TypeError
  | AttributeError (msg : string)
  | NoOptionError
  | BadZipFile
  | ValueError
  | OSError.

Inductive result (A : Type) : Type :=
  | Ok (a : A)
  | Raise (e : exn).
Arguments Ok {A} _.
Arguments Raise {A} _.

Definition bind {A B} (m : result A) (f : A -> result B) : result B :=
  match m with
  | Ok a => f a
  | Raise e => Raise e
  end.

Notation "x <- m ;; k" := (bind m (λ x, k))
  (at level 100, m at next level, right associativity).

(** A loop whose body may raise: [for x in xs: acc = body(acc, x)]. *)
Fixpoint for_each {A S} (body : S -> A -> result S) (xs : list A) (acc : S)
    : result S :=
  match xs with
  | [] => Ok acc
  | x :: rest => acc' <- body acc x ;; for_each body rest acc'
  end.

Definition of_option {A} (e : exn) (o : option A) : result A :=
  match o with Some a => Ok a | None => Raise e end.

(** ** The power-plant table

    [pp] is a frame indexed by (category, region, coastdat id) whose columns
    hold capacities: [capacity_<year>] per year, and [capacity].  A row
    carries its three index values and its value in every column; the
    columns read are taken to be present, an entry without a value being
    not-a-number. *)

Record pp_row : Type := mk_pp_row {
  pp_category : string;
  pp_region : string;
  pp_coastdat_id : Z;
  pp_value : string -> float
}.

(** The entry of a row in the column ['capacity_{0}'.format(year)]. *)
Definition pp_capacity (r : pp_row) (year : Z) : float :=
  pp_value r ("capacity_" +:+ pretty year).

Abbreviation PowerPlants := (list pp_row).

(** The rows of [pp.loc[(category, region)]]. *)
Definition pp_rows (pp : PowerPlants) (category region : string) : list pp_row :=
  filter (λ r, pp_category r = category ∧ pp_region r = region) pp.

(** [pp.loc[(category, region)].index]; no such row is a [KeyError]. *)
Definition pp_loc_index (pp : PowerPlants) (category region : string)
    : result (list Z) :=
  match pp_rows pp category region with
  | [] => Raise KeyError
  | rows => Ok (pp_coastdat_id <$> rows)
  end.

(** [float(pp.loc[(category, region, coastdat_id), 'capacity_<year>'])]:
    one row gives its capacity, no row is a [KeyError], and several rows give
    a Series, which [float] refuses. *)
Definition pp_loc_capacity (pp : PowerPlants) (category region : string)
    (coastdat_id : Z) (year : Z) : result float :=
  match filter (λ r, pp_coastdat_id r = coastdat_id) (pp_rows pp category region) with
  | [] => Raise KeyError
  | [r] => Ok (pp_capacity r year)
  | _ => Raise TypeError
  end.

(** [float(pp.loc[(category, region), 'capacity_<year>'].sum())]. *)
Definition pp_total_capacity (pp : PowerPlants) (category region : string)
    (year : Z) : float :=
  nansum ((λ r, pp_capacity r year) <$> pp_rows pp category region).

(** ** Stores of per-point feed-in series

    An HDF5 store maps the key ['/A<id>'] of a grid point to a frame whose
    columns are the sub-sets of the file.  The key is determined by the id
    and determines it, so the store is keyed by the id. *)

Abbreviation HDFStore := (gmap Z (DataFrame string)).

(** The grid point whose frame gives the index and the columns. *)
Definition reference_id : Z := 1129087%Z.

(** [store[key]] and [frame[col]]. *)
Definition store_get (store : HDFStore) (id : Z) : result (DataFrame string) :=
  of_option KeyError (store !! id).

Definition frame_get (frame : DataFrame string) (col : string) : result Series :=
  of_option KeyError (get_column col (df_columns frame)).

(** ** Column labels: ['_'.join(col.split('_')[-3:])] *)

Fixpoint split (sep : ascii) (s : string) : list string :=
  match s with
  | EmptyString => [EmptyString]
  | String c rest =>
      if decide (c = sep) then EmptyString :: split sep rest
      else match split sep rest with
           | p :: ps => String c p :: ps
           | [] => [String c EmptyString]
           end
  end.

Fixpoint join (sep : string) (parts : list string) : string :=
  match parts with
  | [] => EmptyString
  | [p] => p
  | p :: rest => p +:+ sep +:+ join sep rest
  end.

(** [l[-n:]] for a positive [n]. *)
Definition last_items {A} (n : nat) (l : list A) : list A :=
  drop (length l - n) l.

Definition colname (col : string) : string :=
  join "_" (last_items 3 (split "_"%char col)).

(** ** aggregate_by_region_coastdat_feedin *)

Abbreviation FeedinFrame := (DataFrame (string * string * string)).

(** The inner loop over the coastdat ids of a region: the frame [temp] with
    one column per grid point, its series cut to 8760 rows and multiplied by
    the capacity installed at that point. *)
Definition weighted_frame (pp : PowerPlants) (store : HDFStore) (my_index : nat)
    (category region : string) (year : Z) (col : string)
    (coastdat_ids : list Z) : result (DataFrame Z) :=
  for_each
    (λ temp coastdat_id,
       pp_inst <- pp_loc_capacity pp category region coastdat_id year ;;
       frame <- store_get store coastdat_id ;;
       s <- frame_get frame col ;;
       Ok (setitem temp coastdat_id (multiply (head_rows 8760 s) pp_inst)))
    coastdat_ids (empty_frame my_index).

(** The series assigned to [feed_in[region, name, colname]]. *)
Definition region_column (pp : PowerPlants) (store : HDFStore) (my_index : nat)
    (category region : string) (year : Z) (col : string)
    (coastdat_ids : list Z) : result Series :=
  temp <- weighted_frame pp store my_index category region year col coastdat_ids ;;
  Ok (divide (sum_rows temp) (pp_total_capacity pp category region year)).

(** The ids of a region; the [KeyError] of a region without rows is caught. *)
Definition region_ids (pp : PowerPlants) (category region : string) : list Z :=
  match pp_loc_index pp category region with
  | Ok ids => ids
  | Raise _ => []
  end.

(** The state of the first loop, over the files of the coastdat path: the
    set names in listing order, the last set name, the open stores and their
    columns. *)
Record open_sets : Type := mk_open_sets {
  set_names : list string;
  set_name : option string;
  pwr : gmap string HDFStore;
  columns : gmap string (list string)
}.

(** The files are given as the [h5] files of the listing, each with the set
    name derived from its file name and the store it opens. *)
Definition open_feedin_files (files : list (string * HDFStore)) : result open_sets :=
  for_each
    (λ st file,
       let '(name, store) := file in
       frame <- store_get store reference_id ;;
       Ok (mk_open_sets (set_names st ++ [name]) (Some name)
             (<[name := store]> (pwr st))
             (<[name := (df_columns frame).*1]> (columns st))))
    files (mk_open_sets [] None ∅ ∅).

Definition dict_get {V} (d : gmap string V) (k : string) : result V :=
  of_option KeyError (d !! k).

(** The body of the loop over the regions. *)
Definition aggregate_region (pp : PowerPlants) (sets : open_sets) (my_index : nat)
    (year : Z) (category : string) (feed_in : FeedinFrame) (region : string)
    : result FeedinFrame :=
  let coastdat_ids := region_ids pp category region in
  let number_of_coastdat_ids := length coastdat_ids in
  if decide (0 < number_of_coastdat_ids) then
    for_each
      (λ feed_in name,
         cols <- dict_get (columns sets) name ;;
         for_each
           (λ feed_in col,
              store <- dict_get (pwr sets) name ;;
              s <- region_column pp store my_index category region year col
                     coastdat_ids ;;
              Ok (setitem feed_in (region, name, colname col) s))
           cols feed_in)
      (set_names sets) feed_in
  else Ok feed_in.

(** The frame written to [outfile]. *)
Definition aggregate_feedin (pp : PowerPlants) (files : list (string * HDFStore))
    (regions : list string) (year : Z) (category : string) : result FeedinFrame :=
  sets <- open_feedin_files files ;;
  last_name <- of_option KeyError (set_name sets) ;;
  last_store <- dict_get (pwr sets) last_name ;;
  reference <- store_get last_store reference_id ;;
  let my_index := df_rows reference in
  for_each (aggregate_region pp sets my_index year category) regions
    (empty_frame my_index).

(** ** spatial_average_weather

    The geometry library is outside the repository's algorithm: polygons and
    points are abstract, with the predicates the function calls.  The join
    [geometries.spatial_join_with_buffer(coastdat_geo, geo, limit=0)] returns
    the grid table with one more column, the region a grid point lies in, if
    any. *)

Class Shapes (Polygon Point : Type) : Type := {
  centroid : Polygon -> Point;
  representative_point : Polygon -> Point;
  intersects : Polygon -> Point -> bool;
  spatial_join_with_buffer :
    list (Z * Point) -> list (string * Polygon) -> list (Z * option string)
}.

Section spatial_average_weather.
Context {Polygon Point : Type} `{Shapes Polygon Point}.

(** [geo.gdf]: the regions with their polygons; [coastdat_grid]: the grid
    polygons of the geometry path, keyed by their gid. *)
Variable geo : list (string * Polygon).
Variable coastdat_grid : list (Z * Polygon).

(** [coastdat_geo.gdf] after the join: the grid reduced to its centroids,
    with the region of every grid point. *)
Definition coastdat_geo : list (Z * option string) :=
  spatial_join_with_buffer ((λ g, (g.1, centroid g.2)) <$> coastdat_grid) geo.

(** [coastdat_geo.gdf[coastdat_geo.gdf[col_name] == region].index]. *)
Definition cd_ids_of (region : string) : list Z :=
  (filter (λ g, g.2 = Some region) coastdat_geo).*1.

(** [set(geo.gdf.index) - set(coastdat_geo.gdf[col_name].unique())], listed
    in the order of the index. *)
Definition regions_without_match : list string :=
  filter (λ reg, Some reg ∉ coastdat_geo.*2) (remove_dups geo.*1).

(** [coastdat_poly.gdf.loc[coastdat_poly.gdf.intersects(reg_point)].index[0]];
    an empty selection has no first index. *)
Definition first_intersecting (reg_point : Point) : result Z :=
  of_option IndexError
    (head (filter (λ g, intersects g.2 reg_point = true) coastdat_grid).*1).

(** [geo.gdf.representative_point().loc[reg]]. *)
Definition region_point (reg : string) : result Point :=
  of_option KeyError
    (representative_point <$> (snd <$> head (filter (λ g, g.1 = reg) geo))).

(** The grid point assigned to a region with no matches: the first grid
    polygon that intersects the representative point of the region. *)
Definition fallback_point (reg : string) : result Z :=
  reg_point <- region_point reg ;;
  first_intersecting reg_point.

(** The loop that fixes the regions with no matches; [fix_] is the dict
    [fix] of the source. *)
Definition fix_regions : result (gmap string Z) :=
  for_each
    (λ (fix_ : gmap string Z) reg,
       gid <- fallback_point reg ;;
       Ok (<[reg := gid]> fix_))
    regions_without_match ∅.

(** [weather[key][parameter]] with [key = 'A' + str(cid)]. *)
Definition weather_series (weather : HDFStore) (parameter : string) (cid : Z)
    : result Series :=
  frame <- store_get weather cid ;;
  frame_get frame parameter.

(** The series assigned to [avg_value[region]]. *)
Definition region_average (weather : HDFStore) (parameter : string)
    (fix_ : gmap string Z) (region : string) : result Series :=
  let cd_ids := cd_ids_of region in
  let number_of_sets := length cd_ids in
  tmp <- for_each
           (λ tmp cid, s <- weather_series weather parameter cid ;;
                       Ok (setitem tmp cid s))
           cd_ids (empty_frame 0) ;;
  if decide (length cd_ids < 1) then
    gid <- of_option KeyError (fix_ !! region) ;;
    weather_series weather parameter gid
  else Ok (divide (sum_rows tmp) (of_nat number_of_sets)).

(** The frame written to [outfile]. *)
Definition spatial_average_weather (weather : HDFStore) (parameter : string)
    : result (DataFrame string) :=
  fix_ <- fix_regions ;;
  for_each
    (λ avg_value region,
       s <- region_average weather parameter fix_ region ;;
       Ok (setitem avg_value region s))
    geo.*1 (empty_frame 0).

(** The weather store holds a series of [n] hours of the parameter for every
    grid point that a region of the index is aggregated from: the grid points
    the join gave it, or the point the fix holds for it. *)
Definition weather_complete (weather : HDFStore) (parameter : string)
    (fix_ : gmap string Z) (n : nat) : Prop :=
  ∀ region, region ∈ geo.*1 ->
    (∀ cid, cid ∈ cd_ids_of region ->
       ∃ s, weather_series weather parameter cid = Ok s ∧ length s = n)
    ∧ (cd_ids_of region = [] ->
       ∃ gid s, fix_ !! region = Some gid
                ∧ weather_series weather parameter gid = Ok s ∧ length s = n).

End spatial_average_weather.

(** ** get_average_wind_speed *)

(** [calendar.isleap(year)]. *)
Definition isleap (year : Z) : bool :=
  ((year mod 4 =? 0) && (negb (year mod 100 =? 0) || (year mod 400 =? 0)))%Z.

(** [s[:k]] for an integer [k], counted from the end when negative. *)
Definition slice_to (k : Z) (s : Series) : Series :=
  if (k <? 0)%Z then take (Z.to_nat (Z.of_nat (length s) + k)) s
  else take (Z.to_nat k) s.

(** The rows of one year that enter the average: entries beyond the hours of
    the year are removed. *)
Definition year_rows (year : Z) (ws : Series) : Series :=
  let h_max := if isleap year then 8784%Z else 8760%Z in
  let surplus := (h_max - Z.of_nat (length ws))%Z in
  if (surplus <? 0)%Z then slice_to surplus ws else ws.

(** [s.mean()], which skips not-a-number entries. *)
Definition mean (s : Series) : float :=
  fdiv (nansum s) (of_nat (length (filter (λ x, isnan x = false) s))).

(** The average wind speed of one grid point over the years of [store]:
    [wind_speed_avg.mean()] after the loop over the years. *)
Definition grid_point_average (store : list (Z * HDFStore)) (key : Z)
    : result float :=
  wind_speed_avg <-
    for_each
      (λ wind_speed_avg '(year, weather),
         ws <- weather_series weather "v_wind" key ;;
         Ok (wind_speed_avg ++ year_rows year ws))
      store [] ;;
  Ok (mean wind_speed_avg).

(** The table [polygons]: the rows of the grid geometry file in the order of
    the file, each with its gid, its geometry as it is written, and its
    average wind speed, which is not-a-number until it is assigned.  A row
    that an assignment adds has no geometry.  The column [v_wind_avg] exists
    from the first assignment on. *)
Record wind_table : Type := mk_wind_table {
  wt_rows : list (Z * option string * float);
  wt_avg : bool
}.

(** [polygons.loc[weather_id, 'v_wind_avg'] = x]: every row of that gid takes
    the value; with no such row, a row is added at the end. *)
Definition loc_set (weather_id : Z) (x : float) (polygons : wind_table)
    : wind_table :=
  if decide (weather_id ∈ (wt_rows polygons).*1.*1) then
    mk_wind_table
      ((λ row, if decide (row.1.1 = weather_id) then (row.1, x) else row)
       <$> wt_rows polygons) true
  else mk_wind_table (wt_rows polygons ++ [(weather_id, None, x)]) true.

(** The table that is written.  [grid] holds the rows of the grid geometry
    file, which is taken to be readable, and [keys] is [HDFStore.keys()],
    the ids of a store in the order in which the store lists them.  The
    indexes of the series of different years are taken to be disjoint. *)
Definition average_wind_speed (keys : HDFStore -> list Z)
    (grid : list (Z * string)) (store : list (Z * HDFStore))
    : result wind_table :=
  let polygons :=
    mk_wind_table ((λ g, (g.1, Some g.2, NaN)) <$> grid) false in
  first <- of_option IndexError (head store) ;;
  for_each
    (λ polygons key, avg <- grid_point_average store key ;;
                     Ok (loc_set key avg polygons))
    (keys first.2) polygons.

(** ** The hydro and geothermal estimators *)

(** The hours of a calendar year. *)
Definition hours_in_year (year : Z) : nat :=
  if isleap year then 8784 else 8760.

(** [len(pd.date_range(start='<year>-01-01 00:00', end='<year>-12-31 23:00',
    freq='H', tz='Europe/Berlin'))].  From 1950 on, Berlin is on Central
    European Time at both ends of every year, so the index has 24 rows for
    every day of the year.  The timestamps of pandas end in April 2262: the
    end of a later year is out of bounds, and a year of more than four digits
    is not read, both of which are a [ValueError].  For a year before 1950
    the length depends on the time zone table and on how a short year number
    is read; it is taken from [other_years]. *)
Definition hourly_index (other_years : Z -> result nat) (year : Z) : result nat :=
  if decide (2261 < year)%Z then Raise ValueError
  else if decide (1950 <= year)%Z then Ok (hours_in_year year)
  else other_years year.

(** [feed_in = pd.DataFrame(columns=regions, index=idx)] filled with one
    value. *)
Definition constant_frame (regions : list string) (n : nat) (x : float)
    : DataFrame string :=
  mkDataFrame n ((λ region, (region, replicate n x)) <$> regions).

(** [l[:-1]]. *)
Definition all_but_last {A} (l : list A) : list A := take (length l - 1) l.

(** [os.path.join(a, *p)] of posixpath. *)
Definition starts_with_slash (s : string) : bool :=
  match s with
  | String c _ => bool_decide (c = "/"%char)
  | EmptyString => false
  end.

Fixpoint ends_with_slash (s : string) : bool :=
  match s with
  | EmptyString => false
  | String c EmptyString => bool_decide (c = "/"%char)
  | String _ rest => ends_with_slash rest
  end.

Definition os_path_join (a : string) (p : list string) : string :=
  foldl (λ path b,
           if starts_with_slash b then b
           else if bool_decide (path = EmptyString) || ends_with_slash path
                then path +:+ b
                else path +:+ "/" +:+ b)
    a p.

(** What the estimators ask of the operating system: [os.path.abspath],
    which depends on the working directory of the process, and the directory
    that has to exist for a file of a given name to be opened for writing,
    as an absolute path. *)
Record os_env : Type := mk_os_env {
  abspath : string -> string;
  holding_dir : string -> string
}.

(** The disk: the directories, by their absolute path, and the tables
    written as csv, by the name they were written under. *)
Record disk : Type := mk_disk {
  dirs : gset string;
  tables : gmap string (DataFrame string)
}.

(** The directories above an absolute path, from the first below the root. *)
Definition ancestors (path : string) : list string :=
  (λ k, join "/" (take k (split "/"%char path)))
  <$> seq 2 (length (split "/"%char path) - 2).

(** [os.makedirs(path)] for a path that is no directory: the directory is
    made with the missing ones above it.  It is taken to be permitted, and
    no file to be in the way. *)
Definition makedirs (path : string) (d : disk) : disk :=
  mk_disk ({[ path ]} ∪ list_to_set (ancestors path) ∪ dirs d) (tables d).

(** [feed_in.to_csv(name)]: the file is opened for writing, which fails when
    the directory that holds it does not exist. *)
Definition to_csv (os : os_env) (name : string) (feed_in : DataFrame string)
    (d : disk) : result unit * disk :=
  if decide (holding_dir os name ∈ dirs d) then
    (Ok (), mk_disk (dirs d) (<[name := feed_in]> (tables d)))
  else (Raise OSError, d).

(** [hydro] is the table [bmwi_re_energy_capacity()['water']], the annual
    energy by year. *)
Definition hydro_full_load_hours (hydro : Z -> option float) (pp : PowerPlants)
    (year : Z) : result float :=
  hydro_capacity <-
    match filter (λ r, pp_category r = "Hydro"%string) pp with
    | [] => Raise KeyError
    | rows => Ok (nansum ((λ r, pp_value r "capacity") <$> rows))
    end ;;
  energy <- of_option KeyError (hydro year) ;;
  Ok (fmul (fdiv energy hydro_capacity) (Fin (Qc_of_nat 1000))).

(** The function returns nothing; the disk it leaves is returned with the
    outcome. *)
Definition aggregate_by_region_hydro (os : os_env)
    (other_years : Z -> result nat) (hydro : Z -> option float)
    (pp : PowerPlants) (regions : list string) (year : Z)
    (outfile_name : string) (d : disk) : result unit * disk :=
  match hydro_full_load_hours hydro pp year with
  | Raise e => (Raise e, d)
  | Ok full_load_hours =>
      match all_but_last (split "/"%char outfile_name) with
      | [] => (Raise TypeError, d)
      | a :: p =>
          let hydro_path := abspath os (os_path_join a p) in
          let d := if decide (hydro_path ∈ dirs d) then d
                   else makedirs hydro_path d in
          match hourly_index other_years year with
          | Raise e => (Raise e, d)
          | Ok n =>
              to_csv os outfile_name
                (constant_frame regions n (fdiv full_load_hours (of_nat n))) d
          end
      end
  end.


(** ** Files and downloads

    A file holds what was written to it: the payload of a response, or a
    table written as csv.  Two files with the same content are the same
    bytes.  Messages to the log are not part of the state. *)

Inductive file : Type :=
  | Payload (content : string)
  | FeedinCsv (feed_in : FeedinFrame)
  | WindSpeedCsv (table : wind_table).

(** The state the functions act on: the files, and the requests sent and the
    files written, both in order. *)
Record world : Type := mk_world {
  files : gmap string file;
  requests : list string;
  writes : list string
}.

Record response : Type := mk_response {
  status_code : Z;
  content : string
}.

(** What the functions read and do not change: the server behind
    [requests.get], the configuration behind [cfg.get], [str.format] on the
    url of the shapefiles, and the unpacking of the downloaded archive into
    the shapefiles of the year, which fails on a file that is no archive. *)
Record environment : Type := mk_environment {
  server : string -> response;
  cfg_get : string -> string -> option string;
  format_url : string -> Z -> string -> string;
  unpack : Z -> string -> gmap string file -> option (gmap string file)
}.

Definition isfile (w : world) (filename : string) : bool :=
  bool_decide (is_Some (files w !! filename)).

Definition requests_get (env : environment) (url : string) (w : world)
    : response * world :=
  (server env url, mk_world (files w) (requests w ++ [url]) (writes w)).

(** [with open(filename, 'wb') as f: f.write(x)]. *)
Definition write_file (filename : string) (x : file) (w : world) : world :=
  mk_world (<[filename := x]> (files w)) (requests w) (writes w ++ [filename]).

Definition path_join (a b : string) : string := a +:+ "/" +:+ b.

(** *** tools.download_file *)

Definition download_file (env : environment) (filename url : string)
    (overwrite : bool) (w : world) : Z * world :=
  if negb (isfile w filename) || overwrite then
    let '(req, w) := requests_get env url w in
    let w := write_file filename (Payload (content req)) w in
    (status_code req, w)
  else (1%Z, w).

(** *** coastdat.get_coastdat_data *)

Definition get_coastdat_data (env : environment) (year : Z) (filename : string)
    (w : world) : world :=
  let ini_key := "coastdat" +:+ pretty year in
  let '(url, w) :=
    match cfg_get env "coastdat" ini_key with
    | Some url => (Some url, (download_file env filename url false w).2)
    | None => (None, w)
    end in
  match url with
  | Some url =>
      let '(response, w) := requests_get env url w in
      if decide (status_code response = 200%Z) then
        write_file filename (Payload (content response)) w
      else w
  | None => w
  end.

(** *** inhabitants.get_ew_shp_file

    The function raises or returns nothing; the world it leaves is returned
    with the outcome. *)

Definition get_ew_shp_file (env : environment) (year : Z) (w : world)
    : result unit * world :=
  if decide (year < 2011)%Z then
    (Raise (AttributeError "Years < 2011 are not allowed in this function."), w)
  else
    match cfg_get env "paths" "inhabitants" with
    | None => (Raise NoOptionError, w)
    | Some path =>
        let outshp := path_join path ("VG250_VWG_" +:+ pretty year +:+ ".shp") in
        if negb (isfile w outshp) then
          match cfg_get env "inhabitants" "url_geodata_ew",
                cfg_get env "inhabitants" "vg250_ew_zip" with
          | Some template, Some zip_name =>
              let filename_zip := path_join path zip_name in
              let '(msg, w) :=
                download_file env filename_zip
                  (format_url env template year "ebene") false w in
              let w :=
                if decide (msg = 404%Z) then
                  (download_file env filename_zip
                     (format_url env template year "ebenen") true w).2
                else w in
              match unpack env year filename_zip (files w) with
              | Some files' => (Ok (), mk_world files' (requests w) (writes w))
              | None => (Raise BadZipFile, w)
              end
          | _, _ => (Raise NoOptionError, w)
          end
        else (Ok (), w)
    end.

(** *** coastdat.get_average_wind_speed

    [store] holds the weather files found in the weather path, by year. *)

Definition get_average_wind_speed (keys : HDFStore -> list Z)
    (grid : list (Z * string)) (store : list (Z * HDFStore))
    (out_file : string) (overwrite : bool) (w : world) : result world :=
  if negb (isfile w out_file) || overwrite then
    polygons <- average_wind_speed keys grid store ;;
    Ok (write_file out_file (WindSpeedCsv polygons) w)
  else Ok w.

(** *** coastdat.aggregate_by_region_coastdat_feedin

    [files] holds the [h5] files found in the coastdat path of the year and
    the category, a path that is taken to exist. *)

Definition aggregate_by_region_coastdat_feedin (pp : PowerPlants)
    (files : list (string * HDFStore)) (regions : list string) (year : Z)
    (category : string) (outfile : string) (w : world) : result world :=
  feed_in <- aggregate_feedin pp files regions year category ;;
  Ok (write_file outfile (FeedinCsv feed_in) w).

(** ** Notions used to state the properties *)

(** The sum of a list of rationals. *)
Definition sum_Qc (qs : list Qc) : Qc := foldr Qcplus 0%Qc qs.

(** The capacity of the row of a grid point among the rows of a region. *)
Definition capacity_at (pp : PowerPlants) (category region : string) (year : Z)
    (id : Z) : float :=
  match filter (λ r, pp_coastdat_id r = id) (pp_rows pp category region) with
  | r :: _ => pp_capacity r year
  | [] => NaN
  end.

(** The rational [n/d]. *)
Definition qc (n d : Z) : Qc := Q2Qc (Qmake n (Z.to_pos d)).

(** ** Data of the scenarios *)

(** A stored frame of [n] hours with one sub-set whose series is constant. *)
Definition const_frame (n : nat) (x : float) : DataFrame string :=
  mkDataFrame n [("coastdat_2014_wind_E-82_3000_120"%string, replicate n x)].

(** A row of the power-plant table with the same capacity in every column. *)
Definition plant (category region : string) (id : Z) (capacity : Qc) : pp_row :=
  mk_pp_row category region id (λ _, Fin capacity).

(** Two grid points of one region with capacities 2 and 3, and their series,
    constant 1 and constant 2, over [n] hours. *)
Definition scenario_pp : PowerPlants :=
  [plant "Wind" "DE01" 1 (qc 2 1); plant "Wind" "DE01" 2 (qc 3 1)].

Definition scenario_store (n : nat) : HDFStore :=
  <[1%Z := const_frame n (Fin (qc 1 1))]>
    (<[2%Z := const_frame n (Fin (qc 2 1))]>
       (<[reference_id := const_frame n zero]> ∅)).

(** A region whose only grid point has no capacity installed. *)
Definition idle_pp : PowerPlants := [plant "Wind" "DE01" 1 (qc 0 1)].

Definition idle_store : HDFStore :=
  <[1%Z := const_frame 2 (Fin (qc 1 2))]>
    (<[reference_id := const_frame 2 zero]> ∅).

(** A grid point of capacity 1 whose series holds the value 1 at each of the
    [n] hours. *)
Definition unit_pp : PowerPlants := [plant "Wind" "DE01" 1 (qc 1 1)].

Definition unit_store (n : nat) : HDFStore :=
  <[1%Z := const_frame n (Fin (qc 1 1))]>
    (<[reference_id := const_frame n zero]> ∅).

Definition empty_world : world := mk_world ∅ [] [].

(** A server that knows no url, and a configuration with the paths and urls
    the functions ask for. *)
Definition not_found : environment :=
  mk_environment
    (λ _, mk_response 404 "Not Found")
    (λ section key, Some (section +:+ "." +:+ key))
    (λ template year var1, template +:+ pretty year +:+ var1)
    (λ _ _ fs, Some fs).

(** Axis-parallel rectangles over integer coordinates: a grid cell or a
    region is [(x0, x1, y0, y1)], a point is [(x, y)]. *)
Definition Rect : Type := Z * Z * Z * Z.

Definition inside (r : Rect) (p : Z * Z) : bool :=
  let '(x0, x1, y0, y1) := r in
  ((x0 <=? p.1) && (p.1 <=? x1) && (y0 <=? p.2) && (p.2 <=? y1))%Z.

Definition middle (r : Rect) : Z * Z :=
  let '(x0, x1, y0, y1) := r in (((x0 + x1) / 2)%Z, ((y0 + y1) / 2)%Z).

(** Modelled from the spec: [geometries.spatial_join_with_buffer], which is
    not among the sources.  Every grid point is tested for containment
    against each region polygon and assigned to the containing region; no
    buffer is applied ([limit=0]). *)
Definition join_rects (points : list (Z * (Z * Z))) (regions : list (string * Rect))
    : list (Z * option string) :=
  (λ g, (g.1, fst <$> head (filter (λ reg, inside reg.2 g.2 = true) regions)))
  <$> points.

#[local] Instance rect_shapes : Shapes Rect (Z * Z) := {
  centroid := middle;
  representative_point := middle;
  intersects := inside;
  spatial_join_with_buffer := join_rects
}.

(** Two grid cells of width 10, a region that holds the centroid of the
    first, and a small region inside the second cell that holds no centroid. *)
Definition grid2 : list (Z * Rect) :=
  [(1%Z, (0, 10, 0, 10)%Z); (2%Z, (10, 20, 0, 10)%Z)].

Definition regions2 : list (string * Rect) :=
  [("A"%string, (0, 9, 0, 10)%Z); ("B"%string, (16, 18, 1, 3)%Z)].

(** A weather store with a temperature series for both grid points. *)
Definition weather2 : HDFStore :=
  <[1%Z := mkDataFrame 3 [("temp_air"%string, [Fin (qc 280 1); Fin (qc 281 1); Fin (qc 283 1)])]]>
    (<[2%Z := mkDataFrame 3 [("temp_air"%string, [Fin (qc 270 1); Fin (qc 271 1); Fin (qc 272 1)])]]> ∅).

(** [store['/A<id>'][col]] where it exists, and no row where it does not. *)
Definition stored_series (store : HDFStore) (col : string) (id : Z) : Series :=
  match store !! id with
  | Some frame => default [] (get_column col (df_columns frame))
  | None => []
  end.

(** The sub-set of the stored frames of the scenarios. *)
Definition subset : string := "coastdat_2014_wind_E-82_3000_120".

(** A run of the feed-in aggregation on the scenario, and a world in which
    its output file exists with an older content. *)
Definition run_feedin (w : world) : result world :=
  aggregate_by_region_coastdat_feedin scenario_pp
    [("set"%string, scenario_store 2)] ["DE01"%string] 2014 "Wind"
    "feedin.csv" w.

Definition stale_world : world :=
  mk_world {[ "feedin.csv"%string := Payload "old" ]} [] [].

(** The columns of a set: those of the frame of the reference grid point. *)
Definition columns_of (store : HDFStore) : list string :=
  match store !! reference_id with
  | Some frame => (df_columns frame).*1
  | None => []
  end.

(** The stores hold, for every grid point of every region with grid points,
    a series in every column of the set, and the index of the power-plant
    table has no duplicates. *)
Definition complete_inputs (pp : PowerPlants) (files : list (string * HDFStore))
    (regions : list string) (category : string) : Prop :=
  ∀ region, region ∈ regions ->
    NoDup (region_ids pp category region)
    ∧ ∀ name store col id,
        (name, store) ∈ files -> col ∈ columns_of store ->
        id ∈ region_ids pp category region ->
        ∃ frame, store !! id = Some frame
                 ∧ is_Some (get_column col (df_columns frame)).

(** The inputs of the feed-in aggregation are in order: the set names are
    distinct, every store holds the frame of the reference grid point, that
    of the last store being [reference], and the stores are complete. *)
Definition feedin_inputs (pp : PowerPlants) (files : list (string * HDFStore))
    (regions : list string) (category : string) (reference : DataFrame string)
    : Prop :=
  NoDup files.*1
  ∧ (∀ name store, (name, store) ∈ files -> is_Some (store !! reference_id))
  ∧ (∃ last_name last_store,
       last files = Some (last_name, last_store)
       ∧ last_store !! reference_id = Some reference)
  ∧ complete_inputs pp files regions category.

(** The label of a column is shared by no other column of the set. *)
Definition own_label (store : HDFStore) (col : string) : Prop :=
  ∀ col', col' ∈ columns_of store -> colname col' = colname col -> col' = col.

(** The two grid points of the scenario, each with the capacity 5/2. *)
Definition equal_pp : PowerPlants :=
  [plant "Wind" "DE01" 1 (qc 5 2); plant "Wind" "DE01" 2 (qc 5 2)].

(** The series assigned for a region, a set and a column of the set, the key
    it is assigned to, and the sets and columns the loop of a region runs
    over. *)
Definition assigned (pp : PowerPlants) (sets : open_sets) (my_index : nat)
    (year : Z) (category : string) (x : string * (string * string))
    : result Series :=
  store <- dict_get (pwr sets) x.2.1 ;;
  region_column pp store my_index category x.1 year x.2.2
    (region_ids pp category x.1).

Definition assigned_key (x : string * (string * string))
    : string * string * string :=
  (x.1, x.2.1, colname x.2.2).

Definition region_loop (pp : PowerPlants) (files : list (string * HDFStore))
    (category region : string) : list (string * string) :=
  if decide (0 < length (region_ids pp category region)) then
    files ≫= λ file, (λ col, (file.1, col)) <$> columns_of file.2
  else [].

(** ** Tactics *)

Ltac Qc_compute := apply Qc_is_canon; vm_compute; reflexivity.
Ltac float_compute :=
  vm_compute; first [reflexivity | f_equal; apply Qc_is_canon; reflexivity].

(** * Further functions of the modules *)

(** ** coastdat.adapt_coastdat_weather_to_windpowerlib

    The function changes the frame [w] of its caller in place and returns
    it: the outcome is given with the frame as the call leaves it, which has
    plain column names until the heights are set.  [data_height] is the dict
    of the heights of the data. *)

Definition windpowerlib_cols : list (string * string) :=
  [("v_wind", "wind_speed"); ("z0", "roughness_length");
   ("temp_air", "temperature")]%string.

(** [w.rename(columns=cols, inplace=True)]: a name that is no key of the
    dict is kept. *)
Definition rename (cols : list (string * string)) (name : string) : string :=
  default name (snd <$> head (filter (λ kv, kv.1 = name) cols)).

Definition rename_columns (cols : list (string * string)) (w : DataFrame string)
    : DataFrame string :=
  mkDataFrame (df_rows w) ((λ kv, (rename cols kv.1, kv.2)) <$> df_columns w).

(** [[(key, data_height[key]) for key in w.columns]]. *)
Definition with_heights {H} (data_height : gmap string H) (names : list string)
    : result (list (string * H)) :=
  for_each
    (λ dh key, height <- dict_get data_height key ;; Ok (dh ++ [(key, height)]))
    names [].

(** The frame of the caller: with plain column names, or with the columns
    [(name, height)] of the MultiIndex. *)
Inductive weather_frame (H : Type) : Type :=
  | Plain (w : DataFrame string)
  | WithHeights (w : DataFrame (string * H)).
Arguments Plain {H} w.
Arguments WithHeights {H} w.

(** [pd.MultiIndex.from_tuples] refuses an empty list. *)
Definition adapt_coastdat_weather_to_windpowerlib {H} (w : DataFrame string)
    (data_height : gmap string H) : result unit * weather_frame H :=
  let w := rename_columns windpowerlib_cols w in
  match with_heights data_height (df_columns w).*1 with
  | Raise e => (Raise e, Plain w)
  | Ok [] => (Raise TypeError, Plain w)
  | Ok dh => (Ok (), WithHeights (mkDataFrame (df_rows w) (zip dh (df_columns w).*2)))
  end.

(** ** coastdat.fetch_coastdat2_year_from_db

    The directory of the weather files maps the name of a file to the store
    written to it.  The function returns nothing; the directory it leaves is
    returned with the outcome. *)

Record weather_set : Type := mk_weather_set {
  ws_name : Z;
  ws_data : DataFrame string
}.

(** The outcome of [db.connection()]: a connection, the [OperationalError]
    of sqlalchemy, or another exception. *)
Inductive connection (C : Type) : Type :=
  | Connected (conn : C)
  | Refused
  | Failed (e : exn).
Arguments Connected {C} conn.
Arguments Refused {C}.
Arguments Failed {C} e.

(** What the function takes from outside the module: [db], which is [None]
    when the import of [oemof.db] or of [sqlalchemy] failed and the outcome
    of [db.connection()] otherwise; the polygon of Germany read from the
    geometry file; [coastdat.get_weather(conn, polygon, year)], where [conn]
    is [None] after an [OperationalError]; and [weather.format(year=...)],
    for a pattern that has no other field than the year.  After a failed
    import [exc] is [None] as well as [db]: [db.connection()] raises an
    [AttributeError], and so does [exc.OperationalError] in the [except]
    clause that is looked at then; the latter is what the caller sees. *)
Record database (C P : Type) : Type := mk_database {
  db : option (connection C);
  read_polygon : string -> result P;
  get_weather : option C -> P -> Z -> result (list weather_set);
  format_year : string -> Z -> string
}.
Arguments mk_database {C P} _ _ _ _.
Arguments db {C P} _.
Arguments read_polygon {C P} _ _.
Arguments get_weather {C P} _ _ _ _.
Arguments format_year {C P} _ _ _.

(** The store written for a year: [store['A' + str(weather_set.name)] =
    weather_set.data] for every weather set. *)
Definition store_weather_sets (weather_sets : list weather_set) : HDFStore :=
  foldl (λ store weather_set, <[ws_name weather_set := ws_data weather_set]> store)
    ∅ weather_sets.

(** The body of the loop over the years. *)
Definition fetch_year (weather_file : Z -> string)
    (get_weather : Z -> result (list weather_set)) (overwrite : bool)
    (year : Z) (dir : gmap string HDFStore)
    : result unit * gmap string HDFStore :=
  if negb (bool_decide (is_Some (dir !! weather_file year))) || overwrite then
    match
      match get_weather year with
      | Raise (AttributeError _) => Ok []
      | r => r
      end
    with
    | Raise e => (Raise e, dir)
    | Ok weather_sets =>
        if decide (0 < length weather_sets) then
          (Ok (), <[weather_file year := store_weather_sets weather_sets]> dir)
        else (Ok (), dir)
    end
  else (Ok (), dir).

(** A loop whose body changes a state and may raise: the state that the
    raising step leaves is kept. *)
Fixpoint for_each_on {A S} (body : A -> S -> result unit * S) (xs : list A)
    (s : S) : result unit * S :=
  match xs with
  | [] => (Ok (), s)
  | x :: rest =>
      match body x s with
      | (Ok _, s) => for_each_on body rest s
      | (Raise e, s) => (Raise e, s)
      end
  end.

Definition fetch_coastdat2_year_from_db {C P} (env : environment)
    (dbase : database C P) (years : option (list Z)) (overwrite : bool)
    (dir : gmap string HDFStore) : result unit * gmap string HDFStore :=
  match
    weather_path <- of_option NoOptionError (cfg_get env "paths" "weather") ;;
    file_pattern <- of_option NoOptionError (cfg_get env "weather" "file_pattern") ;;
    geometry_path <- of_option NoOptionError (cfg_get env "paths" "geometry") ;;
    germany <- of_option NoOptionError (cfg_get env "geometry" "germany_polygon") ;;
    polygon <- read_polygon dbase (path_join geometry_path germany) ;;
    conn <- match db dbase with
            | None =>
                Raise (AttributeError
                         "'NoneType' object has no attribute 'OperationalError'")
            | Some (Connected conn) => Ok (Some conn)
            | Some Refused => Ok None
            | Some (Failed e) => Raise e
            end ;;
    Ok (path_join weather_path file_pattern, polygon, conn)
  with
  | Raise e => (Raise e, dir)
  | Ok (weather, polygon, conn) =>
      let years := default (seqZ 1980 40) years in
      for_each_on
        (fetch_year (format_year dbase weather) (get_weather dbase conn polygon)
           overwrite)
        years dir
  end.

(** ** inhabitants.get_ew_geometry and get_ew_by_region

    [read_file] is [gpd.read_file]: the rows of a shapefile, each with its
    polygon and its number of inhabitants [EWZ].  [join] is
    [geometries.spatial_join_with_buffer(ew, geo)] with its default buffer:
    the rows with the region they fall in, if any. *)

(** A 64-bit integer of numpy: sums wrap around. *)
Definition int64 (z : Z) : Z := ((z + 2 ^ 63) mod 2 ^ 64 - 2 ^ 63)%Z.

(** [gdf.groupby(col).sum()['EWZ']]: the sum by region; a row without
    region belongs to no group. *)
Definition groupby_sum (rows : list (option string * Z)) : gmap string Z :=
  foldl (λ sums row,
           match row.1 with
           | Some region =>
               <[region := int64 (default 0%Z (sums !! region) + row.2)]> sums
           | None => sums
           end) ∅ rows.

Section inhabitants.
Context {Polygon Point : Type} `{Shapes Polygon Point}.
Variable read_file : gmap string file -> string -> result (list (Polygon * Z)).
Variable join :
  list (Point * Z) -> list (string * Polygon) -> list (option string * Z).

Definition get_ew_geometry (env : environment) (year : Z) (w : world)
    : result (list (Point * Z)) * world :=
  match cfg_get env "paths" "inhabitants" with
  | None => (Raise NoOptionError, w)
  | Some path =>
      let filename_shp :=
        path_join path ("VG250_VWG_" +:+ pretty year +:+ ".shp") in
      let '(fetched, w) :=
        if negb (isfile w filename_shp) then get_ew_shp_file env year w
        else (Ok (), w) in
      match fetched with
      | Raise e => (Raise e, w)
      | Ok _ =>
          (gdf <- read_file (files w) filename_shp ;;
           Ok ((λ row, (representative_point row.1, row.2)) <$> gdf), w)
      end
  end.

Definition get_ew_by_region (env : environment) (year : Z)
    (geo : list (string * Polygon)) (w : world)
    : result (gmap string Z) * world :=
  let '(ew, w) := get_ew_geometry env year w in
  (gdf <- ew ;; Ok (groupby_sum (join gdf geo)), w).

End inhabitants.

(** ** Notions used to state the further properties *)

(** A store whose series are cut to their first 8760 rows. *)
Definition cut_frame (frame : DataFrame string) : DataFrame string :=
  mkDataFrame (df_rows frame) ((λ kv, (kv.1, take 8760 kv.2)) <$> df_columns frame).

Definition cut_store (store : HDFStore) : HDFStore := cut_frame <$> store.

(** The number of occurrences of a character. *)
Fixpoint count_char (c : ascii) (s : string) : nat :=
  match s with
  | EmptyString => 0
  | String c' rest => (if decide (c' = c) then 1 else 0) + count_char c rest
  end.

(** The sum of a list of integers. *)
Definition sum_Z (zs : list Z) : Z := foldr Z.add 0%Z zs.

(** A weather store with a wind speed series for two grid points. *)
Definition wind2 : HDFStore :=
  <[1%Z := mkDataFrame 2 [("v_wind"%string, [Fin (qc 3 1); Fin (qc 5 1)])]]>
    (<[2%Z := mkDataFrame 2 [("v_wind"%string, [Fin (qc 5 1); Fin (qc 7 1)])]]> ∅).

(** One region that holds the centroids of both grid cells. *)
Definition regions1 : list (string * Rect) := [("AB"%string, (0, 20, 0, 10)%Z)].

(** The value a series holds at an hour: a number, or none. *)
Definition number_or_nan (v : option Qc) : float := from_option Fin NaN v.

(** The files of the coastdat path with every stored series cut to its first
    8760 rows, and the state of the first loop over such files. *)
Definition cut_files (files : list (string * HDFStore)) : list (string * HDFStore) :=
  (λ file, (file.1, cut_store file.2)) <$> files.

Definition cut_sets (sets : open_sets) : open_sets :=
  mk_open_sets (set_names sets) (set_name sets) (cut_store <$> pwr sets)
    (columns sets).

(** A store of 8761 hours whose series differs from that of [unit_store 8761]
    in the last hour only. *)
Definition late_store : HDFStore :=
  <[1%Z := mkDataFrame 8761 [(subset, replicate 8760 (Fin (qc 1 1)) ++ [Fin (qc 7 1)])]]>
    (<[reference_id := const_frame 8761 zero]> ∅).

(** The store of the scenario over two hours, the first grid point holding
    no value at the first hour. *)
Definition gap_store : HDFStore :=
  <[1%Z := mkDataFrame 2 [(subset, [NaN; Fin (qc 1 1)])]]>
    (<[2%Z := const_frame 2 (Fin (qc 2 1))]>
       (<[reference_id := const_frame 2 zero]> ∅)).

(** A set with two columns whose names end in the same three parts. *)
Definition twin_frame (x y : float) : DataFrame string :=
  mkDataFrame 2 [("a_E-82_3000_120"%string, [x; x]);
                 ("b_E-82_3000_120"%string, [y; y])].

Definition twin_store : HDFStore :=
  <[1%Z := twin_frame (Fin (qc 1 1)) (Fin (qc 3 1))]>
    (<[reference_id := twin_frame zero zero]> ∅).

(** The weather sets of two grid points, and a database that is connected
    and holds them for the year 2014 only. *)
Definition sets2 : list weather_set :=
  [mk_weather_set 1 (mkDataFrame 1 [("v_wind"%string, [Fin (qc 3 1)])]);
   mk_weather_set 2 (mkDataFrame 1 [("v_wind"%string, [Fin (qc 5 1)])])].

Definition database2 : database unit unit :=
  mk_database (Some (Connected ()))
    (λ _, Ok ())
    (λ conn _ year,
       match conn with
       | None => Raise (AttributeError "'NoneType' object has no attribute 'execute'")
       | Some _ => if decide (year = 2014%Z) then Ok sets2 else Ok []
       end)
    (λ pattern year, pattern +:+ pretty year).

(** A weather frame with the columns of coastdat, and the heights of the
    data by the names of the windpowerlib. *)
Definition coastdat_frame : DataFrame string :=
  mkDataFrame 1 [("v_wind"%string, [Fin (qc 3 1)]); ("z0"%string, [Fin (qc 1 10)]);
                 ("pressure"%string, [Fin (qc 1000 1)])].

Definition heights : gmap string Z :=
  <["wind_speed"%string := 10%Z]>
    (<["roughness_length"%string := 0%Z]> (<["pressure"%string := 0%Z]> ∅)).

(** Three municipalities with their inhabitants, a shapefile reader that
    finds them in every file, and a world that holds the shapefile of 2005. *)
Definition municipalities : list (Rect * Z) :=
  [((0, 4, 0, 4)%Z, 100%Z); ((5, 9, 0, 4)%Z, 50%Z); ((30, 31, 0, 1)%Z, 7%Z)].

Definition read_municipalities (fs : gmap string file) (filename : string)
    : result (list (Rect * Z)) :=
  Ok municipalities.

(** Modelled from the spec: [geometries.spatial_join_with_buffer] on the
    points of the municipalities, which is not among the sources.  Every
    point is assigned to the first region that contains it. *)
Definition join_points (points : list (Z * Z * Z)) (regions : list (string * Rect))
    : list (option string * Z) :=
  (λ row, (fst <$> head (filter (λ reg, inside reg.2 row.1 = true) regions), row.2))
  <$> points.

Definition shp_world : world :=
  mk_world {[ "paths.inhabitants/VG250_VWG_2005.shp"%string := Payload "shp" ]}
    [] [].

(** A value as [sum] with [skipna] counts it. *)
Definition zero_for_nan (x : float) : float := if isnan x then zero else x.

(** The weather store of the scenario with no value at the second hour of the
    first grid point. *)
Definition weather_gap : HDFStore :=
  <[1%Z := mkDataFrame 3 [("temp_air"%string, [Fin (qc 280 1); NaN; Fin (qc 283 1)])]]>
    (<[2%Z := mkDataFrame 3 [("temp_air"%string, [Fin (qc 270 1); Fin (qc 271 1); Fin (qc 272 1)])]]> ∅).

(** A process that works in the directory [/work], on a disk that holds this
    directory only. *)
Definition workdir : os_env :=
  mk_os_env
    (λ path, if starts_with_slash path then path
             else if decide (path = EmptyString) then "/work"
             else "/work/" +:+ path)
    (λ name,
       let dir := join "/" (all_but_last (split "/"%char name)) in
       if starts_with_slash dir then dir
       else if decide (dir = EmptyString) then "/work"
       else "/work/" +:+ dir).

Definition work_disk : disk := mk_disk {[ "/work"%string ]} ∅.

Definition hydro_energy (year : Z) : option float := Some (Fin (qc 20 1)).

(** Years before 1950 are not looked at in the scenarios. *)
Definition no_other_years (year : Z) : result nat := Raise ValueError.

(** The table of the average wind speeds in closed form: the rows of the
    grid in their order, with the average where the gid is a key of the
    store, and after them a row without geometry for every key that is no
    gid of the grid. *)
Definition wind_speed_table (avg : Z -> float) (grid : list (Z * string))
    (keys : list Z) : wind_table :=
  mk_wind_table
    (((λ g, (g.1, Some g.2, if decide (g.1 ∈ keys) then avg g.1 else NaN)) <$> grid)
     ++ ((λ key, (key, None, avg key)) <$> filter (λ key, key ∉ grid.*1) keys))
    (bool_decide (keys ≠ [])).

(** The keys of a store in the order of the map, and a grid of two cells, of
    which the second has no weather data. *)
Definition map_keys (store : HDFStore) : list Z := (map_to_list store).*1.

Definition wind_grid : list (Z * string) :=
  [(1%Z, "POLYGON A"%string); (3%Z, "POLYGON C"%string)].

(** One hydro plant without capacity. *)
Definition idle_hydro_pp : PowerPlants :=
  [mk_pp_row "Hydro" "DE01" 1 (λ _, Fin (qc 0 1))].

(** * Properties *)

(** ** The model on small inputs *)

Example colname_last_three :
  colname "coastdat_2014_wind_E-82_3000_120" = "E-82_3000_120"%string.
Proof. reflexivity. Qed.

Example colname_short : colname "a_b" = "a_b"%string.
Proof. reflexivity. Qed.

Example isleap_years :
  isleap 2016 = true ∧ isleap 2015 = false
  ∧ isleap 1900 = false ∧ isleap 2000 = true.
Proof. repeat split; reflexivity. Qed.

Example slice_to_negative :
  slice_to (-1) [Fin (qc 1 1); Fin (qc 2 1); Fin (qc 3 1)]
  = [Fin (qc 1 1); Fin (qc 2 1)].
Proof. reflexivity. Qed.

Example year_rows_short :
  year_rows 2015 [Fin (qc 1 1); Fin (qc 2 1)] = [Fin (qc 1 1); Fin (qc 2 1)].
Proof. reflexivity. Qed.

Example nansum_skips :
  nansum [Fin (qc 1 1); NaN; Fin (qc 2 1)] = Fin (qc 3 1).
Proof. float_compute. Qed.

Example mean_skips : mean [Fin (qc 1 1); NaN; Fin (qc 2 1)] = Fin (qc 3 2).
Proof. float_compute. Qed.

Example division_by_zero :
  fdiv zero zero = NaN ∧ fdiv (Fin (qc 1 1)) zero = PInf
  ∧ fdiv (Fin (qc (-1) 1)) zero = NInf.
Proof. repeat split; reflexivity. Qed.

Example reindex_pads :
  reindex 3 [Fin (qc 1 1)] = [Fin (qc 1 1); NaN; NaN].
Proof. reflexivity. Qed.

Example join_regions2 :
  coastdat_geo regions2 grid2 = [(1%Z, Some "A"%string); (2%Z, None)]
  ∧ regions_without_match regions2 grid2 = ["B"%string].
Proof. split; reflexivity. Qed.

Example average_regions2 :
  spatial_average_weather regions2 grid2 weather2 "temp_air"
  = Ok (mkDataFrame 3
          [("A"%string, [Fin (qc 280 1); Fin (qc 281 1); Fin (qc 283 1)]);
           ("B"%string, [Fin (qc 270 1); Fin (qc 271 1); Fin (qc 272 1)])]).
Proof. vm_compute. reflexivity. Qed.

Example feedin_scenario :
  aggregate_feedin scenario_pp [("set"%string, scenario_store 2)]
    ["DE01"%string; "DE02"%string] 2014 "Wind"
  = Ok (mkDataFrame 2
          [(("DE01", "set", "E-82_3000_120")%string,
            [Fin (qc 8 5); Fin (qc 8 5)])]).
Proof. vm_compute. reflexivity. Qed.

Example download_twice :
  (download_file not_found "a.zip" "url" false
     (download_file not_found "a.zip" "url" false empty_world).2).1 = 1%Z.
Proof. reflexivity. Qed.

(** ** Floating-point values *)

Lemma fmul_NaN_l x : fmul NaN x = NaN.
Proof. by destruct x. Qed.

Lemma fdiv_NaN_l x : fdiv NaN x = NaN.
Proof. by destruct x. Qed.

Lemma fdiv_Fin (a b : Qc) : b ≠ 0%Qc -> fdiv (Fin a) (Fin b) = Fin (a / b)%Qc.
Proof. intros Hb. unfold fdiv. by destruct (decide (b = 0%Qc)). Qed.

(** ** Series *)

Section series.
Implicit Types (s : Series) (h n : nat) (c : float).

Lemma at_hour_lookup s h x : s !! h = Some x -> at_hour s h = x.
Proof. unfold at_hour. by intros ->. Qed.

Lemma at_hour_outside s h : length s ≤ h -> at_hour s h = NaN.
Proof. intros H. unfold at_hour. by rewrite lookup_ge_None_2. Qed.

Lemma lookup_at_hour s h : h < length s -> s !! h = Some (at_hour s h).
Proof.
  intros H. unfold at_hour.
  destruct (lookup_lt_is_Some_2 s h H) as [x ->]. done.
Qed.

Lemma length_reindex n s : length (reindex n s) = n.
Proof. unfold reindex. by rewrite length_fmap, length_seq. Qed.

Lemma at_hour_reindex n s h : h < n -> at_hour (reindex n s) h = at_hour s h.
Proof.
  intros H. apply at_hour_lookup. unfold reindex.
  rewrite list_lookup_fmap, lookup_seq_lt by done. done.
Qed.

Lemma reindex_id s : reindex (length s) s = s.
Proof.
  apply list_eq. intros h. destruct (decide (h < length s)) as [H|H].
  - rewrite (lookup_at_hour (reindex _ _)) by (by rewrite length_reindex).
    rewrite at_hour_reindex by done. by rewrite lookup_at_hour.
  - rewrite (lookup_ge_None_2 s) by lia.
    apply lookup_ge_None_2. rewrite length_reindex. lia.
Qed.

Lemma at_hour_multiply s c h : at_hour (multiply s c) h = fmul (at_hour s h) c.
Proof.
  unfold at_hour, multiply. rewrite list_lookup_fmap.
  destruct (s !! h); simpl; [done | by destruct c].
Qed.

Lemma at_hour_divide s c h : at_hour (divide s c) h = fdiv (at_hour s h) c.
Proof.
  unfold at_hour, divide. rewrite list_lookup_fmap.
  destruct (s !! h); simpl; [done | by destruct c].
Qed.

Lemma at_hour_head_rows_lt n s h : h < n -> at_hour (head_rows n s) h = at_hour s h.
Proof. intros H. unfold at_hour, head_rows. by rewrite lookup_take_lt. Qed.

Lemma at_hour_head_rows_ge n s h : n ≤ h -> at_hour (head_rows n s) h = NaN.
Proof. intros H. unfold at_hour, head_rows. by rewrite lookup_take_ge. Qed.

Lemma length_divide s c : length (divide s c) = length s.
Proof. unfold divide. by rewrite length_fmap. Qed.
End series.

(** ** Frames *)

Section frames.
Context {K : Type} `{EqDecision K}.
Implicit Types (df : DataFrame K) (k : K) (s : Series).

Lemma length_sum_rows df : length (sum_rows df) = df_rows df.
Proof. unfold sum_rows. by rewrite length_fmap, length_seq. Qed.

Lemma at_hour_sum_rows df h :
  h < df_rows df ->
  at_hour (sum_rows df) h = nansum ((λ kv, at_hour kv.2 h) <$> df_columns df).
Proof.
  intros H. apply at_hour_lookup. unfold sum_rows.
  rewrite list_lookup_fmap, lookup_seq_lt by done. done.
Qed.

Lemma set_column_fresh k s (cols : list (K * Series)) :
  k ∉ cols.*1 -> set_column k s cols = cols ++ [(k, s)].
Proof.
  induction cols as [|[k' s'] cols IH]; simpl; [done|].
  intros Hk. apply not_elem_of_cons in Hk as [Hne Hk].
  destruct (decide (k' = k)); [congruence|]. by rewrite IH.
Qed.

Lemma get_column_set_column k s (cols : list (K * Series)) :
  get_column k (set_column k s cols) = Some s.
Proof.
  induction cols as [|[k' s'] cols IH]; simpl.
  - by destruct (decide (k = k)).
  - destruct (decide (k' = k)) as [->|Hne]; simpl.
    + by destruct (decide (k = k)).
    + by destruct (decide (k' = k)).
Qed.

Lemma get_column_set_column_ne k k' s (cols : list (K * Series)) :
  k ≠ k' -> get_column k' (set_column k s cols) = get_column k' cols.
Proof.
  intros Hne. induction cols as [|[k0 s0] cols IH]; simpl.
  - by destruct (decide (k = k')).
  - destruct (decide (k0 = k)) as [->|Hne0]; simpl.
    + destruct (decide (k = k')); [done|]. by destruct (decide (k = k')).
    + destruct (decide (k0 = k')); [done|]. apply IH.
Qed.

Lemma setitem_rows df k s : 0 < df_rows df -> df_rows (setitem df k s) = df_rows df.
Proof. unfold setitem. destruct (df_rows df) eqn:E; [lia|]. done. Qed.

Lemma setitem_columns df k s :
  0 < df_rows df ->
  df_columns (setitem df k s) = set_column k (reindex (df_rows df) s) (df_columns df).
Proof. unfold setitem. destruct (df_rows df) eqn:E; [lia|]. done. Qed.
End frames.

(** ** Sums *)

Lemma sum_Qc_cons (q : Qc) (qs : list Qc) : sum_Qc (q :: qs) = (q + sum_Qc qs)%Qc.
Proof. reflexivity. Qed.

Lemma nansum_Fin_from (a : Qc) (qs : list Qc) :
  foldl (λ acc x, if isnan x then acc else fadd acc x) (Fin a) (Fin <$> qs)
  = Fin (a + sum_Qc qs)%Qc.
Proof.
  revert a. induction qs as [|q qs IH]; intros a.
  - simpl. f_equal. ring.
  - rewrite fmap_cons, sum_Qc_cons. cbn [foldl isnan fadd].
    rewrite IH. f_equal. ring.
Qed.

Lemma nansum_Fin (qs : list Qc) : nansum (Fin <$> qs) = Fin (sum_Qc qs).
Proof. unfold nansum, zero. rewrite nansum_Fin_from. f_equal. ring. Qed.

Lemma sum_Qc_scale (c : Qc) (qs : list Qc) :
  sum_Qc ((λ q, q * c)%Qc <$> qs) = (sum_Qc qs * c)%Qc.
Proof.
  induction qs as [|q qs IH]; [simpl; ring|].
  rewrite fmap_cons, !sum_Qc_cons, IH. ring.
Qed.

Lemma Qc_of_nat_0 : Qc_of_nat 0 = 0%Qc.
Proof. by apply Qc_is_canon. Qed.

Lemma Qc_of_nat_S n : Qc_of_nat (S n) = (1 + Qc_of_nat n)%Qc.
Proof.
  apply Qc_is_canon. unfold Qc_of_nat. simpl this. rewrite !Qred_correct.
  rewrite Nat2Z.inj_succ. unfold Z.succ. rewrite inject_Z_plus. ring.
Qed.

Lemma Qc_of_nat_pos n : 0 < n -> (0 < Qc_of_nat n)%Qc.
Proof.
  intros Hn. unfold Qclt, Qc_of_nat. simpl this. rewrite !Qred_correct.
  unfold Qlt. simpl. lia.
Qed.

Lemma Qc_of_nat_nonzero n : 0 < n -> Qc_of_nat n ≠ 0%Qc.
Proof.
  intros Hn Heq. pose proof (Qc_of_nat_pos n Hn) as Hpos.
  rewrite Heq in Hpos. by apply Qclt_not_eq in Hpos.
Qed.

Lemma sum_Qc_const {A} (c : Qc) (l : list A) :
  sum_Qc ((λ _, c) <$> l) = (Qc_of_nat (length l) * c)%Qc.
Proof.
  induction l as [|x l IH].
  - simpl. rewrite Qc_of_nat_0. ring.
  - rewrite fmap_cons, sum_Qc_cons, IH. cbn [length]. rewrite Qc_of_nat_S. ring.
Qed.

(** ** The power-plant table *)

Section power_plants.
Variables (pp : PowerPlants) (category region : string) (year : Z).

Lemma region_ids_rows :
  region_ids pp category region = pp_coastdat_id <$> pp_rows pp category region.
Proof.
  unfold region_ids, pp_loc_index. by destruct (pp_rows pp category region).
Qed.

Lemma filter_no_row (P : pp_row -> Prop) `{!∀ r, Decision (P r)}
    (rows : list pp_row) :
  (∀ r, r ∈ rows -> ¬ P r) -> filter P rows = [].
Proof.
  induction rows as [|r rows IH]; intros Hall; [done|].
  rewrite filter_cons_False by (apply Hall; left).
  apply IH. intros r' Hr'. apply Hall. by right.
Qed.

Lemma filter_unique_row (rows : list pp_row) (r : pp_row) :
  NoDup (pp_coastdat_id <$> rows) -> r ∈ rows ->
  filter (λ r', pp_coastdat_id r' = pp_coastdat_id r) rows = [r].
Proof.
  induction rows as [|r0 rows IH]; intros Hnd Hin; [by apply elem_of_nil in Hin|].
  rewrite fmap_cons in Hnd. apply NoDup_cons in Hnd as [Hfresh Hnd].
  apply elem_of_cons in Hin as [->|Hin].
  - rewrite filter_cons_True by done. f_equal.
    apply filter_no_row. intros r' Hr' Heq.
    apply Hfresh. rewrite <- Heq. by apply list_elem_of_fmap_2.
  - rewrite filter_cons_False; [by apply IH|].
    intros Heq. apply Hfresh. rewrite Heq. by apply list_elem_of_fmap_2.
Qed.

(** With a unique index, the capacity read for the grid point of a row of
    the region is the capacity of that row. *)
Lemma pp_loc_capacity_row (r : pp_row) :
  NoDup (region_ids pp category region) ->
  r ∈ pp_rows pp category region ->
  pp_loc_capacity pp category region (pp_coastdat_id r) year
  = Ok (pp_capacity r year).
Proof.
  rewrite region_ids_rows. intros Hnd Hin. unfold pp_loc_capacity.
  by rewrite (filter_unique_row _ r Hnd Hin).
Qed.

Lemma capacity_at_row (r : pp_row) :
  NoDup (region_ids pp category region) ->
  r ∈ pp_rows pp category region ->
  capacity_at pp category region year (pp_coastdat_id r) = pp_capacity r year.
Proof.
  rewrite region_ids_rows. intros Hnd Hin. unfold capacity_at.
  by rewrite (filter_unique_row _ r Hnd Hin).
Qed.
End power_plants.

(** ** The column of a region *)

Lemma for_each_setitem (body : DataFrame Z -> Z -> result (DataFrame Z))
    (g : Z -> Series) (ids : list Z) (n : nat) (cols : list (Z * Series)) :
  0 < n -> NoDup ids ->
  (∀ id, id ∈ ids -> id ∉ cols.*1) ->
  (∀ temp id, id ∈ ids -> body temp id = Ok (setitem temp id (g id))) ->
  for_each body ids (mkDataFrame n cols)
  = Ok (mkDataFrame n (cols ++ ((λ id, (id, reindex n (g id))) <$> ids))).
Proof.
  intros Hn. revert cols.
  induction ids as [|id ids IH]; intros cols Hnd Hfresh Hbody.
  - simpl. by rewrite app_nil_r.
  - apply NoDup_cons in Hnd as [Hid Hnd].
    cbn [for_each]. rewrite Hbody by left. cbn [bind].
    unfold setitem. cbn [df_rows df_columns].
    destruct n as [|n']; [lia|].
    rewrite set_column_fresh by (apply Hfresh; left).
    rewrite IH; [|done| |].
    + by rewrite fmap_cons, <- app_assoc.
    + intros id' Hid'. rewrite fmap_app. cbn.
      rewrite elem_of_app, list_elem_of_singleton.
      intros [Hin| ->]; [|done]. revert Hin. apply Hfresh. by right.
    + intros temp id' Hid'. apply Hbody. by right.
Qed.

Section region_column.
Variables (pp : PowerPlants) (store : HDFStore) (my_index : nat).
Variables (category region : string) (year : Z) (col : string).

(** The stored series of the grid points: [series id] is
    [store['/A<id>'][col]] for every grid point of the region. *)
Variable series : Z -> Series.

Hypothesis unique_index : NoDup (region_ids pp category region).
Hypothesis stored : ∀ id, id ∈ region_ids pp category region ->
  ∃ frame, store !! id = Some frame
           ∧ get_column col (df_columns frame) = Some (series id).
Hypothesis rows_pos : 0 < my_index.

Lemma weighted_frame_columns :
  weighted_frame pp store my_index category region year col
    (region_ids pp category region)
  = Ok (mkDataFrame my_index
          ((λ id, (id, reindex my_index
                         (multiply (head_rows 8760 (series id))
                            (capacity_at pp category region year id))))
           <$> region_ids pp category region)).
Proof.
  unfold weighted_frame, empty_frame.
  rewrite (for_each_setitem _
             (λ id, multiply (head_rows 8760 (series id))
                      (capacity_at pp category region year id)));
    [done|done|done| |].
  - intros id _. simpl. apply not_elem_of_nil.
  - intros temp id Hid.
    assert (∃ r, r ∈ pp_rows pp category region ∧ pp_coastdat_id r = id)
      as (r & Hr & <-).
    { rewrite region_ids_rows in Hid.
      apply list_elem_of_fmap in Hid as (r & -> & Hr). eauto. }
    rewrite (pp_loc_capacity_row pp category region year r unique_index Hr).
    destruct (stored _ Hid) as (frame & Hframe & Hcol).
    unfold store_get, frame_get. rewrite Hframe. cbn [of_option bind].
    rewrite Hcol. cbn [of_option bind]. by rewrite capacity_at_row.
Qed.

(** Every hour of the index of the column of a region is the sum, over the
    grid points of the region, of the series cut to 8760 rows times the
    capacity of the point, divided by the sum of the capacities. *)
Lemma region_column_at (h : nat) :
  h < my_index ->
  ∃ out,
    region_column pp store my_index category region year col
      (region_ids pp category region) = Ok out
    ∧ length out = my_index
    ∧ at_hour out h
      = fdiv (nansum ((λ r, fmul (at_hour (head_rows 8760 (series (pp_coastdat_id r))) h)
                                 (pp_capacity r year))
                      <$> pp_rows pp category region))
             (pp_total_capacity pp category region year).
Proof.
  intros Hh. unfold region_column. rewrite weighted_frame_columns. cbn [bind].
  eexists. split; [done|]. split.
  - by rewrite length_divide, length_sum_rows.
  - rewrite at_hour_divide, at_hour_sum_rows by done. cbn [df_columns].
    f_equal. f_equal. rewrite region_ids_rows.
    rewrite <- !list_fmap_compose. apply list_fmap_ext.
    intros i r Hr. unfold compose. cbn [fst snd].
    apply list_elem_of_lookup_2 in Hr.
    rewrite at_hour_reindex, at_hour_multiply by done.
    by rewrite capacity_at_row.
Qed.
End region_column.

(** ** Loops that assign columns *)

Lemma for_each_app {A S} (body : S -> A -> result S) (xs ys : list A) (acc : S) :
  for_each body (xs ++ ys) acc = bind (for_each body xs acc) (for_each body ys).
Proof.
  revert acc. induction xs as [|x xs IH]; intros acc; [done|].
  cbn [app for_each]. destruct (body acc x); cbn [bind]; [apply IH|done].
Qed.

Lemma for_each_ext {A S} (body body' : S -> A -> result S) (xs : list A) (acc : S) :
  (∀ s x, x ∈ xs -> body s x = body' s x) ->
  for_each body xs acc = for_each body' xs acc.
Proof.
  revert acc. induction xs as [|x xs IH]; intros acc Hext; [done|].
  cbn [for_each]. rewrite Hext by left.
  destruct (body' acc x); cbn [bind]; [|done].
  apply IH. intros s y Hy. apply Hext. by right.
Qed.

Lemma for_each_fmap {A B S} (h : A -> B) (body : S -> B -> result S)
    (xs : list A) (acc : S) :
  for_each body (h <$> xs) acc = for_each (λ s x, body s (h x)) xs acc.
Proof.
  revert acc. induction xs as [|x xs IH]; intros acc; [done|].
  rewrite fmap_cons. cbn [for_each].
  destruct (body acc (h x)); cbn [bind]; [apply IH|done].
Qed.

(** A loop inside a loop is one loop over the pairs. *)
Lemma for_each_nested {A B S} (inner : A -> list B)
    (g : S -> A * B -> result S) (xs : list A) (acc : S) :
  for_each (λ s x, for_each g ((λ y, (x, y)) <$> inner x) s) xs acc
  = for_each g (xs ≫= λ x, (λ y, (x, y)) <$> inner x) acc.
Proof.
  revert acc. induction xs as [|x xs IH]; intros acc; [done|].
  cbn [for_each]. rewrite bind_cons, for_each_app.
  destruct (for_each g _ acc); cbn [bind]; [apply IH|done].
Qed.

Section assign.
Context {A K : Type} `{EqDecision K}.
Variables (f : A -> result Series) (key : A -> K) (n : nat).
Hypothesis rows_pos : 0 < n.

Lemma setitem_fresh_frame (acc : DataFrame K) (k : K) (v : Series) :
  df_rows acc = n ∨ acc = empty_frame 0 -> length v = n ->
  setitem acc k v = mkDataFrame n (set_column k v (df_columns acc)).
Proof.
  intros [Hrows| ->] Hlen.
  - unfold setitem. rewrite Hrows. destruct n as [|n'] eqn:Hn; [lia|].
    by rewrite <- Hlen, reindex_id.
  - unfold setitem, empty_frame. cbn [df_rows df_columns fmap list_fmap].
    by rewrite reindex_id, Hlen.
Qed.

(** When every assigned series has the [n] rows of the frame, or the frame
    is new, the loop returns, and the column of a key holds the series that
    was assigned to it, provided all assignments to that key agree. *)
Lemma for_each_assign (xs : list A) (acc : DataFrame K) :
  df_rows acc = n ∨ acc = empty_frame 0 ->
  (∀ x, x ∈ xs -> ∃ v, f x = Ok v ∧ length v = n) ->
  ∃ out,
    for_each (λ acc x, v <- f x ;; Ok (setitem acc (key x) v)) xs acc = Ok out
    ∧ (df_rows out = n ∨ (xs = [] ∧ out = acc))
    ∧ (∀ k, (∀ x, x ∈ xs -> key x ≠ k) ->
         get_column k (df_columns out) = get_column k (df_columns acc))
    ∧ (∀ x, x ∈ xs ->
         (∀ y, y ∈ xs -> key y = key x -> f y = f x) ->
         ∃ v, f x = Ok v ∧ get_column (key x) (df_columns out) = Some v).
Proof.
  revert acc. induction xs as [|x xs IH]; intros acc Hacc Hall.
  - exists acc. split; [done|]. split; [by right|]. split; [done|].
    intros x Hx. by apply elem_of_nil in Hx.
  - destruct (Hall x) as (v & Hv & Hlen); [left|].
    destruct (IH (setitem acc (key x) v)) as (out & Hrun & Hrows & Hother & Hset).
    { left. by rewrite (setitem_fresh_frame acc (key x) v Hacc Hlen). }
    { intros y Hy. apply Hall. by right. }
    exists out. cbn [for_each]. rewrite Hv. cbn [bind].
    split; [done|]. split.
    { left. destruct Hrows as [Hrows|[_ ->]]; [done|].
      by rewrite (setitem_fresh_frame acc (key x) v Hacc Hlen). }
    split.
    + intros k Hk. rewrite Hother by (intros y Hy; apply Hk; by right).
      rewrite (setitem_fresh_frame acc (key x) v Hacc Hlen). cbn [df_columns].
      apply get_column_set_column_ne. apply Hk. left.
    + intros y Hy Hagree.
      destruct (decide (key y ∈ key <$> xs)) as [Hsome|Hno].
      * apply list_elem_of_fmap in Hsome as (z & Hkey & Hz). symmetry in Hkey.
        destruct (Hset z Hz) as (vz & Hvz & Hcol).
        { intros z' Hz' Hkey'. rewrite (Hagree z') by (by right || congruence).
          symmetry. apply Hagree; [by right|done]. }
        exists vz. rewrite <- Hkey, <- (Hagree z) by (by right || done). done.
      * apply elem_of_cons in Hy as [->|Hy];
          [|by destruct Hno; apply list_elem_of_fmap_2].
        exists v. split; [done|].
        rewrite Hother
          by (intros z Hz Hkey; apply Hno; rewrite <- Hkey;
              by apply list_elem_of_fmap_2).
        rewrite (setitem_fresh_frame acc (key x) v Hacc Hlen). cbn [df_columns].
        apply get_column_set_column.
Qed.
End assign.

(** ** Capacity-weighted aggregation *)


Lemma fdiv_zero_not_finite (x : float) : isfinite (fdiv x zero) = false.
Proof.
  destruct x as [a| | |]; try done.
  unfold fdiv, zero. destruct (decide (0%Qc = 0%Qc)); [|done].
  by destruct (a ?= 0)%Qc.
Qed.

Lemma nansum_capacities (pp : PowerPlants) (category region : string) (year : Z)
    (c : Z -> Qc) :
  Forall (λ r, pp_capacity r year = Fin (c (pp_coastdat_id r)))
    (pp_rows pp category region) ->
  pp_total_capacity pp category region year
  = Fin (sum_Qc (c <$> region_ids pp category region)).
Proof.
  intros Hcap. unfold pp_total_capacity. rewrite region_ids_rows.
  rewrite <- nansum_Fin, <- !list_fmap_compose. f_equal.
  apply list_fmap_ext. intros i r Hr. apply list_elem_of_lookup_2 in Hr.
  rewrite Forall_forall in Hcap. by apply Hcap.
Qed.

Lemma nansum_numbers_from (a : Qc) (vs : list (option Qc)) :
  foldl (λ acc x, if isnan x then acc else fadd acc x) (Fin a)
    (number_or_nan <$> vs)
  = Fin (a + sum_Qc (default 0%Qc <$> vs))%Qc.
Proof.
  revert a. induction vs as [|[q|] vs IH]; intros a.
  - simpl. f_equal. ring.
  - rewrite !fmap_cons, sum_Qc_cons. cbn [foldl number_or_nan from_option isnan fadd].
    rewrite IH. f_equal. cbn [default from_option id]. ring.
  - rewrite !fmap_cons, sum_Qc_cons. cbn [foldl number_or_nan from_option isnan].
    rewrite IH. f_equal. cbn [default from_option id]. ring.
Qed.

Lemma nansum_numbers (vs : list (option Qc)) :
  nansum (number_or_nan <$> vs) = Fin (sum_Qc (default 0%Qc <$> vs)).
Proof. unfold nansum, zero. rewrite nansum_numbers_from. f_equal. ring. Qed.

Lemma nansum_all_nan {A} (l : list A) : nansum ((λ _, NaN) <$> l) = zero.
Proof.
  unfold nansum. generalize zero. induction l as [|x l IH]; intros acc; [done|].
  rewrite fmap_cons. cbn [foldl isnan]. apply IH.
Qed.

(** The column of a region at an hour of the first 8760 at which every grid
    point of the region has a number. *)
Lemma region_column_weighted (pp : PowerPlants) (store : HDFStore)
    (my_index : nat) (category region : string) (year : Z) (col : string)
    (v c : Z -> Qc) (h : nat) :
  NoDup (region_ids pp category region) ->
  Forall (λ r, pp_capacity r year = Fin (c (pp_coastdat_id r)))
    (pp_rows pp category region) ->
  Forall (λ id, ∃ frame s, store !! id = Some frame
                  ∧ get_column col (df_columns frame) = Some s
                  ∧ s !! h = Some (Fin (v id)))
    (region_ids pp category region) ->
  sum_Qc (c <$> region_ids pp category region) ≠ 0%Qc ->
  h < my_index -> h < 8760 ->
  ∃ out,
    region_column pp store my_index category region year col
      (region_ids pp category region) = Ok out
    ∧ out !! h
      = Some (Fin (sum_Qc ((λ id, v id * c id)%Qc <$> region_ids pp category region)
                   / sum_Qc (c <$> region_ids pp category region))%Qc).
Proof.
  intros Hnd Hcap Hstored Htotal Hh Hcut.
  rewrite Forall_forall in Hstored.
  destruct (region_column_at pp store my_index category region year col
              (stored_series store col) Hnd) with (h := h)
    as (out & Hout & Hlen & Hat); [|lia|done|].
  { intros id Hid. destruct (Hstored id Hid) as (frame & s & Hf & Hs & _).
    exists frame. split; [done|]. unfold stored_series. by rewrite Hf, Hs. }
  exists out. split; [done|].
  rewrite lookup_at_hour by lia. f_equal. rewrite Hat.
  rewrite (nansum_capacities _ _ _ _ c Hcap).
  rewrite <- fdiv_Fin by done. f_equal.
  rewrite <- nansum_Fin. f_equal. rewrite region_ids_rows.
  rewrite <- !list_fmap_compose. apply list_fmap_ext.
  intros i r Hr. apply list_elem_of_lookup_2 in Hr. unfold compose.
  rewrite at_hour_head_rows_lt by done.
  rewrite Forall_forall in Hcap. rewrite (Hcap r Hr).
  destruct (Hstored (pp_coastdat_id r)) as (frame & s & Hf & Hs & Hv).
  { rewrite region_ids_rows. by apply list_elem_of_fmap_2. }
  unfold stored_series. rewrite Hf, Hs. unfold default, from_option, id.
  by rewrite (at_hour_lookup _ _ _ Hv).
Qed.

Lemma scenario_ids : region_ids scenario_pp "Wind" "DE01" = [1%Z; 2%Z].
Proof. reflexivity. Qed.

Lemma lookup_const_frame (n h : nat) (x : float) :
  h < n ->
  ∃ s, get_column subset (df_columns (const_frame n x)) = Some s ∧ s !! h = Some x.
Proof.
  intros Hh. exists (replicate n x). split; [done|].
  by apply lookup_replicate_2.
Qed.

Lemma equal_ids : region_ids equal_pp "Wind" "DE01" = [1%Z; 2%Z].
Proof. reflexivity. Qed.

Lemma two_points_unique : NoDup [1%Z; 2%Z].
Proof.
  apply NoDup_cons.
  split; [by intros ?%list_elem_of_singleton | apply NoDup_singleton].
Qed.

Lemma scenario_unique : NoDup (region_ids scenario_pp "Wind" "DE01").
Proof. rewrite scenario_ids. apply two_points_unique. Qed.

Lemma two_points_stored (n h : nat) :
  h < n ->
  Forall (λ id, ∃ frame s, scenario_store n !! id = Some frame
                  ∧ get_column subset (df_columns frame) = Some s
                  ∧ s !! h = Some (Fin (if decide (id = 1%Z) then qc 1 1 else qc 2 1)))
    [1%Z; 2%Z].
Proof.
  intros Hn. repeat constructor.
  - destruct (lookup_const_frame n h (Fin (qc 1 1)) Hn) as (s & Hs & Hv).
    exists (const_frame n (Fin (qc 1 1))), s. done.
  - destruct (lookup_const_frame n h (Fin (qc 2 1)) Hn) as (s & Hs & Hv).
    exists (const_frame n (Fin (qc 2 1))), s. done.
Qed.

Lemma scenario_stored (n h : nat) :
  h < n ->
  Forall (λ id, ∃ frame s, scenario_store n !! id = Some frame
                  ∧ get_column subset (df_columns frame) = Some s
                  ∧ s !! h = Some (Fin (if decide (id = 1%Z) then qc 1 1 else qc 2 1)))
    (region_ids scenario_pp "Wind" "DE01").
Proof. rewrite scenario_ids. apply two_points_stored. Qed.

Lemma Qc_nonzero (q : Qc) : (Qnum (this q) =? 0)%Z = false -> q ≠ 0%Qc.
Proof. intros Hq ->. by vm_compute in Hq. Qed.

Lemma lt_8760 (h : nat) : (h <? 8760) = true -> h < 8760.
Proof. apply Nat.ltb_lt. Qed.

Lemma idle_ids : region_ids idle_pp "Wind" "DE01" = [1%Z].
Proof. reflexivity. Qed.

Lemma unit_ids : region_ids unit_pp "Wind" "DE01" = [1%Z].
Proof. reflexivity. Qed.

(** ** The frame of the feed-in aggregation *)

Lemma open_feedin_files_from (files : list (string * HDFStore)) (st : open_sets) :
  NoDup files.*1 ->
  (∀ name store, (name, store) ∈ files -> is_Some (store !! reference_id)) ->
  ∃ sets,
    for_each
      (λ st file,
         let '(name, store) := file in
         frame <- store_get store reference_id ;;
         Ok (mk_open_sets (set_names st ++ [name]) (Some name)
               (<[name := store]> (pwr st))
               (<[name := (df_columns frame).*1]> (columns st))))
      files st = Ok sets
    ∧ set_names sets = set_names st ++ files.*1
    ∧ set_name sets = from_option Some (set_name st) (fst <$> last files)
    ∧ (∀ name store, (name, store) ∈ files ->
         pwr sets !! name = Some store
         ∧ columns sets !! name = Some (columns_of store))
    ∧ (∀ name, name ∉ files.*1 ->
         pwr sets !! name = pwr st !! name
         ∧ columns sets !! name = columns st !! name).
Proof.
  revert st. induction files as [|[name store] files IH]; intros st Hnd Href.
  - exists st. split; [done|]. split; [by rewrite app_nil_r|]. split; [done|].
    split; [|done]. intros n s Hin. by apply elem_of_nil in Hin.
  - rewrite fmap_cons in Hnd. apply NoDup_cons in Hnd as [Hfresh Hnd].
    destruct (Href name store) as [frame Hframe]; [left|].
    destruct (IH (mk_open_sets (set_names st ++ [name]) (Some name)
                    (<[name := store]> (pwr st))
                    (<[name := (df_columns frame).*1]> (columns st))) Hnd)
      as (sets & Hrun & Hnames & Hlast & Hin & Hout).
    { intros n s Hn. apply (Href n). by right. }
    exists sets. cbn [for_each]. unfold store_get at 1. rewrite Hframe.
    cbn [of_option bind]. split; [done|]. split.
    { rewrite Hnames. cbn [set_names]. by rewrite <- app_assoc. }
    split.
    { rewrite Hlast. cbn [set_name]. destruct files as [|file files']; [done|].
      rewrite last_cons_cons.
      destruct (last (file :: files')) eqn:E; [done|].
      by apply last_None in E. }
    split.
    + intros n s Hn. apply elem_of_cons in Hn as [[= -> ->]|Hn]; [|by apply Hin].
      destruct (Hout name Hfresh) as [-> ->]. cbn [pwr columns].
      rewrite !lookup_insert_eq. unfold columns_of. by rewrite Hframe.
    + intros n Hn. rewrite fmap_cons in Hn.
      apply not_elem_of_cons in Hn as [Hne Hn].
      destruct (Hout n Hn) as [-> ->]. cbn [pwr columns].
      by rewrite !lookup_insert_ne.
Qed.

Section aggregate_feedin.
Variables (pp : PowerPlants) (files : list (string * HDFStore)).
Variables (regions : list string) (year : Z) (category : string).
Variables (last_name : string) (last_store : HDFStore) (reference : DataFrame string).

Hypothesis unique_names : NoDup files.*1.
Hypothesis references :
  ∀ name store, (name, store) ∈ files -> is_Some (store !! reference_id).
Hypothesis last_file : last files = Some (last_name, last_store).
Hypothesis last_reference : last_store !! reference_id = Some reference.
Hypothesis rows_pos : 0 < df_rows reference.
Hypothesis complete : complete_inputs pp files regions category.

Lemma aggregate_region_flat (sets : open_sets) (feed_in : FeedinFrame)
    (region : string) :
  set_names sets = files.*1 ->
  (∀ name store, (name, store) ∈ files ->
     columns sets !! name = Some (columns_of store)) ->
  aggregate_region pp sets (df_rows reference) year category feed_in region
  = for_each (λ acc x, v <- assigned pp sets (df_rows reference) year category x ;; Ok (setitem acc (assigned_key x) v))
      ((λ y, (region, y)) <$> region_loop pp files category region) feed_in.
Proof.
  intros Hnames Hcolumns. unfold aggregate_region, region_loop.
  destruct (decide (0 < length (region_ids pp category region))); [|done].
  rewrite Hnames.
  assert (∀ fs : list (string * HDFStore), fs ⊆ files -> ∀ acc,
            for_each
              (λ feed_in name,
                 cols <- dict_get (columns sets) name ;;
                 for_each
                   (λ feed_in col,
                      store <- dict_get (pwr sets) name ;;
                      s <- region_column pp store (df_rows reference) category
                             region year col (region_ids pp category region) ;;
                      Ok (setitem feed_in (region, name, colname col) s))
                   cols feed_in)
              fs.*1 acc
            = for_each (λ acc x, v <- assigned pp sets (df_rows reference) year category x ;;
                                 Ok (setitem acc (assigned_key x) v))
                ((λ y, (region, y))
                 <$> (fs ≫= λ file, (λ col, (file.1, col)) <$> columns_of file.2))
                acc) as Hflat.
  { induction fs as [|[name store] fs IH]; intros Hsub acc; [done|].
    rewrite fmap_cons, bind_cons, fmap_app, for_each_app. cbn [for_each fst snd].
    unfold dict_get at 1.
    rewrite (Hcolumns name store) by (apply Hsub; left). cbn [of_option bind].
    rewrite !for_each_fmap.
    rewrite (for_each_ext _
               (λ s x, v <- assigned pp sets (df_rows reference) year category (region, (name, x)) ;;
                       Ok (setitem s (assigned_key (region, (name, x))) v))).
    2:{ intros acc' col _. unfold assigned, assigned_key. cbn [fst snd].
        by destruct (dict_get (pwr sets) name). }
    destruct (for_each _ (columns_of store) acc); cbn [bind]; [|done].
    apply IH. intros x Hx. apply Hsub. by right. }
  by apply Hflat.
Qed.

(** The frame [aggregate_by_region_coastdat_feedin] writes holds, for a
    region with grid points, a set and a column of the set whose label no
    other column of the set shares, the series computed for them. *)
Lemma aggregate_feedin_column (region name col : string) (store : HDFStore) :
  region ∈ regions ->
  region_ids pp category region ≠ [] ->
  (name, store) ∈ files ->
  col ∈ columns_of store ->
  own_label store col ->
  ∃ feed_in out,
    aggregate_feedin pp files regions year category = Ok feed_in
    ∧ region_column pp store (df_rows reference) category region year col
        (region_ids pp category region) = Ok out
    ∧ get_column (region, name, colname col) (df_columns feed_in) = Some out.
Proof.
  intros Hregion Hids Hfile Hcol Hlabel.
  destruct (open_feedin_files_from files (mk_open_sets [] None ∅ ∅)
              unique_names references)
    as (sets & Hopen & Hnames & Hlast & Hin & _).
  cbn [set_names set_name app] in Hnames, Hlast.
  rewrite last_file in Hlast. cbn in Hlast.
  assert (last_name_store : (last_name, last_store) ∈ files).
  { apply list_elem_of_lookup. exists (pred (length files)).
    rewrite <- last_lookup. exact last_file. }
  unfold aggregate_feedin, open_feedin_files. rewrite Hopen. cbn [bind].
  rewrite Hlast. cbn [of_option bind]. unfold dict_get at 1.
  rewrite (proj1 (Hin _ _ last_name_store)). cbn [of_option bind].
  unfold store_get. rewrite last_reference. cbn [of_option bind].
  rewrite (for_each_ext _
             (λ acc region,
                for_each (λ acc x, v <- assigned pp sets (df_rows reference) year category x ;;
                                   Ok (setitem acc (assigned_key x) v))
                  ((λ y, (region, y)) <$> region_loop pp files category region) acc)).
  2:{ intros acc r _. apply aggregate_region_flat; [done|].
      intros n s Hn. by apply Hin. }
  rewrite for_each_nested.
  destruct (for_each_assign (assigned pp sets (df_rows reference) year category)
              assigned_key (df_rows reference) rows_pos
              (regions ≫= λ r, (λ y, (r, y)) <$> region_loop pp files category r)
              (empty_frame (df_rows reference)))
    as (feed_in & Hrun & _ & _ & Hset).
  { by left. }
  { intros [r [n c]] Hx. apply list_elem_of_bind in Hx as (r' & Hx & Hr).
    apply list_elem_of_fmap in Hx as ([n' c'] & [= -> -> ->] & Hy).
    unfold region_loop in Hy.
    destruct (decide (0 < length (region_ids pp category r'))); [|by apply elem_of_nil in Hy].
    apply list_elem_of_bind in Hy as ([n0 s0] & Hy & Hf).
    apply list_elem_of_fmap in Hy as (c0 & [= -> ->] & Hc0). cbn [fst snd] in *.
    destruct (complete r' Hr) as [Hnd Hstored].
    unfold assigned. cbn [fst snd]. unfold dict_get.
    rewrite (proj1 (Hin _ _ Hf)). cbn [of_option bind].
    destruct (region_column_at pp s0 (df_rows reference) category r' year c0
                (stored_series s0 c0) Hnd) with (h := 0)
      as (out & Hout & Hlen & _); [|done|done|by exists out].
    intros id Hid.
    destruct (Hstored n0 s0 c0 id Hf Hc0 Hid) as (frame & Hframe & [s Hs]).
    exists frame. split; [done|]. unfold stored_series. by rewrite Hframe, Hs. }
  destruct (Hset (region, (name, col))) as (out & Hout & Hget).
  { apply list_elem_of_bind. exists region. split; [|done].
    apply list_elem_of_fmap. exists (name, col). split; [done|].
    unfold region_loop. destruct (decide (0 < length (region_ids pp category region))) as [|Hlen].
    - apply list_elem_of_bind. exists (name, store). split; [|done].
      apply list_elem_of_fmap. by exists col.
    - destruct (region_ids pp category region); [done|]. cbn in Hlen. lia. }
  { intros [r [n c]] Hy Hkey. unfold assigned_key in Hkey. cbn [fst snd] in Hkey.
    injection Hkey as Hr Hn Hc. subst r n.
    apply list_elem_of_bind in Hy as (r' & Hy & Hr).
    apply list_elem_of_fmap in Hy as ([n' c'] & [= <- <- <-] & Hy).
    unfold region_loop in Hy.
    destruct (decide (0 < length (region_ids pp category region))); [|by apply elem_of_nil in Hy].
    apply list_elem_of_bind in Hy as ([n0 s0] & Hy & Hf).
    apply list_elem_of_fmap in Hy as (c0 & [= -> ->] & Hc0). cbn [fst snd] in *.
    assert (s0 = store) as ->.
    { destruct (Hin _ _ Hf) as [H1 _]. destruct (Hin _ _ Hfile) as [H2 _].
      congruence. }
    by rewrite (Hlabel c0 Hc0 Hc). }
  exists feed_in, out. split; [done|]. split; [|done].
  unfold assigned in Hout. cbn [fst snd] in Hout. unfold dict_get in Hout.
  by rewrite (proj1 (Hin _ _ Hfile)) in Hout.
Qed.
End aggregate_feedin.

(** The link, with the conditions on the inputs gathered. *)
Lemma feedin_column (pp : PowerPlants) (files : list (string * HDFStore))
    (regions : list string) (year : Z) (category : string)
    (reference : DataFrame string) (region name col : string) (store : HDFStore) :
  feedin_inputs pp files regions category reference ->
  0 < df_rows reference ->
  region ∈ regions ->
  region_ids pp category region ≠ [] ->
  (name, store) ∈ files ->
  col ∈ columns_of store ->
  own_label store col ->
  ∃ feed_in out,
    aggregate_feedin pp files regions year category = Ok feed_in
    ∧ region_column pp store (df_rows reference) category region year col
        (region_ids pp category region) = Ok out
    ∧ get_column (region, name, colname col) (df_columns feed_in) = Some out.
Proof.
  intros (Hnames & Hrefs & (last_name & last_store & Hlast & Href) & Hcomplete).
  intros Hpos. by eapply aggregate_feedin_column.
Qed.

(** One file whose store holds the reference frame and, for the grid points
    of the one region, a series in the column of the set. *)
Lemma single_file_inputs (pp : PowerPlants) (name : string) (store : HDFStore)
    (region category col : string) (reference : DataFrame string) :
  store !! reference_id = Some reference ->
  (df_columns reference).*1 = [col] ->
  NoDup (region_ids pp category region) ->
  Forall (λ id, ∃ frame, store !! id = Some frame
                  ∧ is_Some (get_column col (df_columns frame)))
    (region_ids pp category region) ->
  feedin_inputs pp [(name, store)] [region] category reference.
Proof.
  intros Href Hcols Hnd Hstored. split; [|split; [|split]].
  - apply NoDup_singleton.
  - intros n s Hin. apply list_elem_of_singleton in Hin as [= -> ->]. eauto.
  - by exists name, store.
  - intros r Hr. apply list_elem_of_singleton in Hr as ->. split; [done|].
    intros n s c id Hin Hc Hid. apply list_elem_of_singleton in Hin as [= -> ->].
    unfold columns_of in Hc. rewrite Href, Hcols in Hc.
    apply list_elem_of_singleton in Hc as ->.
    rewrite Forall_forall in Hstored. by apply Hstored.
Qed.

Lemma single_column_label (store : HDFStore) (col : string)
    (reference : DataFrame string) :
  store !! reference_id = Some reference ->
  (df_columns reference).*1 = [col] ->
  col ∈ columns_of store ∧ own_label store col.
Proof.
  intros Href Hcols. unfold own_label, columns_of. rewrite Href, Hcols.
  split; [left|]. by intros col' ->%list_elem_of_singleton.
Qed.

Lemma scenario_inputs (n : nat) :
  0 < n ->
  feedin_inputs scenario_pp [("set"%string, scenario_store n)] ["DE01"%string]
    "Wind" (const_frame n zero).
Proof.
  intros Hn. apply (single_file_inputs _ _ _ _ _ subset); [done|done| |].
  - apply scenario_unique.
  - eapply Forall_impl; [apply (scenario_stored n 0 Hn)|].
    intros id (frame & s & Hf & Hs & _). eauto.
Qed.

Lemma equal_inputs (n : nat) :
  0 < n ->
  feedin_inputs equal_pp [("set"%string, scenario_store n)] ["DE01"%string]
    "Wind" (const_frame n zero).
Proof.
  intros Hn. apply (single_file_inputs _ _ _ _ _ subset); [done|done| |].
  - rewrite equal_ids. apply two_points_unique.
  - rewrite equal_ids.
    eapply Forall_impl; [apply (two_points_stored n 0 Hn)|].
    intros id (frame & s & Hf & Hs & _). eauto.
Qed.

Lemma unit_inputs (n : nat) :
  feedin_inputs unit_pp [("set"%string, unit_store n)] ["DE01"%string]
    "Wind" (const_frame n zero).
Proof.
  apply (single_file_inputs _ _ _ _ _ subset); [done|done| |].
  - rewrite unit_ids. apply NoDup_singleton.
  - rewrite unit_ids. repeat constructor.
    exists (const_frame n (Fin (qc 1 1))). split; [done|]. by eexists.
Qed.

Lemma idle_inputs :
  feedin_inputs idle_pp [("set"%string, idle_store)] ["DE01"%string]
    "Wind" (const_frame 2 zero).
Proof.
  apply (single_file_inputs _ _ _ _ _ subset); [done|done| |].
  - rewrite idle_ids. apply NoDup_singleton.
  - rewrite idle_ids. repeat constructor.
    exists (const_frame 2 (Fin (qc 1 2))). split; [done|]. by eexists.
Qed.

(** ** Capacity-weighted aggregation on the written frame *)


(** The column of a region in the frame of the aggregation, hour by hour:
    up to hour 8760 the weighted sum of the values that are numbers, divided
    by the sum of all capacities, and zero from hour 8760 on. *)
Lemma feedin_hours (pp : PowerPlants) (files : list (string * HDFStore))
    (regions : list string) (year : Z) (category : string)
    (reference : DataFrame string) (region name col : string) (store : HDFStore)
    (c : Z -> Qc) :
  feedin_inputs pp files regions category reference ->
  0 < df_rows reference ->
  region ∈ regions ->
  region_ids pp category region ≠ [] ->
  (name, store) ∈ files ->
  col ∈ columns_of store ->
  own_label store col ->
  Forall (λ r, pp_capacity r year = Fin (c (pp_coastdat_id r)))
    (pp_rows pp category region) ->
  sum_Qc (c <$> region_ids pp category region) ≠ 0%Qc ->
  ∃ feed_in out,
    aggregate_feedin pp files regions year category = Ok feed_in
    ∧ get_column (region, name, colname col) (df_columns feed_in) = Some out
    ∧ length out = df_rows reference
    ∧ ∀ h, h < df_rows reference ->
        (h < 8760 ->
         ∀ v : Z -> option Qc,
           (∀ id, id ∈ region_ids pp category region ->
              at_hour (stored_series store col id) h = number_or_nan (v id)) ->
           at_hour out h
           = Fin (sum_Qc ((λ id, default 0 (v id) * c id)%Qc
                          <$> region_ids pp category region)
                  / sum_Qc (c <$> region_ids pp category region))%Qc)
        ∧ (8760 ≤ h -> at_hour out h = zero).
Proof.
  intros Hinputs Hpos Hregion Hids Hfile Hcol Hlabel Hcap Htotal.
  destruct (feedin_column pp files regions year category reference region name
              col store) as (feed_in & out & Hrun & Hout & Hget); try done.
  exists feed_in, out. split; [done|]. split; [done|].
  destruct Hinputs as (_ & _ & _ & Hcomplete).
  destruct (Hcomplete region Hregion) as [Hnd Hstored].
  assert (∀ id, id ∈ region_ids pp category region ->
            ∃ frame, store !! id = Some frame
                     ∧ get_column col (df_columns frame)
                       = Some (stored_series store col id)) as Hseries.
  { intros id Hid.
    destruct (Hstored name store col id Hfile Hcol Hid) as (frame & Hf & [s Hs]).
    exists frame. split; [done|]. unfold stored_series. by rewrite Hf, Hs. }
  assert (∀ h, h < df_rows reference ->
            length out = df_rows reference
            ∧ at_hour out h
              = fdiv (nansum ((λ r, fmul (at_hour (head_rows 8760
                                                     (stored_series store col
                                                        (pp_coastdat_id r))) h)
                                         (pp_capacity r year))
                              <$> pp_rows pp category region))
                     (pp_total_capacity pp category region year)) as Hat.
  { intros h Hh.
    destruct (region_column_at pp store (df_rows reference) category region year
                col (stored_series store col) Hnd Hseries Hpos h Hh)
      as (out' & Hout' & Hlen & Hat).
    rewrite Hout in Hout'. by injection Hout' as <-. }
  split; [by apply (Hat 0)|]. intros h Hh.
  destruct (Hat h Hh) as [_ ->].
  rewrite (nansum_capacities _ _ _ _ c Hcap). split.
  - intros Hcut v Hvalues. rewrite <- fdiv_Fin by done. f_equal.
    transitivity
      (nansum (number_or_nan
               <$> ((λ r, (λ q, q * c (pp_coastdat_id r))%Qc <$> v (pp_coastdat_id r))
                    <$> pp_rows pp category region))).
    + f_equal. rewrite <- list_fmap_compose. apply list_fmap_ext.
      intros i r Hr. apply list_elem_of_lookup_2 in Hr. unfold compose.
      rewrite at_hour_head_rows_lt by done.
      rewrite Forall_forall in Hcap. rewrite (Hcap r Hr).
      rewrite Hvalues by (rewrite region_ids_rows; by apply list_elem_of_fmap_2).
      by destruct (v (pp_coastdat_id r)).
    + rewrite nansum_numbers. f_equal. f_equal.
      rewrite region_ids_rows, <- !list_fmap_compose. apply list_fmap_ext.
      intros i r Hr. unfold compose.
      destruct (v (pp_coastdat_id r)); simpl; [done|ring].
  - intros Hcut.
    rewrite (list_fmap_ext _ (λ _, NaN) (pp_rows pp category region)).
    2:{ intros i r Hr. cbn beta. rewrite at_hour_head_rows_ge by done.
        apply fmul_NaN_l. }
    rewrite nansum_all_nan. unfold zero. rewrite fdiv_Fin by done.
    f_equal. field. done.
Qed.

(** C1.  For a region with at least one grid point, the frame that
    [aggregate_by_region_coastdat_feedin] writes holds in the column of the
    region, at an hour at which the grid points have a number, the sum over
    the grid points of the feed-in value times the capacity installed at the
    point, divided by the sum of these capacities, only when the hour is one
    of the first 8760 of the index: from hour 8760 on it holds zero.  In the
    leap year 2016, with the capacities 2 and 3 and the series constant 1 and
    constant 2 over the 8784 hours of the year, the column is 1.6 up to hour
    8759 and 0 at the 24 hours from 8760 on. *)
Theorem weighted_average_until_8760 :
  (∀ (pp : PowerPlants) (files : list (string * HDFStore))
     (regions : list string) (year : Z) (category : string)
     (reference : DataFrame string) (region name col : string)
     (store : HDFStore) (v c : Z -> Qc) (h : nat),
     feedin_inputs pp files regions category reference ->
     region ∈ regions ->
     region_ids pp category region ≠ [] ->
     (name, store) ∈ files ->
     col ∈ columns_of store ->
     own_label store col ->
     Forall (λ r, pp_capacity r year = Fin (c (pp_coastdat_id r)))
       (pp_rows pp category region) ->
     Forall (λ id, ∃ frame s, store !! id = Some frame
                     ∧ get_column col (df_columns frame) = Some s
                     ∧ s !! h = Some (Fin (v id)))
       (region_ids pp category region) ->
     sum_Qc (c <$> region_ids pp category region) ≠ 0%Qc ->
     h < df_rows reference ->
     ∃ feed_in out,
       aggregate_feedin pp files regions year category = Ok feed_in
       ∧ get_column (region, name, colname col) (df_columns feed_in) = Some out
       ∧ out !! h
         = Some (if decide (h < 8760) then
                   Fin (sum_Qc ((λ id, v id * c id)%Qc
                                <$> region_ids pp category region)
                        / sum_Qc (c <$> region_ids pp category region))%Qc
                 else Fin 0%Qc))
  ∧ isleap 2016 = true
  ∧ (∀ id h, id ∈ [1%Z; 2%Z] -> h < 8784 ->
       stored_series (scenario_store 8784) subset id !! h
       = Some (Fin (if decide (id = 1%Z) then qc 1 1 else qc 2 1)))
  ∧ ∃ feed_in out,
      aggregate_feedin scenario_pp [("set"%string, scenario_store 8784)]
        ["DE01"%string] 2016 "Wind" = Ok feed_in
      ∧ get_column ("DE01", "set", "E-82_3000_120")%string (df_columns feed_in)
        = Some out
      ∧ length out = 8784
      ∧ (∀ h, h < 8760 -> out !! h = Some (Fin (qc 16 10)))
      ∧ (∀ h, 8760 ≤ h -> h < 8784 -> out !! h = Some (Fin 0%Qc)).
Proof.
  assert (∀ (pp : PowerPlants) (files : list (string * HDFStore))
            (regions : list string) (year : Z) (category : string)
            (reference : DataFrame string) (region name col : string)
            (store : HDFStore) (v c : Z -> Qc) (h : nat),
            feedin_inputs pp files regions category reference ->
            region ∈ regions ->
            region_ids pp category region ≠ [] ->
            (name, store) ∈ files ->
            col ∈ columns_of store ->
            own_label store col ->
            Forall (λ r, pp_capacity r year = Fin (c (pp_coastdat_id r)))
              (pp_rows pp category region) ->
            Forall (λ id, ∃ frame s, store !! id = Some frame
                            ∧ get_column col (df_columns frame) = Some s
                            ∧ s !! h = Some (Fin (v id)))
              (region_ids pp category region) ->
            sum_Qc (c <$> region_ids pp category region) ≠ 0%Qc ->
            h < df_rows reference ->
            ∃ feed_in out,
              aggregate_feedin pp files regions year category = Ok feed_in
              ∧ get_column (region, name, colname col) (df_columns feed_in)
                = Some out
              ∧ length out = df_rows reference
              ∧ out !! h
                = Some (if decide (h < 8760) then
                          Fin (sum_Qc ((λ id, v id * c id)%Qc
                                       <$> region_ids pp category region)
                               / sum_Qc (c <$> region_ids pp category region))%Qc
                        else Fin 0%Qc)) as Hgeneral.
  { intros pp files regions year category reference region name col store v c h
      Hinputs Hregion Hids Hfile Hcol Hlabel Hcap Hstored Htotal Hh.
    destruct (feedin_hours pp files regions year category reference region name
                col store c) as (feed_in & out & Hrun & Hget & Hlen & Hat);
      try done; [lia|].
    exists feed_in, out. split; [done|]. split; [done|]. split; [done|].
    rewrite lookup_at_hour by lia. f_equal.
    destruct (Hat h Hh) as [Hfirst Hlast].
    destruct (decide (h < 8760)) as [Hcut|Hcut]; [|apply Hlast; lia].
    rewrite (Hfirst Hcut (λ id, Some (v id))); [done|].
    intros gid Hgid. rewrite Forall_forall in Hstored.
    destruct (Hstored gid Hgid) as (frame & s & Hf & Hs & Hv).
    unfold stored_series. rewrite Hf, Hs. unfold default, from_option, id.
    by rewrite (at_hour_lookup _ _ _ Hv). }
  split.
  { intros pp files regions year category reference region name col store v c h
      Hinputs Hregion Hids Hfile Hcol Hlabel Hcap Hstored Htotal Hh.
    destruct (Hgeneral pp files regions year category reference region name col
                store v c h) as (feed_in & out & Hrun & Hget & _ & Hat);
      try done.
    by exists feed_in, out. }
  split; [reflexivity|].
  assert (0 < 8784) as Hpos by (apply Nat.ltb_lt; vm_compute; reflexivity).
  assert (∀ h, h < 8784 ->
            Forall (λ id, ∃ frame s, scenario_store 8784 !! id = Some frame
                            ∧ get_column subset (df_columns frame) = Some s
                            ∧ s !! h = Some (Fin (if decide (id = 1%Z) then qc 1 1
                                                  else qc 2 1)))
              (region_ids scenario_pp "Wind" "DE01")) as Hstored.
  { intros h Hh. by apply scenario_stored. }
  split.
  { intros id h Hid Hh. specialize (Hstored h Hh).
    rewrite Forall_forall in Hstored. rewrite scenario_ids in Hstored.
    destruct (Hstored id Hid) as (frame & s & Hf & Hs & Hv).
    unfold stored_series. rewrite Hf, Hs. exact Hv. }
  destruct (single_column_label (scenario_store 8784) subset
              (const_frame 8784 zero)) as [Hcol Hlabel]; [done|done|].
  assert (∀ h, h < 8784 ->
            ∃ feed_in out,
              aggregate_feedin scenario_pp [("set"%string, scenario_store 8784)]
                ["DE01"%string] 2016 "Wind" = Ok feed_in
              ∧ get_column ("DE01", "set", "E-82_3000_120")%string
                  (df_columns feed_in) = Some out
              ∧ length out = 8784
              ∧ out !! h = Some (if decide (h < 8760) then Fin (qc 16 10)
                                 else Fin 0%Qc)) as Hscenario.
  { intros h Hh.
    destruct (Hgeneral scenario_pp [("set"%string, scenario_store 8784)]
                ["DE01"%string] 2016%Z "Wind" (const_frame 8784 zero) "DE01"
                "set" subset (scenario_store 8784)
                (λ id, if decide (id = 1%Z) then qc 1 1 else qc 2 1)
                (λ id, if decide (id = 1%Z) then qc 2 1 else qc 3 1) h)
      as (feed_in & out & Hrun & Hget & Hlen & Hat); try done.
    - by apply scenario_inputs.
    - left.
    - left.
    - repeat constructor.
    - by apply Hstored.
    - exists feed_in, out. split; [done|]. split; [done|]. split; [done|].
      rewrite Hat. f_equal. destruct (decide (h < 8760)); [|done].
      f_equal. Qc_compute. }
  destruct (Hscenario 0 Hpos) as (feed_in & out & Hrun & Hget & Hlen & _).
  exists feed_in, out. split; [done|]. split; [done|]. split; [done|].
  assert (∀ h, h < 8784 -> out !! h = Some (if decide (h < 8760) then Fin (qc 16 10)
                                            else Fin 0%Qc)) as Hat.
  { intros h Hh.
    destruct (Hscenario h Hh) as (feed_in' & out' & Hrun' & Hget' & _ & Hat).
    rewrite Hrun in Hrun'. injection Hrun' as <-.
    rewrite Hget in Hget'. by injection Hget' as <-. }
  assert (8760 < 8784) as Hlt by (apply Nat.ltb_lt; vm_compute; reflexivity).
  split.
  - intros h Hh. rewrite Hat by lia. by destruct (decide (h < 8760)).
  - intros h Hge Hh. rewrite Hat by done. destruct (decide (h < 8760)); [lia|done].
Qed.

Lemma weighted_average_until_8760_witness :
  ∃ feed_in out,
    aggregate_feedin scenario_pp [("set"%string, scenario_store 3)]
      ["DE01"%string] 2014 "Wind" = Ok feed_in
    ∧ get_column ("DE01"%string, "set"%string, colname subset)
        (df_columns feed_in) = Some out
    ∧ out !! 2
      = Some (if decide (2 < 8760) then
                Fin (sum_Qc ((λ id, (if decide (id = 1%Z) then qc 1 1 else qc 2 1)
                                    * (if decide (id = 1%Z) then qc 2 1 else qc 3 1))%Qc
                             <$> region_ids scenario_pp "Wind" "DE01")
                     / sum_Qc ((λ id, if decide (id = 1%Z) then qc 2 1 else qc 3 1)
                               <$> region_ids scenario_pp "Wind" "DE01"))%Qc
              else Fin 0%Qc).
Proof.
  apply (proj1 weighted_average_until_8760 scenario_pp
           [("set"%string, scenario_store 3)] ["DE01"%string] 2014%Z "Wind"
           (const_frame 3 zero) "DE01" "set" subset (scenario_store 3)
           (λ id, if decide (id = 1%Z) then qc 1 1 else qc 2 1)
           (λ id, if decide (id = 1%Z) then qc 2 1 else qc 3 1) 2).
  - apply scenario_inputs. lia.
  - left.
  - discriminate.
  - left.
  - apply (single_column_label _ _ (const_frame 3 zero)); reflexivity.
  - apply (single_column_label _ _ (const_frame 3 zero)); reflexivity.
  - repeat constructor.
  - apply scenario_stored. lia.
  - apply Qc_nonzero. vm_compute. reflexivity.
  - simpl. lia.
Defined.

(** ** A region without installed capacity *)

Lemma region_column_zero_capacity (pp : PowerPlants) (store : HDFStore)
    (my_index : nat) (category region : string) (year : Z) (col : string) :
  NoDup (region_ids pp category region) ->
  Forall (λ id, ∃ frame s, store !! id = Some frame
                  ∧ get_column col (df_columns frame) = Some s)
    (region_ids pp category region) ->
  pp_total_capacity pp category region year = zero ->
  0 < my_index ->
  ∃ out,
    region_column pp store my_index category region year col
      (region_ids pp category region) = Ok out
    ∧ length out = my_index
    ∧ Forall (λ x, isfinite x = false) out.
Proof.
  intros Hnd Hstored Hzero Hpos. rewrite Forall_forall in Hstored.
  assert (∀ id, id ∈ region_ids pp category region ->
            ∃ frame, store !! id = Some frame
                     ∧ get_column col (df_columns frame)
                       = Some (stored_series store col id)) as Hseries.
  { intros id Hid. destruct (Hstored id Hid) as (frame & s & Hf & Hs).
    exists frame. split; [done|]. unfold stored_series. by rewrite Hf, Hs. }
  destruct (region_column_at pp store my_index category region year col
              (stored_series store col) Hnd Hseries Hpos 0 Hpos)
    as (out & Hout & Hlen & _).
  exists out. split; [done|]. split; [done|].
  apply Forall_lookup. intros h x Hx.
  assert (h < my_index) as Hh.
  { rewrite <- Hlen. by apply lookup_lt_Some in Hx. }
  destruct (region_column_at pp store my_index category region year col
              (stored_series store col) Hnd Hseries Hpos h Hh)
    as (out' & Hout' & _ & Hat).
  rewrite Hout in Hout'. injection Hout' as <-.
  rewrite (at_hour_lookup _ _ _ Hx), Hzero in Hat.
  rewrite Hat. apply fdiv_zero_not_finite.
Qed.

(** C3, as amended.  For a region with grid points whose installed capacity
    adds up to zero, the aggregation raises nothing: the frame it writes
    holds the column of the region, and each hour of the column is the
    quotient of a division by zero, which is not-a-number or an infinity and
    never a number. *)
Theorem zero_capacity_column (pp : PowerPlants)
    (files : list (string * HDFStore)) (regions : list string) (year : Z)
    (category : string) (reference : DataFrame string)
    (region name col : string) (store : HDFStore) :
  feedin_inputs pp files regions category reference ->
  0 < df_rows reference ->
  region ∈ regions ->
  region_ids pp category region ≠ [] ->
  (name, store) ∈ files ->
  col ∈ columns_of store ->
  own_label store col ->
  pp_total_capacity pp category region year = zero ->
  ∃ feed_in out,
    aggregate_feedin pp files regions year category = Ok feed_in
    ∧ get_column (region, name, colname col) (df_columns feed_in) = Some out
    ∧ length out = df_rows reference
    ∧ Forall (λ x, isfinite x = false) out.
Proof.
  intros Hinputs Hpos Hregion Hids Hfile Hcol Hlabel Hzero.
  destruct (feedin_column pp files regions year category reference region name
              col store) as (feed_in & out & Hrun & Hout & Hget); try done.
  destruct Hinputs as (_ & _ & _ & Hcomplete).
  destruct (Hcomplete region Hregion) as [Hnd Hstored].
  destruct (region_column_zero_capacity pp store (df_rows reference) category
              region year col) as (out' & Hout' & Hlen & Hnan); try done.
  { apply Forall_forall. intros id Hid.
    destruct (Hstored name store col id) as (frame & Hframe & [s Hs]); eauto. }
  rewrite Hout in Hout'. injection Hout' as <-.
  by exists feed_in, out.
Qed.

Lemma zero_capacity_column_witness :
  ∃ feed_in out,
    aggregate_feedin idle_pp [("set"%string, idle_store)] ["DE01"%string] 2014
      "Wind" = Ok feed_in
    ∧ get_column ("DE01"%string, "set"%string, colname subset)
        (df_columns feed_in) = Some out
    ∧ length out = df_rows (const_frame 2 zero)
    ∧ Forall (λ x, isfinite x = false) out.
Proof.
  apply (zero_capacity_column idle_pp [("set"%string, idle_store)]
           ["DE01"%string] 2014%Z "Wind" (const_frame 2 zero) "DE01" "set"
           subset idle_store).
  - apply idle_inputs.
  - simpl. lia.
  - left.
  - discriminate.
  - left.
  - apply (single_column_label _ _ (const_frame 2 zero)); reflexivity.
  - apply (single_column_label _ _ (const_frame 2 zero)); reflexivity.
  - vm_compute. reflexivity.
Defined.

(** C3, as stated, fails: with a grid point of capacity zero the aggregation
    returns, and the file it writes holds not-a-number at every hour of the
    region. *)
Lemma zero_capacity_writes_nan :
  match aggregate_by_region_coastdat_feedin idle_pp [("set"%string, idle_store)]
          ["DE01"%string] 2014 "Wind" "feedin.csv" empty_world with
  | Ok w => files w !! "feedin.csv"%string
  | Raise _ => None
  end
  = Some (FeedinCsv
            (mkDataFrame 2 [(("DE01", "set", "E-82_3000_120")%string, [NaN; NaN])])).
Proof. vm_compute. reflexivity. Qed.

(** ** The hours that enter the aggregation *)

(** The rows that [get_average_wind_speed] keeps of a year are the hours of
    the year, 8784 in a leap year and 8760 otherwise, when the series has at
    least as many. *)
Lemma length_year_rows (year : Z) (ws : Series) :
  hours_in_year year ≤ length ws ->
  length (year_rows year ws) = hours_in_year year.
Proof.
  unfold year_rows, hours_in_year, slice_to. intros Hlen.
  destruct (isleap year).
  - destruct (8784 - Z.of_nat (length ws) <? 0)%Z eqn:E.
    + rewrite length_take. apply Z.ltb_lt in E.
      assert (Z.of_nat 8784 = 8784%Z) as H8784 by (vm_compute; reflexivity).
      lia.
    + apply Z.ltb_ge in E.
      assert (Z.of_nat 8784 = 8784%Z) as H8784 by (vm_compute; reflexivity).
      lia.
  - destruct (8760 - Z.of_nat (length ws) <? 0)%Z eqn:E.
    + rewrite length_take. apply Z.ltb_lt in E.
      assert (Z.of_nat 8760 = 8760%Z) as H8760 by (vm_compute; reflexivity).
      lia.
    + apply Z.ltb_ge in E.
      assert (Z.of_nat 8760 = 8760%Z) as H8760 by (vm_compute; reflexivity).
      lia.
Qed.

Lemma unit_column_leap_year :
  ∃ out,
    region_column unit_pp (unit_store 8784) 8784 "Wind" "DE01" 2016 subset
      (region_ids unit_pp "Wind" "DE01") = Ok out
    ∧ length out = 8784
    ∧ out !! 8759 = Some (Fin (qc 1 1))
    ∧ out !! 8760 = Some zero.
Proof.
  assert (8759 < 8760) as H1 by (apply Nat.ltb_lt; vm_compute; reflexivity).
  assert (8760 < 8784) as H2 by (apply Nat.ltb_lt; vm_compute; reflexivity).
  assert (NoDup (region_ids unit_pp "Wind" "DE01")) as Hnd.
  { rewrite unit_ids. apply NoDup_singleton. }
  assert (∀ id, id ∈ region_ids unit_pp "Wind" "DE01" ->
            ∃ frame, unit_store 8784 !! id = Some frame
                     ∧ get_column subset (df_columns frame)
                       = Some (replicate 8784 (Fin (qc 1 1)))) as Hstored.
  { intros id Hid. rewrite unit_ids in Hid.
    apply list_elem_of_singleton in Hid as ->.
    exists (const_frame 8784 (Fin (qc 1 1))). done. }
  assert (0 < 8784) as Hpos by lia.
  destruct (region_column_at unit_pp (unit_store 8784) 8784 "Wind" "DE01" 2016
              subset (λ _, replicate 8784 (Fin (qc 1 1))) Hnd Hstored Hpos
              8759) as (out & Hout & Hlen & Hat1); [lia|].
  destruct (region_column_at unit_pp (unit_store 8784) 8784 "Wind" "DE01" 2016
              subset (λ _, replicate 8784 (Fin (qc 1 1))) Hnd Hstored Hpos
              8760) as (out' & Hout' & _ & Hat2); [lia|].
  rewrite Hout in Hout'. injection Hout' as <-.
  exists out. split; [done|]. split; [done|].
  rewrite !lookup_at_hour by lia. split; f_equal.
  - rewrite Hat1.
    rewrite at_hour_head_rows_lt by done.
    rewrite (at_hour_lookup _ _ (Fin (qc 1 1))) by (apply lookup_replicate_2; lia).
    float_compute.
  - rewrite Hat2.
    rewrite at_hour_head_rows_ge by lia.
    float_compute.
Qed.

(** C4, on the input at which the code departs from it.  In the leap year
    2016, for a region with one grid point of capacity 1 whose series holds
    the value 1 at each of its 8784 hours, the column of the region in the
    frame that is written has 8784 rows; it is 1 at hour 8759 and 0 at hour
    8760: the hours after the first 8760 do not enter the aggregation. *)
Theorem leap_year_hours_cut :
  isleap 2016 = true
  ∧ ∃ feed_in out,
      aggregate_feedin unit_pp [("set"%string, unit_store 8784)]
        ["DE01"%string] 2016 "Wind" = Ok feed_in
      ∧ get_column ("DE01", "set", "E-82_3000_120")%string (df_columns feed_in)
        = Some out
      ∧ length out = 8784
      ∧ out !! 8759 = Some (Fin (qc 1 1))
      ∧ out !! 8760 = Some zero.
Proof.
  split; [reflexivity|].
  destruct (single_column_label (unit_store 8784) subset (const_frame 8784 zero))
    as [Hcol Hlabel]; [done|done|].
  destruct (feedin_column unit_pp [("set"%string, unit_store 8784)]
              ["DE01"%string] 2016 "Wind" (const_frame 8784 zero) "DE01" "set"
              subset (unit_store 8784))
    as (feed_in & out & Hrun & Hout & Hget); try done.
  - apply unit_inputs.
  - change (0 < 8784). apply Nat.ltb_lt. vm_compute. reflexivity.
  - left.
  - left.
  - destruct unit_column_leap_year as (out' & Hout' & Hlen & H1 & H2).
    change (df_rows (const_frame 8784 zero)) with 8784 in Hout.
    rewrite Hout in Hout'.
    injection Hout' as <-. by exists feed_in, out.
Qed.

(** ** Equal capacities *)

(** The series of the two grid points of the scenario, hour by hour. *)
Lemma two_points_series (n h : nat) (id : Z) :
  id ∈ [1%Z; 2%Z] -> h < n ->
  stored_series (scenario_store n) subset id !! h
  = Some (Fin (if decide (id = 1%Z) then qc 1 1 else qc 2 1)).
Proof.
  intros Hid Hh. pose proof (two_points_stored n h Hh) as Hstored.
  rewrite Forall_forall in Hstored.
  destruct (Hstored id Hid) as (frame & s & Hf & Hs & Hv).
  unfold stored_series. rewrite Hf, Hs. exact Hv.
Qed.

(** C6.  When every grid point of a region carries the same positive
    capacity, the column of the region in the frame that is written is not
    the mean of the values of the grid points at every hour: from hour 8760
    of the index on it holds zero, whatever the grid points hold.  In the
    leap year 2016, with the capacity 5/2 at both grid points and the series
    constant 1 and constant 2 over the 8784 hours of the year, the column is
    the mean 3/2 up to hour 8759 and 0 at the 24 hours from 8760 on. *)
Theorem equal_capacities_after_8760 :
  (∀ (pp : PowerPlants) (files : list (string * HDFStore))
     (regions : list string) (year : Z) (category : string)
     (reference : DataFrame string) (region name col : string)
     (store : HDFStore) (c : Qc) (h : nat),
     feedin_inputs pp files regions category reference ->
     region ∈ regions ->
     region_ids pp category region ≠ [] ->
     (name, store) ∈ files ->
     col ∈ columns_of store ->
     own_label store col ->
     (0 < c)%Qc ->
     Forall (λ r, pp_capacity r year = Fin c) (pp_rows pp category region) ->
     8760 ≤ h -> h < df_rows reference ->
     ∃ feed_in out,
       aggregate_feedin pp files regions year category = Ok feed_in
       ∧ get_column (region, name, colname col) (df_columns feed_in) = Some out
       ∧ out !! h = Some (Fin 0%Qc))
  ∧ isleap 2016 = true
  ∧ (∀ id h, id ∈ [1%Z; 2%Z] -> h < 8784 ->
       stored_series (scenario_store 8784) subset id !! h
       = Some (Fin (if decide (id = 1%Z) then qc 1 1 else qc 2 1)))
  ∧ ((qc 1 1 + qc 2 1) / Qc_of_nat 2 = qc 3 2)%Qc
  ∧ ∃ feed_in out,
      aggregate_feedin equal_pp [("set"%string, scenario_store 8784)]
        ["DE01"%string] 2016 "Wind" = Ok feed_in
      ∧ get_column ("DE01", "set", "E-82_3000_120")%string (df_columns feed_in)
        = Some out
      ∧ length out = 8784
      ∧ (∀ h, h < 8760 -> out !! h = Some (Fin (qc 3 2)))
      ∧ (∀ h, 8760 ≤ h -> h < 8784 -> out !! h = Some (Fin 0%Qc)).
Proof.
  assert (∀ (pp : PowerPlants) (category region : string) (year : Z) (c : Qc),
            region_ids pp category region ≠ [] -> (0 < c)%Qc ->
            sum_Qc ((λ _, c) <$> region_ids pp category region) ≠ 0%Qc)
    as Htotal.
  { intros pp category region year c Hne Hc. rewrite sum_Qc_const.
    intros Hz. apply Qcmult_integral in Hz as [Hz|Hz].
    - revert Hz. apply Qc_of_nat_nonzero.
      destruct (region_ids pp category region); [done|]. cbn [length]. lia.
    - subst c. by apply Qclt_not_eq in Hc. }
  split.
  { intros pp files regions year category reference region name col store c h
      Hinputs Hregion Hne Hfile Hcol Hlabel Hc Hcap Hcut Hh.
    destruct (feedin_hours pp files regions year category reference region name
                col store (λ _, c))
      as (feed_in & out & Hrun & Hget & Hlen & Hat); try done; [lia|by apply Htotal|].
    exists feed_in, out. split; [done|]. split; [done|].
    rewrite lookup_at_hour by lia. f_equal. by apply (Hat h Hh). }
  split; [reflexivity|].
  split; [intros id h; apply two_points_series|].
  split; [Qc_compute|].
  assert (0 < 8784) as Hpos by (apply Nat.ltb_lt; vm_compute; reflexivity).
  destruct (single_column_label (scenario_store 8784) subset
              (const_frame 8784 zero)) as [Hcol Hlabel]; [done|done|].
  assert (sum_Qc ((λ _, qc 5 2) <$> region_ids equal_pp "Wind" "DE01") ≠ 0%Qc)
    as Hsum.
  { apply (Htotal equal_pp "Wind" "DE01" 2016%Z); done. }
  destruct (feedin_hours equal_pp [("set"%string, scenario_store 8784)]
              ["DE01"%string] 2016%Z "Wind" (const_frame 8784 zero) "DE01" "set"
              subset (scenario_store 8784) (λ _, qc 5 2)
              (equal_inputs 8784 Hpos) Hpos ltac:(left) ltac:(done) ltac:(left)
              Hcol Hlabel ltac:(repeat constructor) Hsum)
    as (feed_in & out & Hrun & Hget & Hlen & Hat).
  exists feed_in, out. split; [done|]. split; [done|]. split; [done|].
  change (df_rows (const_frame 8784 zero)) with 8784 in Hat, Hlen.
  assert (8760 < 8784) as Hlt by (apply Nat.ltb_lt; vm_compute; reflexivity).
  split.
  - intros h Hh. rewrite lookup_at_hour by lia. f_equal.
    destruct (Hat h) as [Hfirst _]; [lia|].
    rewrite (Hfirst Hh (λ id, Some (if decide (id = 1%Z) then qc 1 1
                                   else qc 2 1))).
    + f_equal. Qc_compute.
    + intros gid Hgid. rewrite equal_ids in Hgid.
      apply at_hour_lookup. apply two_points_series; [done|lia].
  - intros h Hge Hh. rewrite lookup_at_hour by lia. f_equal.
    by apply (Hat h Hh).
Qed.

Lemma equal_capacities_after_8760_witness :
  ∃ feed_in out,
    aggregate_feedin equal_pp [("set"%string, scenario_store 8784)]
      ["DE01"%string] 2016 "Wind" = Ok feed_in
    ∧ get_column ("DE01"%string, "set"%string, colname subset)
        (df_columns feed_in) = Some out
    ∧ out !! 8760 = Some (Fin 0%Qc).
Proof.
  apply (proj1 equal_capacities_after_8760 equal_pp
           [("set"%string, scenario_store 8784)] ["DE01"%string] 2016%Z "Wind"
           (const_frame 8784 zero) "DE01" "set" subset (scenario_store 8784)
           (qc 5 2) 8760).
  - apply equal_inputs. apply Nat.ltb_lt. vm_compute. reflexivity.
  - left.
  - discriminate.
  - left.
  - apply (single_column_label _ _ (const_frame 8784 zero)); reflexivity.
  - apply (single_column_label _ _ (const_frame 8784 zero)); reflexivity.
  - reflexivity.
  - repeat constructor.
  - apply Nat.leb_le. vm_compute. reflexivity.
  - apply Nat.ltb_lt. vm_compute. reflexivity.
Defined.

(** ** Arithmetic-mean aggregation and the fallback *)

Lemma nansum_singleton (x : float) : nansum [x] = zero_for_nan x.
Proof.
  destruct x as [a| | |]; try done.
  unfold nansum, zero. cbn. f_equal. ring.
Qed.

Lemma Qc_of_nat_1 : Qc_of_nat 1 = 1%Qc.
Proof. by apply Qc_is_canon. Qed.

Lemma fdiv_one (x : float) : fdiv x (of_nat 1) = x.
Proof.
  unfold of_nat. rewrite Qc_of_nat_1. destruct x as [a| | |]; try done.
  rewrite fdiv_Fin by done. f_equal. field. done.
Qed.

Lemma for_each_raise {A S} (body : S -> A -> result S) (xs : list A) (acc : S)
    (x : A) (e : exn) :
  x ∈ xs ->
  (∀ s, body s x = Raise e) ->
  (∀ s y e', y ∈ xs -> body s y = Raise e' -> e' = e) ->
  for_each body xs acc = Raise e.
Proof.
  revert acc. induction xs as [|y xs IH]; intros acc Hx Hraise Hothers.
  - by apply elem_of_nil in Hx.
  - cbn [for_each]. destruct (body acc y) as [acc'|e'] eqn:Hy.
    + cbn [bind]. apply elem_of_cons in Hx as [->|Hx].
      * by rewrite Hraise in Hy.
      * apply IH; [done|done|]. intros s z e'' Hz. apply Hothers. by right.
    + cbn [bind]. f_equal. apply (Hothers acc y); [left|done].
Qed.

Section fallback.
Context {Polygon Point : Type} `{Shapes Polygon Point}.
Variable geo : list (string * Polygon).
Variable coastdat_grid : list (Z * Polygon).

Lemma cd_ids_of_nil (region : string) :
  cd_ids_of geo coastdat_grid region = [] ->
  Some region ∉ (coastdat_geo geo coastdat_grid).*2.
Proof.
  unfold cd_ids_of. intros Hnil Hin.
  apply list_elem_of_fmap in Hin as ([gid reg] & Hreg & Hin). cbn in Hreg.
  apply fmap_nil_inv in Hnil.
  apply (filter_nil_not_elem_of _ _ (gid, reg)) in Hnil; [done|by cbn].
Qed.

Lemma without_match_spec (region : string) :
  region ∈ geo.*1 -> cd_ids_of geo coastdat_grid region = [] ->
  region ∈ regions_without_match geo coastdat_grid.
Proof.
  intros Hin Hnil. unfold regions_without_match.
  apply list_elem_of_filter. split; [by apply cd_ids_of_nil|].
  by apply elem_of_remove_dups.
Qed.

Lemma without_match_index (region : string) :
  region ∈ regions_without_match geo coastdat_grid -> region ∈ geo.*1.
Proof.
  unfold regions_without_match. intros [_ Hin]%list_elem_of_filter.
  by rewrite elem_of_remove_dups in Hin.
Qed.

Lemma region_point_index (region : string) :
  region ∈ geo.*1 -> ∃ p, region_point geo region = Ok p.
Proof.
  intros Hin. unfold region_point.
  apply list_elem_of_fmap in Hin as ([reg polygon] & -> & Hin). cbn.
  destruct (filter (λ g, g.1 = reg) geo) as [|g gs] eqn:Hf.
  - apply (filter_nil_not_elem_of _ _ (reg, polygon)) in Hf; done.
  - cbn. eauto.
Qed.

(** A region of the index has a fallback point, or the search for one
    raises [IndexError]. *)
Lemma fallback_point_raises (region : string) (e : exn) :
  region ∈ geo.*1 ->
  fallback_point geo coastdat_grid region = Raise e -> e = IndexError.
Proof.
  intros Hin. unfold fallback_point.
  destruct (region_point_index region Hin) as (p & ->). cbn [bind].
  unfold first_intersecting.
  destruct (head _); cbn; [done|]. by intros [= <-].
Qed.

Lemma fix_loop (regs : list string) (acc : gmap string Z) :
  (∀ reg, reg ∈ regs -> ∃ gid, fallback_point geo coastdat_grid reg = Ok gid) ->
  ∃ fix_,
    for_each (λ (fix_ : gmap string Z) reg,
                gid <- fallback_point geo coastdat_grid reg ;;
                Ok (<[reg := gid]> fix_)) regs acc = Ok fix_
    ∧ (∀ reg, reg ∈ regs ->
         ∃ gid, fallback_point geo coastdat_grid reg = Ok gid
                ∧ fix_ !! reg = Some gid)
    ∧ (∀ reg, reg ∉ regs -> fix_ !! reg = acc !! reg).
Proof.
  revert acc. induction regs as [|reg regs IH]; intros acc Hall.
  - exists acc. split; [done|]. split; [|done].
    intros reg Hreg. by apply elem_of_nil in Hreg.
  - destruct (Hall reg) as (gid & Hgid); [left|].
    destruct (IH (<[reg := gid]> acc)) as (fix_ & Hrun & Hin & Hout).
    { intros reg' Hreg'. apply Hall. by right. }
    exists fix_. cbn [for_each]. rewrite Hgid. cbn [bind].
    split; [done|]. split.
    + intros reg' Hreg'. destruct (decide (reg' ∈ regs)) as [Hr|Hr].
      * by apply Hin.
      * apply elem_of_cons in Hreg' as [->|Hreg']; [|done].
        exists gid. split; [done|]. rewrite Hout by done.
        apply lookup_insert_eq.
    + intros reg' Hreg'. apply not_elem_of_cons in Hreg' as [Hne Hreg'].
      rewrite Hout by done. by apply lookup_insert_ne.
Qed.

(** The series assigned to a region has the rows of the series it is
    computed from. *)
Lemma region_average_rows (weather : HDFStore) (parameter : string)
    (fix_ : gmap string Z) (n : nat) (region : string) :
  0 < n ->
  weather_complete geo coastdat_grid weather parameter fix_ n ->
  region ∈ geo.*1 ->
  ∃ s, region_average geo coastdat_grid weather parameter fix_ region = Ok s
       ∧ length s = n.
Proof.
  intros Hn Hcomplete Hregion.
  destruct (Hcomplete region Hregion) as [Hpoints Hfallback].
  unfold region_average.
  destruct (for_each_assign (weather_series weather parameter) id n Hn
              (cd_ids_of geo coastdat_grid region) (empty_frame 0))
    as (tmp & Hrun & Hrows & _); [by right|done|].
  unfold id in Hrun. rewrite Hrun. cbn [bind].
  destruct (decide (length (cd_ids_of geo coastdat_grid region) < 1)) as [Hlt|Hge].
  - destruct Hfallback as (gid & s & Hfix & Hs & Hlen).
    { destruct (cd_ids_of geo coastdat_grid region); [done|]. cbn in Hlt. lia. }
    rewrite Hfix. cbn [of_option bind]. eauto.
  - eexists. split; [done|]. rewrite length_divide, length_sum_rows.
    destruct Hrows as [Hrows|[Hnil _]]; [done|].
    rewrite Hnil in Hge. cbn in Hge. lia.
Qed.

(** The frame [spatial_average_weather] writes has, for every region of the
    index, the series assigned to it. *)
Lemma spatial_average_weather_columns (weather : HDFStore) (parameter : string)
    (fix_ : gmap string Z) (n : nat) :
  0 < n ->
  fix_regions geo coastdat_grid = Ok fix_ ->
  weather_complete geo coastdat_grid weather parameter fix_ n ->
  ∃ avg_value,
    spatial_average_weather geo coastdat_grid weather parameter = Ok avg_value
    ∧ ∀ region, region ∈ geo.*1 ->
        ∃ s, region_average geo coastdat_grid weather parameter fix_ region = Ok s
             ∧ get_column region (df_columns avg_value) = Some s.
Proof.
  intros Hn Hfix Hcomplete. unfold spatial_average_weather.
  rewrite Hfix. cbn [bind].
  destruct (for_each_assign
              (region_average geo coastdat_grid weather parameter fix_) id n Hn
              geo.*1 (empty_frame 0))
    as (avg_value & Hrun & _ & _ & Hset); [by right| |].
  { intros region Hregion. by apply region_average_rows. }
  unfold id in Hrun, Hset.
  exists avg_value. split; [done|]. intros region Hregion.
  apply (Hset region Hregion). by intros y _ ->.
Qed.

(** C2.  When the search for a fallback point succeeds for every region of
    the index that the join left without grid points, the fix returns, and
    every region of the index then has a grid point: one from the join, or
    the one fallback point the fix holds for it, the first grid polygon that
    intersects the representative point of the region.  With the series of
    these grid points in the weather store, the frame that is written has a
    column for every region of the index, and the column of a region without
    joined grid points is the series of its fallback point as it is.  When
    the search fails for one such region, the function raises [IndexError]
    and writes nothing. *)
Theorem fallback_guarantee :
  ((∀ region, region ∈ geo.*1 -> cd_ids_of geo coastdat_grid region = [] ->
      ∃ gid, fallback_point geo coastdat_grid region = Ok gid) ->
   ∃ fix_,
     fix_regions geo coastdat_grid = Ok fix_
     ∧ ∀ region, region ∈ geo.*1 ->
         cd_ids_of geo coastdat_grid region ≠ []
         ∨ ∃ gid, fix_ !! region = Some gid
                  ∧ fallback_point geo coastdat_grid region = Ok gid)
  ∧ (∀ weather parameter fix_ n,
       0 < n ->
       fix_regions geo coastdat_grid = Ok fix_ ->
       weather_complete geo coastdat_grid weather parameter fix_ n ->
       ∃ avg_value,
         spatial_average_weather geo coastdat_grid weather parameter
         = Ok avg_value
         ∧ ∀ region, region ∈ geo.*1 ->
             ∃ s, get_column region (df_columns avg_value) = Some s
                  ∧ (cd_ids_of geo coastdat_grid region = [] ->
                     ∃ gid, fix_ !! region = Some gid
                            ∧ weather_series weather parameter gid = Ok s))
  ∧ (∀ weather parameter region reg_point,
       region ∈ geo.*1 ->
       cd_ids_of geo coastdat_grid region = [] ->
       region_point geo region = Ok reg_point ->
       (∀ g, g ∈ coastdat_grid -> intersects g.2 reg_point = false) ->
       spatial_average_weather geo coastdat_grid weather parameter
       = Raise IndexError).
Proof.
  split; [|split].
  - intros Hall.
    destruct (fix_loop (regions_without_match geo coastdat_grid) ∅)
      as (fix_ & Hrun & Hin & _).
    { intros reg Hreg. apply Hall; [by apply without_match_index|].
      unfold regions_without_match in Hreg.
      apply list_elem_of_filter in Hreg as [Hno _]. unfold cd_ids_of.
      destruct (filter _ _) as [|[gid r] l] eqn:Hf; [done|].
      exfalso. apply Hno.
      assert ((gid, r) ∈ filter (λ g, g.2 = Some reg)
                          (coastdat_geo geo coastdat_grid)) as Hg.
      { rewrite Hf. left. }
      apply list_elem_of_filter in Hg as [Hr Hg]. cbn in Hr. subst r.
      apply list_elem_of_fmap. by exists (gid, Some reg). }
    exists fix_. split; [done|]. intros region Hregion.
    destruct (decide (cd_ids_of geo coastdat_grid region = [])) as [Hnil|Hne];
      [right|by left].
    destruct (Hin region) as (gid & Hgid & Hfix);
      [by apply without_match_spec|]. eauto.
  - intros weather parameter fix_ n Hn Hfix Hcomplete.
    destruct (spatial_average_weather_columns weather parameter fix_ n Hn Hfix
                Hcomplete) as (avg_value & Hrun & Hcols).
    exists avg_value. split; [done|]. intros region Hregion.
    destruct (Hcols region Hregion) as (s & Havg & Hget).
    exists s. split; [done|]. intros Hnil.
    destruct (Hcomplete region Hregion) as [_ Hfallback].
    destruct (Hfallback Hnil) as (gid & s' & Hgid & Hs' & _).
    exists gid. split; [done|]. rewrite <- Havg.
    unfold region_average. rewrite Hnil. cbn [for_each bind length].
    destruct (decide (0 < 1)); [|lia]. by rewrite Hgid.
  - intros weather parameter region reg_point Hregion Hnil Hpoint Hnone.
    unfold spatial_average_weather, fix_regions.
    rewrite (for_each_raise _ _ _ region IndexError); [done| | |].
    + by apply without_match_spec.
    + intros s. unfold fallback_point. rewrite Hpoint. cbn [bind].
      unfold first_intersecting.
      destruct (filter _ coastdat_grid) as [|g gs] eqn:Hf; [done|].
      assert (g ∈ filter (λ g, intersects g.2 reg_point = true) coastdat_grid)
        as Hg by (rewrite Hf; left).
      apply list_elem_of_filter in Hg as [Hyes Hg].
      rewrite (Hnone g Hg) in Hyes. done.
    + intros s reg e Hreg Hraise.
      destruct (fallback_point geo coastdat_grid reg) as [gid|e0] eqn:Hfb;
        [done|]. cbn in Hraise. injection Hraise as <-.
      eapply fallback_point_raises; [|done]. by apply without_match_index.
Qed.

Lemma single_point_average (weather : HDFStore) (parameter : string)
    (fix_ : gmap string Z) (region : string) (cid : Z) (s : Series) :
  cd_ids_of geo coastdat_grid region = [cid] ->
  weather_series weather parameter cid = Ok s ->
  region_average geo coastdat_grid weather parameter fix_ region
  = Ok (zero_for_nan <$> s).
Proof.
  intros Hids Hseries. unfold region_average. rewrite Hids.
  cbn [for_each]. rewrite Hseries. cbn [of_option bind length].
  destruct (decide (1 < 1)); [lia|]. f_equal.
  unfold setitem, empty_frame. cbn [df_rows df_columns fmap list_fmap set_column].
  rewrite reindex_id. apply list_eq. intros h.
  destruct (decide (h < length s)) as [Hh|Hh].
  - rewrite !lookup_at_hour;
      [|by rewrite length_fmap|by rewrite length_divide, length_sum_rows].
    f_equal. rewrite at_hour_divide, at_hour_sum_rows by done.
    cbn [df_columns fmap list_fmap snd]. rewrite fdiv_one, nansum_singleton.
    unfold at_hour. rewrite list_lookup_fmap.
    destruct (lookup_lt_is_Some_2 s h Hh) as [x ->]. done.
  - rewrite !lookup_ge_None_2; [done|rewrite length_fmap; lia|].
    rewrite length_divide, length_sum_rows. cbn. lia.
Qed.

(** C5.  For a region with exactly one grid point, the column of the region
    in the frame that is written is the series of that point with zero in
    the place of every not-a-number entry: it is that series when the series
    holds no such entry. *)
Theorem single_point_mean_is_the_series (weather : HDFStore) (parameter : string)
    (fix_ : gmap string Z) (n : nat) (region : string) (cid : Z) (s : Series) :
  0 < n ->
  fix_regions geo coastdat_grid = Ok fix_ ->
  weather_complete geo coastdat_grid weather parameter fix_ n ->
  region ∈ geo.*1 ->
  cd_ids_of geo coastdat_grid region = [cid] ->
  weather_series weather parameter cid = Ok s ->
  ∃ avg_value,
    spatial_average_weather geo coastdat_grid weather parameter = Ok avg_value
    ∧ get_column region (df_columns avg_value) = Some (zero_for_nan <$> s)
    ∧ (Forall (λ x, isnan x = false) s ->
       get_column region (df_columns avg_value) = Some s).
Proof.
  intros Hn Hfix Hcomplete Hregion Hids Hseries.
  destruct (spatial_average_weather_columns weather parameter fix_ n Hn Hfix
              Hcomplete) as (avg_value & Hrun & Hcols).
  exists avg_value. split; [done|].
  destruct (Hcols region Hregion) as (s' & Havg & Hget).
  rewrite (single_point_average weather parameter fix_ region cid s Hids
             Hseries) in Havg.
  injection Havg as <-. split; [done|]. intros Hnum. rewrite Hget. f_equal.
  apply list_eq. intros h. rewrite list_lookup_fmap.
  destruct (s !! h) as [x|] eqn:Hx; [|done]. cbn. f_equal.
  rewrite Forall_forall in Hnum. unfold zero_for_nan.
  rewrite (Hnum x); [done|]. by eapply list_elem_of_lookup_2.
Qed.
End fallback.

Lemma fallback_guarantee_witness :
  ∃ fix_,
    fix_regions regions2 grid2 = Ok fix_
    ∧ ∀ region, region ∈ regions2.*1 ->
        cd_ids_of regions2 grid2 region ≠ []
        ∨ ∃ gid, fix_ !! region = Some gid
                 ∧ fallback_point regions2 grid2 region = Ok gid.
Proof.
  apply (proj1 (fallback_guarantee regions2 grid2)).
  intros region Hin Hnil. cbn in Hin.
  apply elem_of_cons in Hin as [->|Hin].
  - vm_compute in Hnil. discriminate.
  - apply list_elem_of_singleton in Hin as ->. exists 2%Z. reflexivity.
Defined.

Lemma fix2 : fix_regions regions2 grid2 = Ok {[ "B"%string := 2%Z ]}.
Proof. reflexivity. Qed.


Lemma single_point_mean_is_the_series_witness :
  ∃ avg_value,
    spatial_average_weather regions2 grid2 weather_gap "temp_air" = Ok avg_value
    ∧ get_column "A"%string (df_columns avg_value)
      = Some (zero_for_nan <$> [Fin (qc 280 1); NaN; Fin (qc 283 1)])
    ∧ (Forall (λ x, isnan x = false) [Fin (qc 280 1); NaN; Fin (qc 283 1)] ->
       get_column "A"%string (df_columns avg_value)
       = Some [Fin (qc 280 1); NaN; Fin (qc 283 1)]).
Proof.
  apply (single_point_mean_is_the_series regions2 grid2 weather_gap "temp_air"
           {[ "B"%string := 2%Z ]} 3 "A" 1%Z).
  - lia.
  - apply fix2.
  - intros region Hregion. cbn in Hregion.
    apply elem_of_cons in Hregion as [->|Hregion].
    + split; [|done]. intros cid Hcid.
      change (cd_ids_of regions2 grid2 "A") with [1%Z] in Hcid.
      apply list_elem_of_singleton in Hcid as ->. by eexists.
    + apply list_elem_of_singleton in Hregion as ->. split.
      * intros cid Hcid. by apply elem_of_nil in Hcid.
      * intros _. exists 2%Z. by eexists.
  - left.
  - reflexivity.
  - reflexivity.
Defined.

(** C5, as stated, fails: the one grid point of the region holds no value at
    the second hour, and the column that is written holds 0 there, which is
    not the series of the point. *)
Lemma single_point_gap_is_written_as_zero :
  cd_ids_of regions2 grid2 "A" = [1%Z]
  ∧ weather_series weather_gap "temp_air" 1
    = Ok [Fin (qc 280 1); NaN; Fin (qc 283 1)]
  ∧ ∃ avg_value,
      spatial_average_weather regions2 grid2 weather_gap "temp_air"
      = Ok avg_value
      ∧ get_column "A"%string (df_columns avg_value)
        = Some [Fin (qc 280 1); Fin 0%Qc; Fin (qc 283 1)]
      ∧ get_column "A"%string (df_columns avg_value)
        ≠ Some [Fin (qc 280 1); NaN; Fin (qc 283 1)].
Proof.
  split; [reflexivity|]. split; [reflexivity|].
  eexists. split; [vm_compute; reflexivity|]. split; [|done].
  reflexivity.
Qed.

(** ** The hydro and geothermal estimators *)


Lemma hours_of_year (year : Z) :
  hours_in_year year
  = if decide (year mod 4 = 0 ∧ (year mod 100 ≠ 0 ∨ year mod 400 = 0))%Z
    then 8784 else 8760.
Proof.
  unfold hours_in_year, isleap.
  destruct (Z.eqb_spec (year mod 4) 0), (Z.eqb_spec (year mod 100) 0),
    (Z.eqb_spec (year mod 400) 0); cbn [negb andb orb];
    destruct (decide _) as [Hleap|Hleap]; try done; try (destruct Hleap as [? [?|?]]; lia);
    exfalso; apply Hleap; split; auto.
Qed.

Lemma hourly_index_hours (other_years : Z -> result nat) (year : Z) :
  (1950 <= year <= 2261)%Z ->
  hourly_index other_years year
  = Ok (if decide (year mod 4 = 0 ∧ (year mod 100 ≠ 0 ∨ year mod 400 = 0))%Z
        then 8784 else 8760).
Proof.
  intros Hyear. unfold hourly_index.
  destruct (decide (2261 < year)%Z); [lia|].
  destruct (decide (1950 <= year)%Z); [|lia]. by rewrite hours_of_year.
Qed.

(** The lines that both estimators share: with a directory in the name of
    the output file, a year from 1950 to 2261 and the file looked up in the
    directory that the function makes, the frame is written. *)
Lemma estimate_written (os : os_env) (other_years : Z -> result nat)
    (regions : list string) (year : Z) (outfile_name first : string)
    (rest : list string) (d : disk) (full_load_hours : float) :
  (1950 <= year <= 2261)%Z ->
  holding_dir os outfile_name = abspath os (os_path_join first rest) ->
  let rows :=
    if decide (year mod 4 = 0 ∧ (year mod 100 ≠ 0 ∨ year mod 400 = 0))%Z
    then 8784 else 8760 in
  let hydro_path := abspath os (os_path_join first rest) in
  let d1 := if decide (hydro_path ∈ dirs d) then d else makedirs hydro_path d in
  match hourly_index other_years year with
  | Raise e => (Raise e, d1)
  | Ok n =>
      to_csv os outfile_name
        (constant_frame regions n (fdiv full_load_hours (of_nat n))) d1
  end
  = (Ok (),
     mk_disk (dirs d1)
       (<[outfile_name :=
            mkDataFrame rows
              ((λ region, (region, replicate rows
                                     (fdiv full_load_hours (of_nat rows))))
               <$> regions)]> (tables d)))
  ∧ hydro_path ∈ dirs d1
  ∧ dirs d ⊆ dirs d1.
Proof.
  intros Hyear Hholding. cbn zeta.
  rewrite (hourly_index_hours other_years year Hyear).
  unfold to_csv. rewrite Hholding.
  destruct (decide (abspath os (os_path_join first rest) ∈ dirs d)) as [Hin|Hin].
  - destruct (decide (abspath os (os_path_join first rest) ∈ dirs d)); [|done].
    done.
  - assert (abspath os (os_path_join first rest)
            ∈ dirs (makedirs (abspath os (os_path_join first rest)) d)) as Hdir.
    { unfold makedirs. cbn [dirs]. apply elem_of_union. left.
      apply elem_of_union. left. by apply elem_of_singleton. }
    destruct (decide (abspath os (os_path_join first rest)
                      ∈ dirs (makedirs (abspath os (os_path_join first rest)) d)));
      [|done].
    split; [done|]. split; [done|].
    unfold makedirs. cbn [dirs]. intros x Hx. apply elem_of_union. by right.
Qed.




(** ** Downloads *)

(** C8, as stated, fails: for a file that does not exist and a server that
    answers 404, [download_file] writes the payload of the answer to the
    file and returns 404; [get_coastdat_data] leaves that payload in the file
    and has sent the request twice. *)
Lemma download_writes_error_payload :
  (download_file not_found "coastdat.h5" "http://server/coastdat.h5" false
     empty_world).1 = 404%Z
  ∧ files (download_file not_found "coastdat.h5" "http://server/coastdat.h5"
             false empty_world).2 !! "coastdat.h5"%string
    = Some (Payload "Not Found")
  ∧ files (get_coastdat_data not_found 2014 "coastdat.h5" empty_world)
      !! "coastdat.h5"%string
    = Some (Payload "Not Found")
  ∧ length (requests (get_coastdat_data not_found 2014 "coastdat.h5" empty_world))
    = 2.
Proof. vm_compute. done. Qed.

(** C8, as amended.  When the file is absent or [overwrite] is set,
    [download_file] sends one request, writes the payload of the response to
    the file whatever its status code, and returns the status code; otherwise
    it sends no request, writes nothing and returns 1.  The request that
    [get_coastdat_data] sends after [download_file] has run writes its
    payload only when its status code is 200, and is not repeated. *)
Theorem download_behaviour (env : environment) (filename url : string)
    (overwrite : bool) (year : Z) (w : world) :
  (isfile w filename = false ∨ overwrite = true ->
     (download_file env filename url overwrite w).1 = status_code (server env url)
     ∧ files (download_file env filename url overwrite w).2
       = <[filename := Payload (content (server env url))]> (files w)
     ∧ requests (download_file env filename url overwrite w).2
       = requests w ++ [url])
  ∧ (isfile w filename = true -> overwrite = false ->
       download_file env filename url overwrite w = (1%Z, w))
  ∧ (cfg_get env "coastdat" ("coastdat" +:+ pretty year) = Some url ->
       requests (get_coastdat_data env year filename w)
       = requests (download_file env filename url false w).2 ++ [url]
       ∧ (status_code (server env url) ≠ 200%Z ->
            files (get_coastdat_data env year filename w)
            = files (download_file env filename url false w).2
            ∧ writes (get_coastdat_data env year filename w)
              = writes (download_file env filename url false w).2)
       ∧ (status_code (server env url) = 200%Z ->
            files (get_coastdat_data env year filename w)
            = <[filename := Payload (content (server env url))]>
                (files (download_file env filename url false w).2))).
Proof.
  split; [|split].
  - intros Hcase. unfold download_file.
    assert (negb (isfile w filename) || overwrite = true) as ->.
    { destruct Hcase as [-> | ->]; [done|]. by rewrite orb_true_r. }
    done.
  - intros Hfile ->. unfold download_file. by rewrite Hfile.
  - intros Hcfg. unfold get_coastdat_data. rewrite Hcfg.
    unfold requests_get.
    destruct (decide (status_code (server env url) = 200%Z)) as [H200|H200].
    + split; [done|]. split; [done|]. done.
    + split; [done|]. split; [done|]. done.
Qed.

Lemma download_behaviour_witness :
  (download_file not_found "coastdat.h5" "url" false empty_world).1
  = status_code (server not_found "url")
  ∧ files (download_file not_found "coastdat.h5" "url" false empty_world).2
    = <[("coastdat.h5"%string) := Payload (content (server not_found "url"))]>
        (files empty_world)
  ∧ requests (download_file not_found "coastdat.h5" "url" false empty_world).2
    = requests empty_world ++ ["url"%string].
Proof.
  apply (proj1 (download_behaviour not_found "coastdat.h5" "url" false 2014
                  empty_world)).
  left. reflexivity.
Defined.

(** ** Running a second time *)

(** C9, as stated, fails: [aggregate_by_region_coastdat_feedin] computes and
    writes its output file although the file exists, replacing an older
    content; on a second run it writes the file again. *)
Lemma aggregation_is_not_skipped :
  isfile stale_world "feedin.csv" = true
  ∧ match run_feedin stale_world with
    | Ok w =>
        writes w = ["feedin.csv"%string]
        ∧ files w !! "feedin.csv"%string ≠ Some (Payload "old")
    | Raise _ => False
    end
  ∧ match run_feedin empty_world with
    | Ok w1 =>
        match run_feedin w1 with
        | Ok w2 => writes w1 = ["feedin.csv"%string]
                   ∧ writes w2 = ["feedin.csv"; "feedin.csv"]%string
        | Raise _ => False
        end
    | Raise _ => False
    end.
Proof. vm_compute. repeat split; discriminate. Qed.

(** C9, as amended.  With [overwrite=False] and the target file present,
    [download_file] and [get_average_wind_speed] leave the files, the
    requests sent and the files written as they are.  [aggregate_by_region_coastdat_feedin] has no such switch: a
    second run on the same inputs computes and writes the output file again,
    and leaves the files as the first run left them. *)
Theorem second_run (env : environment) (filename url : string)
    (keys : HDFStore -> list Z) (grid : list (Z * string))
    (store : list (Z * HDFStore)) (pp : PowerPlants)
    (feedin_files : list (string * HDFStore)) (regions : list string)
    (year : Z) (category outfile : string) (w w1 : world) :
  (isfile w filename = true ->
     download_file env filename url false w = (1%Z, w))
  ∧ (isfile w filename = true ->
       get_average_wind_speed keys grid store filename false w = Ok w)
  ∧ (aggregate_by_region_coastdat_feedin pp feedin_files regions year category
       outfile w = Ok w1 ->
     ∃ w2, aggregate_by_region_coastdat_feedin pp feedin_files regions year
             category outfile w1 = Ok w2
           ∧ files w2 = files w1
           ∧ writes w2 = writes w1 ++ [outfile]).
Proof.
  split; [|split].
  - intros Hfile. unfold download_file. by rewrite Hfile.
  - intros Hfile. unfold get_average_wind_speed. by rewrite Hfile.
  - unfold aggregate_by_region_coastdat_feedin.
    destruct (aggregate_feedin pp feedin_files regions year category)
      as [feed_in|e]; cbn [bind]; [|done].
    intros [= <-]. eexists. split; [done|]. cbn [files writes write_file].
    split; [|done]. apply insert_insert_eq.
Qed.

Lemma second_run_witness :
  download_file not_found "feedin.csv" "url" false stale_world
  = (1%Z, stale_world).
Proof.
  apply (proj1 (second_run not_found "feedin.csv" "url" (λ _, []) [] [] [] [] []
                  2014 "Wind" "feedin.csv" stale_world stale_world)).
  reflexivity.
Defined.

(** ** The shapefile of the inhabitants *)

(** C10.  For a year before 2011 [get_ew_shp_file] raises [AttributeError]
    and has sent no request and written no file; for a later year it raises
    no [AttributeError]. *)
Theorem years_before_2011_are_refused (env : environment) (year : Z) (w : world) :
  ((year < 2011)%Z ->
     get_ew_shp_file env year w
     = (Raise (AttributeError "Years < 2011 are not allowed in this function."),
        w))
  ∧ ((2011 <= year)%Z ->
       ∀ msg, (get_ew_shp_file env year w).1 ≠ Raise (AttributeError msg)).
Proof.
  split.
  - intros Hyear. unfold get_ew_shp_file.
    destruct (decide (year < 2011)%Z); [done|lia].
  - intros Hyear msg. unfold get_ew_shp_file.
    destruct (decide (year < 2011)%Z); [lia|].
    destruct (cfg_get env "paths" "inhabitants"); [|done].
    destruct (negb (isfile w _)); [|done].
    destruct (cfg_get env "inhabitants" "url_geodata_ew"); [|done].
    destruct (cfg_get env "inhabitants" "vg250_ew_zip"); [|done].
    destruct (download_file env _ _ false w) as [status w'].
    destruct (unpack env year _ _); done.
Qed.

Lemma years_before_2011_are_refused_witness :
  get_ew_shp_file not_found 2010 empty_world
  = (Raise (AttributeError "Years < 2011 are not allowed in this function."),
     empty_world).
Proof.
  apply (proj1 (years_before_2011_are_refused not_found 2010 empty_world)).
  lia.
Defined.

(** * Further properties *)

(** ** Loops *)

Lemma for_each_ok_inv {A B S} (f : A -> result B) (g : S -> A -> B -> S)
    (xs : list A) (acc out : S) :
  for_each (λ acc x, v <- f x ;; Ok (g acc x v)) xs acc = Ok out ->
  ∀ x, x ∈ xs -> ∃ v, f x = Ok v.
Proof.
  revert acc. induction xs as [|y xs IH]; intros acc Hrun x Hx.
  - by apply elem_of_nil in Hx.
  - cbn [for_each] in Hrun. destruct (f y) as [v|e] eqn:Hy; [|done].
    cbn [bind] in Hrun. apply elem_of_cons in Hx as [->|Hx]; [eauto|].
    by apply (IH _ Hrun).
Qed.

Lemma for_each_collect {A B C} (f : A -> result B) (g : A -> B -> list C)
    (v : A -> B) (xs : list A) (acc : list C) :
  (∀ x, x ∈ xs -> f x = Ok (v x)) ->
  for_each (λ acc x, r <- f x ;; Ok (acc ++ g x r)) xs acc
  = Ok (acc ++ (xs ≫= λ x, g x (v x))).
Proof.
  revert acc. induction xs as [|x xs IH]; intros acc Hall.
  - cbn. by rewrite app_nil_r.
  - cbn [for_each]. rewrite Hall by left. cbn [bind].
    rewrite IH by (intros y Hy; apply Hall; by right).
    by rewrite bind_cons, app_assoc.
Qed.

Lemma for_each_raises_only {A S} (P : exn -> Prop) (body : S -> A -> result S)
    (xs : list A) (acc : S) (e : exn) :
  (∀ s x e', x ∈ xs -> body s x = Raise e' -> P e') ->
  for_each body xs acc = Raise e -> P e.
Proof.
  revert acc. induction xs as [|x xs IH]; intros acc Hbody; cbn [for_each]; [done|].
  destruct (body acc x) as [acc'|e'] eqn:Hx; cbn [bind].
  - apply IH. intros s y e'' Hy. apply Hbody. by right.
  - intros [= <-]. apply (Hbody acc x); [by left|done].
Qed.

(** ** get_average_wind_speed *)

Lemma Z_to_nat_8784 : Z.to_nat 8784 = 8784.
Proof. vm_compute. reflexivity. Qed.

Lemma Z_to_nat_8760 : Z.to_nat 8760 = 8760.
Proof. vm_compute. reflexivity. Qed.

Lemma Z_of_nat_8784 : Z.of_nat 8784 = 8784%Z.
Proof. vm_compute. reflexivity. Qed.

Lemma Z_of_nat_8760 : Z.of_nat 8760 = 8760%Z.
Proof. vm_compute. reflexivity. Qed.

(** X1.  The rows of a year that enter the average wind speed are the first
    8784 rows of the series in a leap year and the first 8760 otherwise; a
    series with fewer rows enters as it is, neither padded nor refused. *)
Theorem year_rows_take (year : Z) (ws : Series) :
  year_rows year ws = take (hours_in_year year) ws.
Proof.
  unfold year_rows, hours_in_year, slice_to.
  destruct (isleap year).
  - destruct (8784 - Z.of_nat (length ws) <? 0)%Z eqn:E.
    + replace (Z.of_nat (length ws) + (8784 - Z.of_nat (length ws)))%Z
        with 8784%Z by lia.
      by rewrite Z_to_nat_8784.
    + apply Z.ltb_ge in E. rewrite take_ge; [done|].
      pose proof Z_of_nat_8784. lia.
  - destruct (8760 - Z.of_nat (length ws) <? 0)%Z eqn:E.
    + replace (Z.of_nat (length ws) + (8760 - Z.of_nat (length ws)))%Z
        with 8760%Z by lia.
      by rewrite Z_to_nat_8760.
    + apply Z.ltb_ge in E. rewrite take_ge; [done|].
      pose proof Z_of_nat_8760. lia.
Qed.

Lemma weather_series_raises (weather : HDFStore) (parameter : string) (cid : Z)
    (e : exn) :
  weather_series weather parameter cid = Raise e -> e = KeyError.
Proof.
  unfold weather_series, store_get, frame_get.
  destruct (weather !! cid) as [frame|]; cbn; [|by intros [= <-]].
  destruct (get_column parameter (df_columns frame)); cbn; [done|by intros [= <-]].
Qed.

Lemma weather_series_stored (weather : HDFStore) (parameter : string) (cid : Z)
    (s : Series) :
  weather_series weather parameter cid = Ok s ->
  stored_series weather parameter cid = s.
Proof.
  unfold weather_series, store_get, frame_get, stored_series.
  destruct (weather !! cid) as [frame|]; cbn; [|done].
  destruct (get_column parameter (df_columns frame)); cbn; [|done].
  by intros [= <-].
Qed.

Lemma for_each_total {A S} (body : S -> A -> result S) (g : S -> A -> S)
    (xs : list A) (acc : S) :
  (∀ s x, x ∈ xs -> body s x = Ok (g s x)) ->
  for_each body xs acc = Ok (foldl g acc xs).
Proof.
  revert acc. induction xs as [|x xs IH]; intros acc Hall; [done|].
  cbn [for_each foldl]. rewrite Hall by left. cbn [bind].
  apply IH. intros s y Hy. apply Hall. by right.
Qed.

Lemma loc_set_step (avg : Z -> float) (grid : list (Z * string))
    (keys : list Z) (key : Z) :
  key ∉ keys ->
  loc_set key (avg key) (wind_speed_table avg grid keys)
  = wind_speed_table avg grid (keys ++ [key]).
Proof.
  intros Hnew. unfold loc_set, wind_speed_table. cbn [wt_rows].
  assert ((((λ g : Z * string,
               (g.1, Some g.2, if decide (g.1 ∈ keys) then avg g.1 else NaN))
            <$> grid)
           ++ ((λ k, (k, None, avg k)) <$> filter (λ k, k ∉ grid.*1) keys)).*1.*1
          = grid.*1 ++ filter (λ k, k ∉ grid.*1) keys) as ->.
  { rewrite !fmap_app, <- !list_fmap_compose. f_equal.
    transitivity (id <$> filter (λ k, k ∉ grid.*1) keys);
      [by apply list_fmap_ext|apply list_fmap_id]. }
  assert (bool_decide (keys ++ [key] ≠ []) = true) as ->.
  { apply bool_decide_eq_true. by destruct keys. }
  rewrite filter_app.
  destruct (decide (key ∈ grid.*1)) as [Hgrid|Hgrid].
  - rewrite decide_True by (apply elem_of_app; by left).
    f_equal. rewrite fmap_app, <- !list_fmap_compose.
    rewrite filter_cons_False, filter_nil, app_nil_r by (intros Hno; by apply Hno).
    f_equal.
    + apply list_fmap_ext. intros i g Hg. cbn.
      destruct (decide (g.1 = key)) as [->|Hne].
      * rewrite (decide_True (P := key ∈ keys ++ [key]))
          by (apply elem_of_app; right; left). done.
      * destruct (decide (g.1 ∈ keys)) as [Hin|Hin].
        -- rewrite decide_True by (apply elem_of_app; by left). done.
        -- rewrite decide_False; [done|].
           intros [?|Hk%list_elem_of_singleton]%elem_of_app; done.
    + apply list_fmap_ext. intros i k Hk. cbn.
      apply list_elem_of_lookup_2, list_elem_of_filter in Hk as [_ Hk].
      destruct (decide (k = key)) as [->|Hne]; done.
  - rewrite decide_False.
    2:{ intros [?|[_ ?]%list_elem_of_filter]%elem_of_app; done. }
    f_equal. rewrite filter_cons_True, filter_nil by done.
    rewrite fmap_app, <- app_assoc. f_equal.
    apply list_fmap_ext. intros i g Hg. cbn. f_equal.
    assert (g.1 ≠ key) as Hne.
    { intros <-. apply Hgrid. apply list_elem_of_fmap.
      exists g. split; [done|]. by eapply list_elem_of_lookup_2. }
    destruct (decide (g.1 ∈ keys)) as [Hin|Hin].
    + rewrite decide_True by (apply elem_of_app; by left). done.
    + rewrite decide_False; [done|].
      intros [?|Hk%list_elem_of_singleton]%elem_of_app; done.
Qed.

Lemma loc_set_fold (avg : Z -> float) (grid : list (Z * string))
    (seen keys : list Z) :
  NoDup (seen ++ keys) ->
  foldl (λ polygons key, loc_set key (avg key) polygons)
    (wind_speed_table avg grid seen) keys
  = wind_speed_table avg grid (seen ++ keys).
Proof.
  revert seen. induction keys as [|key keys IH]; intros seen Hnd.
  - by rewrite app_nil_r.
  - cbn [foldl]. rewrite loc_set_step.
    + rewrite IH by (by rewrite <- app_assoc). by rewrite <- app_assoc.
    + apply NoDup_app in Hnd as (_ & Hnew & _). intros Hin.
      apply (Hnew key Hin). left.
Qed.

(** X2.  The table of the average wind speeds that is written has the rows
    of the grid geometry file in the order of that file: a row whose gid is
    a key of the store of the first year holds the mean of the wind speed of
    that grid point over the rows of all years, every other row holds no
    value.  A key of the store that is no gid of the grid adds a row without
    geometry at the end.  When one year lacks the wind speed of a key of the
    first year, the function raises [KeyError]. *)
Theorem average_wind_speed_table (keys : HDFStore -> list Z)
    (grid : list (Z * string)) (store : list (Z * HDFStore))
    (first : Z * HDFStore) :
  head store = Some first ->
  NoDup (keys first.2) ->
  ((∀ key yw, key ∈ keys first.2 -> yw ∈ store ->
      ∃ ws, weather_series yw.2 "v_wind" key = Ok ws) ->
   average_wind_speed keys grid store
   = Ok (mk_wind_table
           (((λ g, (g.1, Some g.2,
                    if decide (g.1 ∈ keys first.2) then
                      mean (store ≫= λ yw,
                              year_rows yw.1 (stored_series yw.2 "v_wind" g.1))
                    else NaN)) <$> grid)
            ++ ((λ key, (key, None,
                         mean (store ≫= λ yw,
                                 year_rows yw.1
                                   (stored_series yw.2 "v_wind" key))))
                <$> filter (λ key, key ∉ grid.*1) (keys first.2)))
           (bool_decide (keys first.2 ≠ []))))
  ∧ (∀ key yw e, key ∈ keys first.2 -> yw ∈ store ->
       weather_series yw.2 "v_wind" key = Raise e ->
       average_wind_speed keys grid store = Raise KeyError).
Proof.
  intros Hfirst Hnd. split.
  - intros Hall. unfold average_wind_speed. rewrite Hfirst. cbn [of_option bind].
    rewrite (for_each_total _
               (λ polygons key,
                  loc_set key
                    (mean (store ≫= λ yw,
                             year_rows yw.1 (stored_series yw.2 "v_wind" key)))
                    polygons)).
    + f_equal.
      pose proof (loc_set_fold
                    (λ key, mean (store ≫= λ yw,
                                    year_rows yw.1
                                      (stored_series yw.2 "v_wind" key)))
                    grid [] (keys first.2) Hnd) as Hfold.
      cbn [app] in Hfold. unfold wind_speed_table in Hfold at 2.
      rewrite <- Hfold. f_equal. unfold wind_speed_table.
      rewrite filter_nil, fmap_nil, app_nil_r. done.
    + intros polygons key Hkey. unfold grid_point_average.
      rewrite (for_each_ext _
                 (λ acc yw, r <- weather_series yw.2 "v_wind" key ;;
                            Ok (acc ++ year_rows yw.1 r)))
        by (by intros acc [year weather] _).
      rewrite (for_each_collect _ (λ yw r, year_rows yw.1 r)
                 (λ yw, stored_series yw.2 "v_wind" key)); [done|].
      intros yw Hyw. destruct (Hall key yw Hkey Hyw) as [ws Hws].
      by rewrite (weather_series_stored _ _ _ _ Hws).
  - intros key yw e Hkey Hyw Hraise.
    apply weather_series_raises in Hraise as Heq. subst e.
    assert (∀ k e, grid_point_average store k = Raise e -> e = KeyError) as Hgpa.
    { intros k e. unfold grid_point_average.
      destruct (for_each _ store []) as [all|e'] eqn:Hrun; cbn [bind]; [done|].
      intros [= <-]. revert Hrun. apply (for_each_raises_only (λ e, e = KeyError)).
      intros acc [year weather] e'' _.
      destruct (weather_series weather "v_wind" k) as [ws|e3] eqn:Hws; cbn [bind];
        [done|].
      intros [= <-]. by apply weather_series_raises in Hws. }
    assert (grid_point_average store key = Raise KeyError) as Hkeyfail.
    { unfold grid_point_average.
      rewrite (for_each_raise _ _ _ yw KeyError); [done|done| |].
      - intros acc. destruct yw as [year weather]. cbn in Hraise.
        by rewrite Hraise.
      - intros acc [year weather] e' _.
        destruct (weather_series weather "v_wind" key) as [ws|e''] eqn:Hws;
          cbn [bind]; [done|].
        intros [= <-]. by apply weather_series_raises in Hws. }
    unfold average_wind_speed. rewrite Hfirst. cbn [of_option bind].
    apply (for_each_raise _ _ _ key KeyError); [done| |].
    + intros acc. by rewrite Hkeyfail.
    + intros acc k e' _.
      destruct (grid_point_average store k) as [avg|e''] eqn:Hk; cbn [bind];
        [done|].
      intros [= <-]. by apply Hgpa in Hk.
Qed.


Lemma average_wind_speed_table_witness :
  average_wind_speed map_keys wind_grid [(2014%Z, wind2); (2016%Z, wind2)]
  = Ok (mk_wind_table
          [(1%Z, Some "POLYGON A"%string, Fin (qc 4 1));
           (3%Z, Some "POLYGON C"%string, NaN);
           (2%Z, None, Fin (qc 6 1))] true).
Proof.
  rewrite (proj1 (average_wind_speed_table map_keys wind_grid
                    [(2014%Z, wind2); (2016%Z, wind2)] (2014%Z, wind2) eq_refl
                    ltac:(change (NoDup [2%Z; 1%Z]); apply NoDup_cons;
                          split; [by intros ?%list_elem_of_singleton
                                 |apply NoDup_singleton]))).
  - vm_compute. do 2 f_equal.
    f_equal; [do 2 f_equal|f_equal; f_equal; do 2 f_equal];
      apply Qc_is_canon; reflexivity.
  - intros key yw Hkey Hyw.
    assert (yw.2 = wind2) as ->.
    { apply elem_of_cons in Hyw as [->|Hyw]; [done|].
      by apply list_elem_of_singleton in Hyw as ->. }
    change (key ∈ [2%Z; 1%Z]) in Hkey.
    apply elem_of_cons in Hkey as [->|Hkey]; [by eexists|].
    apply list_elem_of_singleton in Hkey as ->. by eexists.
Defined.

(** ** download_file and get_coastdat_data *)

Lemma isfile_write_file (filename : string) (x : file) (w : world) :
  isfile (write_file filename x w) filename = true.
Proof.
  unfold isfile, write_file. cbn [files]. apply bool_decide_eq_true.
  rewrite lookup_insert_eq. by eexists.
Qed.

Lemma isfile_download_file (env : environment) (filename url : string)
    (overwrite : bool) (w : world) :
  isfile (download_file env filename url overwrite w).2 filename = true.
Proof.
  unfold download_file.
  destruct (isfile w filename) eqn:Hfile, overwrite; cbn [negb orb];
    unfold requests_get; cbn [snd]; try done; apply isfile_write_file.
Qed.

(** X3.  After [download_file] has returned, whatever the response of the
    server and its status code were, the target file exists, and every later
    call for this file without [overwrite], for whatever url, sends no
    request, writes nothing and returns 1: a failed download is not tried
    again. *)
Theorem download_file_then_skips (env : environment) (filename url url' : string)
    (overwrite : bool) (w : world) :
  isfile (download_file env filename url overwrite w).2 filename = true
  ∧ download_file env filename url' false
      (download_file env filename url overwrite w).2
    = (1%Z, (download_file env filename url overwrite w).2).
Proof.
  split; [apply isfile_download_file|].
  unfold download_file at 1. by rewrite isfile_download_file.
Qed.

(** X4.  [get_coastdat_data] by the state it starts from: without a url in
    the configuration nothing happens; with one, the url is requested once
    when the file exists and twice when it does not, the file ends with the
    payload of the response when the status code is 200 or the file did not
    exist, and an existing file is kept on every other status code.  A
    second run leaves the files as the first run left them, and sends one
    request more. *)
Theorem get_coastdat_data_effect (env : environment) (year : Z)
    (filename : string) (w : world) :
  (cfg_get env "coastdat" ("coastdat" +:+ pretty year) = None ->
     get_coastdat_data env year filename w = w)
  ∧ (∀ url, cfg_get env "coastdat" ("coastdat" +:+ pretty year) = Some url ->
       let w1 := get_coastdat_data env year filename w in
       files w1
       = (if decide (status_code (server env url) = 200%Z) then
            <[filename := Payload (content (server env url))]> (files w)
          else if isfile w filename then files w
          else <[filename := Payload (content (server env url))]> (files w))
       ∧ requests w1
         = requests w ++ (if isfile w filename then [url] else [url; url])
       ∧ files (get_coastdat_data env year filename w1) = files w1
       ∧ requests (get_coastdat_data env year filename w1) = requests w1 ++ [url]).
Proof.
  split.
  - intros Hcfg. unfold get_coastdat_data. by rewrite Hcfg.
  - intros url Hcfg.
    assert (∀ w0, files (get_coastdat_data env year filename w0)
                  = (if decide (status_code (server env url) = 200%Z) then
                       <[filename := Payload (content (server env url))]> (files w0)
                     else if isfile w0 filename then files w0
                     else <[filename := Payload (content (server env url))]>
                            (files w0))
                  ∧ requests (get_coastdat_data env year filename w0)
                    = requests w0
                      ++ (if isfile w0 filename then [url] else [url; url]))
      as Hrun.
    { intros w0. unfold get_coastdat_data. rewrite Hcfg.
      unfold download_file, requests_get.
      destruct (isfile w0 filename) eqn:Hfile; cbn [negb orb snd];
        destruct (decide (status_code (server env url) = 200%Z));
        cbn [write_file files requests]; rewrite ?insert_insert_eq;
        rewrite <- ?app_assoc; done. }
    cbn zeta. destruct (Hrun w) as [Hfiles Hrequests].
    split; [done|]. split; [done|].
    destruct (Hrun (get_coastdat_data env year filename w)) as [Hfiles' Hrequests'].
    assert (isfile (get_coastdat_data env year filename w) filename = true)
      as Hthere.
    { unfold isfile. apply bool_decide_eq_true. rewrite Hfiles.
      destruct (decide (status_code (server env url) = 200%Z)).
      - rewrite lookup_insert_eq. by eexists.
      - destruct (isfile w filename) eqn:Hfile.
        + by apply bool_decide_eq_true in Hfile.
        + rewrite lookup_insert_eq. by eexists. }
    rewrite Hthere in Hfiles', Hrequests'. split; [|done].
    rewrite Hfiles'.
    destruct (decide (status_code (server env url) = 200%Z)); [|done].
    rewrite Hfiles. by rewrite insert_insert_eq.
Qed.

Lemma get_coastdat_data_effect_witness :
  files (get_coastdat_data not_found 2014 "coastdat.h5" stale_world)
  = <[ "coastdat.h5"%string := Payload "Not Found" ]> (files stale_world)
  ∧ get_coastdat_data
      (mk_environment (server not_found) (λ _ _, None) (format_url not_found)
         (unpack not_found)) 2014 "coastdat.h5" stale_world
    = stale_world.
Proof.
  split.
  - destruct (proj2 (get_coastdat_data_effect not_found 2014 "coastdat.h5"
                       stale_world) "coastdat.coastdat2014"%string eq_refl)
      as [Hfiles _].
    exact Hfiles.
  - apply (proj1 (get_coastdat_data_effect _ 2014 "coastdat.h5" stale_world)).
    reflexivity.
Defined.

(** ** get_ew_shp_file *)

(** X5.  For a year from 2011 on and a complete configuration,
    [get_ew_shp_file] does nothing at all when the shapefile of the year
    exists.  When it does not, an archive found in the path is unpacked as it
    is, without a request; otherwise the first url is requested, and the
    second url if and only if the first answer has the status code 404, the
    archive being written once for every request. *)
Theorem get_ew_shp_file_requests (env : environment) (year : Z) (w : world)
    (path template zip_name : string) :
  (2011 <= year)%Z ->
  cfg_get env "paths" "inhabitants" = Some path ->
  cfg_get env "inhabitants" "url_geodata_ew" = Some template ->
  cfg_get env "inhabitants" "vg250_ew_zip" = Some zip_name ->
  let outshp := path_join path ("VG250_VWG_" +:+ pretty year +:+ ".shp") in
  let filename_zip := path_join path zip_name in
  let url1 := format_url env template year "ebene" in
  let url2 := format_url env template year "ebenen" in
  let sent :=
    if isfile w filename_zip then []
    else url1 :: (if decide (status_code (server env url1) = 404%Z)
                  then [url2] else []) in
  (isfile w outshp = true -> get_ew_shp_file env year w = (Ok (), w))
  ∧ (isfile w outshp = false ->
       requests (get_ew_shp_file env year w).2 = requests w ++ sent
       ∧ writes (get_ew_shp_file env year w).2
         = writes w ++ ((λ _, filename_zip) <$> sent)).
Proof.
  intros Hyear Hpath Htemplate Hzip. cbn zeta. unfold get_ew_shp_file.
  destruct (decide (year < 2011)%Z) as [?|_]; [lia|].
  rewrite Hpath, Htemplate, Hzip. split.
  - by intros ->.
  - intros ->. cbn [negb].
    assert (∀ url overwrite w0,
              download_file env (path_join path zip_name) url overwrite w0
              = if negb (isfile w0 (path_join path zip_name)) || overwrite then
                  (status_code (server env url),
                   write_file (path_join path zip_name)
                     (Payload (content (server env url)))
                     (mk_world (files w0) (requests w0 ++ [url]) (writes w0)))
                else (1%Z, w0)) as Hdownload.
    { intros url overwrite w0. unfold download_file, requests_get.
      by destruct (negb (isfile w0 (path_join path zip_name)) || overwrite). }
    rewrite (Hdownload _ false w).
    destruct (isfile w (path_join path zip_name)) eqn:Hfile; cbn [negb orb].
    + destruct (decide (1 = 404)%Z) as [?|_]; [done|].
      match goal with
      | |- context [unpack ?a ?b ?c ?d] => destruct (unpack a b c d)
      end; cbn [snd requests writes fmap]; by rewrite !app_nil_r.
    + destruct (decide (status_code
                          (server env (format_url env template year "ebene"))
                        = 404%Z)).
      * rewrite Hdownload, orb_true_r.
        cbn [snd write_file files requests writes].
        match goal with
        | |- context [unpack ?a ?b ?c ?d] => destruct (unpack a b c d)
        end; cbn [snd requests writes write_file fmap list_fmap];
          rewrite <- ?app_assoc; split; reflexivity.
      * cbn [write_file files requests writes].
        match goal with
        | |- context [unpack ?a ?b ?c ?d] => destruct (unpack a b c d)
        end; by cbn [snd requests writes].
Qed.

Lemma get_ew_shp_file_requests_witness :
  requests (get_ew_shp_file not_found 2014 empty_world).2
  = ["inhabitants.url_geodata_ew2014ebene";
     "inhabitants.url_geodata_ew2014ebenen"]%string.
Proof.
  apply (proj2 (get_ew_shp_file_requests not_found 2014 empty_world
                  "paths.inhabitants" "inhabitants.url_geodata_ew"
                  "inhabitants.vg250_ew_zip" ltac:(lia) eq_refl eq_refl eq_refl)).
  reflexivity.
Defined.

(** ** spatial_average_weather *)

Lemma for_each_setitem_fresh (f : Z -> result Series) (g : Z -> Series)
    (ids : list Z) (n : nat) :
  0 < n -> NoDup ids -> ids ≠ [] ->
  (∀ id, id ∈ ids -> f id = Ok (g id) ∧ length (g id) = n) ->
  for_each (λ tmp cid, s <- f cid ;; Ok (setitem tmp cid s)) ids (empty_frame 0)
  = Ok (mkDataFrame n ((λ id, (id, g id)) <$> ids)).
Proof.
  intros Hn Hnodup Hne Hall. destruct ids as [|c rest]; [done|].
  apply NoDup_cons in Hnodup as [Hc Hrest].
  destruct (Hall c) as [Hfc Hlen]; [left|].
  cbn [for_each]. rewrite Hfc. cbn [bind].
  assert (setitem (empty_frame 0) c (g c) = mkDataFrame n [(c, g c)]) as ->.
  { unfold setitem, empty_frame. cbn [df_rows df_columns fmap list_fmap set_column].
    by rewrite reindex_id, Hlen. }
  rewrite (for_each_setitem _ g rest n [(c, g c)] Hn Hrest).
  - f_equal. f_equal. rewrite fmap_cons. cbn [app]. f_equal.
    apply list_fmap_ext. intros i id Hid. f_equal.
    destruct (Hall id) as [_ <-]; [right; by eapply list_elem_of_lookup_2|].
    apply reindex_id.
  - intros id Hid. cbn. intros Hin. apply list_elem_of_singleton in Hin as ->. done.
  - intros temp id Hid. destruct (Hall id) as [-> _]; [by right|]. done.
Qed.

Lemma head_filter_first {A} (P : A -> Prop) `{!∀ x, Decision (P x)}
    (l : list A) (x : A) :
  head (filter P l) = Some x ->
  ∃ i, l !! i = Some x ∧ P x ∧ ∀ j y, j < i -> l !! j = Some y -> ¬ P y.
Proof.
  induction l as [|a l IH]; [done|].
  rewrite filter_cons. destruct (decide (P a)) as [Ha|Ha].
  - intros [= <-]. exists 0. split; [done|]. split; [done|]. intros j y Hj. lia.
  - intros Hhead. destruct (IH Hhead) as (i & Hi & Hx & Hbefore).
    exists (S i). split; [done|]. split; [done|].
    intros [|j] y Hj Hy.
    + by injection Hy as <-.
    + apply (Hbefore j); [lia|done].
Qed.

Section spatial_average.
Context {Polygon Point : Type} `{Shapes Polygon Point}.
Variable geo : list (string * Polygon).
Variable coastdat_grid : list (Z * Polygon).

Lemma without_match_no_points (region : string) :
  region ∈ regions_without_match geo coastdat_grid ->
  cd_ids_of geo coastdat_grid region = [].
Proof.
  unfold regions_without_match. intros [Hno _]%list_elem_of_filter.
  unfold cd_ids_of.
  destruct (filter _ _) as [|[gid r] l] eqn:Hf; [done|].
  exfalso. apply Hno.
  assert ((gid, r) ∈ filter (λ g, g.2 = Some region)
                      (coastdat_geo geo coastdat_grid)) as Hg.
  { rewrite Hf. left. }
  apply list_elem_of_filter in Hg as [Hr Hg]. cbn in Hr. subst r.
  apply list_elem_of_fmap. by exists (gid, Some region).
Qed.

(** X6.  The dict [fix] holds an entry for exactly the regions of the index
    that the join left without a grid point: a region with joined grid
    points never gets a fallback.  The grid cell of an entry intersects the
    representative point of its region, and no cell before it in the grid
    does. *)
Theorem fix_regions_domain (fix_ : gmap string Z) (region : string) :
  fix_regions geo coastdat_grid = Ok fix_ ->
  (is_Some (fix_ !! region)
   <-> region ∈ geo.*1 ∧ cd_ids_of geo coastdat_grid region = [])
  ∧ (∀ gid, fix_ !! region = Some gid ->
       ∃ reg_point i polygon,
         region_point geo region = Ok reg_point
         ∧ coastdat_grid !! i = Some (gid, polygon)
         ∧ intersects polygon reg_point = true
         ∧ ∀ j g, j < i -> coastdat_grid !! j = Some g ->
             intersects g.2 reg_point = false).
Proof.
  intros Hfix. unfold fix_regions in Hfix.
  destruct (fix_loop geo coastdat_grid (regions_without_match geo coastdat_grid) ∅)
    as (fix' & Hrun & Hin & Hout).
  { by apply (for_each_ok_inv _ _ _ _ _ Hfix). }
  rewrite Hrun in Hfix. injection Hfix as ->.
  assert (is_Some (fix_ !! region)
          <-> region ∈ regions_without_match geo coastdat_grid) as Hdom.
  { split.
    - intros Hsome.
      destruct (decide (region ∈ regions_without_match geo coastdat_grid));
        [done|].
      rewrite Hout, lookup_empty in Hsome by done. by destruct Hsome.
    - intros Hreg. destruct (Hin region Hreg) as (gid & _ & ->). by eexists. }
  split.
  - rewrite Hdom. split.
    + intros Hreg. split; [by apply (without_match_index geo coastdat_grid)|].
      by apply without_match_no_points.
    + intros [Hindex Hnil]. by apply (without_match_spec geo coastdat_grid).
  - intros gid Hgid.
    assert (region ∈ regions_without_match geo coastdat_grid) as Hreg.
    { apply Hdom. by eexists. }
    destruct (Hin region Hreg) as (gid' & Hfallback & Hgid').
    rewrite Hgid in Hgid'. injection Hgid' as <-.
    unfold fallback_point in Hfallback.
    destruct (region_point geo region) as [reg_point|] eqn:Hpoint; [|done].
    cbn [bind] in Hfallback. unfold first_intersecting in Hfallback.
    destruct (head (filter (λ g, intersects g.2 reg_point = true) coastdat_grid).*1)
      as [gid'|] eqn:Hhead; [|done].
    cbn [of_option] in Hfallback. injection Hfallback as ->.
    destruct (filter (λ g, intersects g.2 reg_point = true) coastdat_grid)
      as [|[gid' polygon] rest] eqn:Hfilter; [done|].
    cbn in Hhead. injection Hhead as ->.
    destruct (head_filter_first (λ g : Z * Polygon, intersects g.2 reg_point = true)
                coastdat_grid (gid, polygon)) as (i & Hi & Hyes & Hbefore).
    { by rewrite Hfilter. }
    exists reg_point, i, polygon. split; [done|]. split; [done|].
    split; [done|]. intros j g Hj Hg.
    specialize (Hbefore j g Hj Hg). by destruct (intersects g.2 reg_point).
Qed.

(** X7.  For a region with joined grid points, each listed once, the column
    of the region in the frame that is written holds at every hour the sum
    of the numbers the grid points hold at that hour, divided by the number
    of all grid points of the region: a grid point whose value is missing at
    an hour adds nothing to the sum and still counts in the divisor. *)
Theorem spatial_average_is_mean (weather : HDFStore) (parameter : string)
    (fix_ : gmap string Z) (n h : nat) (region : string) (v : Z -> option Qc) :
  0 < n ->
  fix_regions geo coastdat_grid = Ok fix_ ->
  weather_complete geo coastdat_grid weather parameter fix_ n ->
  region ∈ geo.*1 ->
  NoDup (cd_ids_of geo coastdat_grid region) ->
  cd_ids_of geo coastdat_grid region ≠ [] ->
  h < n ->
  (∀ cid, cid ∈ cd_ids_of geo coastdat_grid region ->
     at_hour (stored_series weather parameter cid) h = number_or_nan (v cid)) ->
  ∃ avg_value s,
    spatial_average_weather geo coastdat_grid weather parameter = Ok avg_value
    ∧ get_column region (df_columns avg_value) = Some s
    ∧ at_hour s h
      = Fin (sum_Qc ((λ cid, default 0%Qc (v cid))
                     <$> cd_ids_of geo coastdat_grid region)
             / Qc_of_nat (length (cd_ids_of geo coastdat_grid region)))%Qc.
Proof.
  intros Hn Hfix Hcomplete Hregion Hnodup Hne Hh Hvalues.
  destruct (spatial_average_weather_columns geo coastdat_grid weather parameter
              fix_ n Hn Hfix Hcomplete) as (avg_value & Hrun & Hcols).
  destruct (Hcols region Hregion) as (s & Havg & Hget).
  exists avg_value, s. split; [done|]. split; [done|].
  destruct (Hcomplete region Hregion) as [Hpoints _].
  unfold region_average in Havg.
  rewrite (for_each_setitem_fresh (weather_series weather parameter)
             (stored_series weather parameter) _ n Hn Hnodup Hne) in Havg.
  2:{ intros cid Hcid. destruct (Hpoints cid Hcid) as (s' & Hs' & Hlen).
      by rewrite (weather_series_stored _ _ _ _ Hs'). }
  cbn [bind] in Havg.
  destruct (decide (length (cd_ids_of geo coastdat_grid region) < 1)) as [Hlt|_].
  { destruct (cd_ids_of geo coastdat_grid region); [done|]. cbn in Hlt. lia. }
  injection Havg as <-.
  rewrite at_hour_divide, at_hour_sum_rows by done.
  cbn [df_columns]. rewrite <- list_fmap_compose.
  rewrite (list_fmap_ext _ (λ cid, number_or_nan (v cid))
             (cd_ids_of geo coastdat_grid region)).
  2:{ intros i cid Hcid. cbn. apply Hvalues. by eapply list_elem_of_lookup_2. }
  rewrite (list_fmap_compose v number_or_nan), nansum_numbers.
  rewrite <- list_fmap_compose. unfold of_nat. apply fdiv_Fin.
  apply Qc_of_nat_nonzero.
  destruct (cd_ids_of geo coastdat_grid region); [done|]. cbn. lia.
Qed.
End spatial_average.

Lemma fix_regions_domain_witness :
  is_Some (({[ "B"%string := 2%Z ]} : gmap string Z) !! "B"%string)
  <-> "B"%string ∈ regions2.*1 ∧ cd_ids_of regions2 grid2 "B" = [].
Proof.
  apply (proj1 (fix_regions_domain regions2 grid2 {[ "B"%string := 2%Z ]} "B"
                  fix2)).
Defined.

Lemma regions1_ids : cd_ids_of regions1 grid2 "AB" = [1%Z; 2%Z].
Proof. reflexivity. Qed.

Lemma regions1_fix : fix_regions regions1 grid2 = Ok ∅.
Proof. reflexivity. Qed.

Lemma regions1_complete :
  weather_complete regions1 grid2 weather2 "temp_air" ∅ 3.
Proof.
  intros region Hregion. cbn in Hregion.
  apply list_elem_of_singleton in Hregion as ->. rewrite regions1_ids.
  split; [|done]. intros cid Hcid.
  apply elem_of_cons in Hcid as [->|Hcid]; [by eexists|].
  apply list_elem_of_singleton in Hcid as ->. by eexists.
Qed.

Lemma spatial_average_is_mean_witness :
  ∃ avg_value s,
    spatial_average_weather regions1 grid2 weather2 "temp_air" = Ok avg_value
    ∧ get_column "AB"%string (df_columns avg_value) = Some s
    ∧ at_hour s 0
      = Fin (sum_Qc ((λ cid, default 0%Qc
                              (if decide (cid = 1%Z) then Some (qc 280 1)
                               else Some (qc 270 1)))
                     <$> cd_ids_of regions1 grid2 "AB")
             / Qc_of_nat (length (cd_ids_of regions1 grid2 "AB")))%Qc.
Proof.
  apply (spatial_average_is_mean regions1 grid2 weather2 "temp_air" ∅ 3 0 "AB"
           (λ cid, if decide (cid = 1%Z) then Some (qc 280 1)
                   else Some (qc 270 1))).
  - lia.
  - apply regions1_fix.
  - apply regions1_complete.
  - left.
  - rewrite regions1_ids. apply two_points_unique.
  - by rewrite regions1_ids.
  - lia.
  - rewrite regions1_ids. intros cid Hcid.
    apply elem_of_cons in Hcid as [->|Hcid]; [reflexivity|].
    apply list_elem_of_singleton in Hcid as ->. reflexivity.
Defined.

(** ** aggregate_by_region_coastdat_feedin *)

Lemma for_each_ok {A S} (body : S -> A -> result S) (xs : list A) (acc : S) :
  (∀ s x, x ∈ xs -> ∃ s', body s x = Ok s') ->
  ∃ out, for_each body xs acc = Ok out.
Proof.
  revert acc. induction xs as [|x xs IH]; intros acc Hall; [by eexists|].
  cbn [for_each]. destruct (Hall acc x) as [s' ->]; [left|]. cbn [bind].
  apply IH. intros s y Hy. apply Hall. by right.
Qed.

(** X8.  Without an [h5] file in the coastdat path, or with one whose store
    lacks the frame of the reference grid point [/A1129087],
    [aggregate_by_region_coastdat_feedin] raises [KeyError] before it looks
    at a region, whatever the power plants and the regions are, and writes
    nothing. *)
Theorem aggregate_feedin_missing_reference (pp : PowerPlants)
    (files : list (string * HDFStore)) (regions : list string) (year : Z)
    (category outfile : string) (w : world) :
  files = []
  ∨ (∃ name store, (name, store) ∈ files ∧ store !! reference_id = None) ->
  aggregate_feedin pp files regions year category = Raise KeyError
  ∧ aggregate_by_region_coastdat_feedin pp files regions year category outfile w
    = Raise KeyError.
Proof.
  intros Hcase.
  assert (aggregate_feedin pp files regions year category = Raise KeyError)
    as Hraise.
  { destruct Hcase as [->|(name & store & Hin & Hnone)]; [done|].
    unfold aggregate_feedin, open_feedin_files.
    rewrite (for_each_raise _ _ _ (name, store) KeyError); [done|done| |].
    - intros st. unfold store_get. by rewrite Hnone.
    - intros st [n s] e _. unfold store_get.
      destruct (s !! reference_id); cbn [of_option bind]; [done|].
      by intros [= <-]. }
  split; [done|]. unfold aggregate_by_region_coastdat_feedin. by rewrite Hraise.
Qed.

Lemma aggregate_feedin_missing_reference_witness :
  aggregate_feedin scenario_pp [("set"%string, (∅ : HDFStore))]
    ["DE01"%string] 2014 "Wind" = Raise KeyError
  ∧ aggregate_by_region_coastdat_feedin scenario_pp
      [("set"%string, (∅ : HDFStore))] ["DE01"%string] 2014 "Wind" "feedin.csv"
      empty_world = Raise KeyError.
Proof.
  apply aggregate_feedin_missing_reference. right.
  exists "set"%string, ∅. split; [left|reflexivity].
Defined.

Lemma unique_filters_NoDup {A} (f : A -> Z) (rows : list A) :
  (∀ id, id ∈ f <$> rows -> ∃ r, filter (λ r', f r' = id) rows = [r]) ->
  NoDup (f <$> rows).
Proof.
  induction rows as [|r0 rows IH]; intros Hall; [constructor|].
  rewrite fmap_cons. apply NoDup_cons. split.
  - intros Hin. destruct (Hall (f r0)) as [r Hr]; [left|].
    rewrite filter_cons_True in Hr by done. injection Hr as _ Hnil.
    apply list_elem_of_fmap in Hin as (r1 & Heq & Hr1).
    assert (r1 ∈ filter (λ r', f r' = f r0) rows) as Hr1'
      by (by apply list_elem_of_filter).
    rewrite Hnil in Hr1'. by apply elem_of_nil in Hr1'.
  - apply IH. intros id Hid. destruct (Hall id) as [r Hr]; [by right|].
    rewrite filter_cons in Hr. destruct (decide (f r0 = id)) as [Heq|Hne].
    + injection Hr as _ Hnil.
      apply list_elem_of_fmap in Hid as (r1 & Heq1 & Hr1).
      assert (r1 ∈ filter (λ r', f r' = id) rows) as Hr1'
        by (by apply list_elem_of_filter).
      rewrite Hnil in Hr1'. by apply elem_of_nil in Hr1'.
    + eauto.
Qed.

(** X9.  The series of a region and a column is computed if and only if the
    grid points of the region are listed once each in the power-plant table
    and the store holds the column for every one of them; otherwise the
    aggregation raises. *)
Theorem region_column_returns (pp : PowerPlants) (store : HDFStore)
    (my_index : nat) (category region : string) (year : Z) (col : string) :
  (∃ out, region_column pp store my_index category region year col
            (region_ids pp category region) = Ok out)
  <-> NoDup (region_ids pp category region)
      ∧ ∀ id, id ∈ region_ids pp category region ->
          ∃ frame, store !! id = Some frame
                   ∧ is_Some (get_column col (df_columns frame)).
Proof.
  split.
  - intros [out Hout]. unfold region_column in Hout.
    destruct (weighted_frame pp store my_index category region year col
                (region_ids pp category region)) as [temp|] eqn:Htemp; [|done].
    unfold weighted_frame in Htemp.
    rewrite (for_each_ext _
               (λ temp id,
                  v <- (pp_inst <- pp_loc_capacity pp category region id year ;;
                        frame <- store_get store id ;;
                        s <- frame_get frame col ;;
                        Ok (pp_inst, s)) ;;
                  Ok (setitem temp id (multiply (head_rows 8760 v.2) v.1))))
      in Htemp.
    2:{ intros s id _. destruct (pp_loc_capacity pp category region id year);
          cbn [bind]; [|done].
        destruct (store_get store id) as [frame|]; cbn [bind]; [|done].
        by destruct (frame_get frame col). }
    pose proof (for_each_ok_inv _ _ _ _ _ Htemp) as Hall.
    split.
    + rewrite region_ids_rows. apply unique_filters_NoDup.
      intros id Hid. rewrite <- region_ids_rows in Hid.
      destruct (Hall id Hid) as [v Hv]. unfold pp_loc_capacity in Hv.
      destruct (filter _ (pp_rows pp category region)) as [|r [|r' rows]];
        [done|by exists r|done].
    + intros id Hid. destruct (Hall id Hid) as [v Hv].
      destruct (pp_loc_capacity pp category region id year); [|done].
      cbn [bind] in Hv. unfold store_get, frame_get in Hv.
      destruct (store !! id) as [frame|]; [|done]. cbn [of_option bind] in Hv.
      exists frame. split; [done|].
      destruct (get_column col (df_columns frame)); [by eexists|done].
  - intros [Hnd Hstored]. unfold region_column, weighted_frame.
    destruct (for_each_ok
                (λ temp coastdat_id,
                   pp_inst <- pp_loc_capacity pp category region coastdat_id year ;;
                   frame <- store_get store coastdat_id ;;
                   s <- frame_get frame col ;;
                   Ok (setitem temp coastdat_id
                         (multiply (head_rows 8760 s) pp_inst)))
                (region_ids pp category region) (empty_frame my_index))
      as [temp ->]; [|by eexists].
    intros temp id Hid.
    assert (∃ r, r ∈ pp_rows pp category region ∧ pp_coastdat_id r = id)
      as (r & Hr & <-).
    { rewrite region_ids_rows in Hid.
      apply list_elem_of_fmap in Hid as (r & -> & Hr). eauto. }
    rewrite (pp_loc_capacity_row pp category region year r Hnd Hr).
    destruct (Hstored _ Hid) as (frame & Hframe & [s Hs]).
    unfold store_get, frame_get. rewrite Hframe. cbn [of_option bind].
    rewrite Hs. by eexists.
Qed.

Lemma get_column_cut (col : string) (cols : list (string * Series)) :
  get_column col ((λ kv, (kv.1, take 8760 kv.2)) <$> cols)
  = take 8760 <$> get_column col cols.
Proof.
  induction cols as [|[k s] cols IH]; [done|].
  rewrite fmap_cons. cbn [get_column fst snd].
  by destruct (decide (k = col)).
Qed.

Lemma region_column_cut (pp : PowerPlants) (store : HDFStore) (my_index : nat)
    (category region : string) (year : Z) (col : string) (ids : list Z) :
  region_column pp (cut_store store) my_index category region year col ids
  = region_column pp store my_index category region year col ids.
Proof.
  unfold region_column, weighted_frame.
  rewrite (for_each_ext _
             (λ temp coastdat_id,
                pp_inst <- pp_loc_capacity pp category region coastdat_id year ;;
                frame <- store_get store coastdat_id ;;
                s <- frame_get frame col ;;
                Ok (setitem temp coastdat_id
                      (multiply (head_rows 8760 s) pp_inst)))); [done|].
  intros temp id _.
  destruct (pp_loc_capacity pp category region id year); cbn [bind]; [|done].
  unfold store_get, cut_store. rewrite lookup_fmap.
  destruct (store !! id) as [frame|]; cbn [fmap option_fmap option_map of_option bind];
    [|done].
  unfold frame_get, cut_frame. cbn [df_columns]. rewrite get_column_cut.
  destruct (get_column col (df_columns frame)) as [s|];
    cbn [fmap option_fmap option_map of_option bind]; [|done].
  unfold head_rows. by rewrite take_take, Nat.min_id.
Qed.

Lemma aggregate_region_cut (pp : PowerPlants) (sets : open_sets) (my_index : nat)
    (year : Z) (category : string) (feed_in : FeedinFrame) (region : string) :
  aggregate_region pp (cut_sets sets) my_index year category feed_in region
  = aggregate_region pp sets my_index year category feed_in region.
Proof.
  unfold aggregate_region.
  destruct (decide (0 < length (region_ids pp category region))); [|done].
  cbn [set_names columns cut_sets]. apply for_each_ext. intros acc name _.
  destruct (dict_get (columns sets) name) as [cols|]; cbn [bind]; [|done].
  apply for_each_ext. intros acc' col _.
  unfold dict_get. cbn [pwr cut_sets]. rewrite lookup_fmap.
  destruct (pwr sets !! name) as [store|];
    cbn [fmap option_fmap option_map of_option bind]; [|done].
  by rewrite region_column_cut.
Qed.

Lemma open_feedin_files_cut (files : list (string * HDFStore)) :
  open_feedin_files (cut_files files)
  = match open_feedin_files files with
    | Ok sets => Ok (cut_sets sets)
    | Raise e => Raise e
    end.
Proof.
  unfold open_feedin_files.
  assert (cut_sets (mk_open_sets [] None ∅ ∅) = mk_open_sets [] None ∅ ∅) as Hinit.
  { unfold cut_sets. cbn [set_names set_name pwr columns]. by rewrite fmap_empty. }
  rewrite <- Hinit at 1. generalize (mk_open_sets [] None ∅ ∅). clear Hinit.
  induction files as [|[name store] files IH]; intros st; [done|].
  unfold cut_files. rewrite fmap_cons. fold (cut_files files).
  cbn [for_each fst snd]. unfold store_get at 1 3. unfold cut_store at 1.
  rewrite lookup_fmap.
  destruct (store !! reference_id) as [frame|];
    cbn [fmap option_fmap option_map of_option bind]; [|done].
  rewrite <- IH. f_equal. unfold cut_sets, cut_frame.
  cbn [set_names set_name pwr columns df_columns].
  rewrite fmap_insert. f_equal. f_equal.
  rewrite <- list_fmap_compose. by apply list_fmap_ext.
Qed.

Lemma aggregate_feedin_cut (pp : PowerPlants) (files : list (string * HDFStore))
    (regions : list string) (year : Z) (category : string) :
  aggregate_feedin pp (cut_files files) regions year category
  = aggregate_feedin pp files regions year category.
Proof.
  unfold aggregate_feedin. rewrite open_feedin_files_cut.
  destruct (open_feedin_files files) as [sets|]; cbn [bind]; [|done].
  cbn [set_name cut_sets].
  destruct (set_name sets) as [last_name|]; cbn [of_option bind]; [|done].
  unfold dict_get. cbn [pwr cut_sets]. rewrite lookup_fmap.
  destruct (pwr sets !! last_name) as [last_store|];
    cbn [fmap option_fmap option_map of_option bind]; [|done].
  unfold store_get, cut_store. rewrite lookup_fmap.
  destruct (last_store !! reference_id) as [reference|];
    cbn [fmap option_fmap option_map of_option bind]; [|done].
  cbn [cut_frame df_rows]. apply for_each_ext. intros acc region _.
  apply aggregate_region_cut.
Qed.

(** X10.  The feed-in aggregation reads the first 8760 rows of every stored
    series and nothing after them: two sets of files whose series agree on
    their first 8760 rows give the same table, or the same error, also in a
    leap year. *)
Theorem feedin_reads_8760_rows (pp : PowerPlants)
    (files files' : list (string * HDFStore)) (regions : list string) (year : Z)
    (category outfile : string) (w : world) :
  cut_files files = cut_files files' ->
  aggregate_feedin pp files regions year category
  = aggregate_feedin pp files' regions year category
  ∧ aggregate_by_region_coastdat_feedin pp files regions year category outfile w
    = aggregate_by_region_coastdat_feedin pp files' regions year category
        outfile w.
Proof.
  intros Hcut.
  assert (aggregate_feedin pp files regions year category
          = aggregate_feedin pp files' regions year category) as Heq.
  { rewrite <- (aggregate_feedin_cut pp files), <- (aggregate_feedin_cut pp files').
    by rewrite Hcut. }
  split; [done|]. unfold aggregate_by_region_coastdat_feedin. by rewrite Heq.
Qed.

Lemma feedin_reads_8760_rows_witness :
  aggregate_feedin unit_pp [("set"%string, unit_store 8761)] ["DE01"%string]
    2016 "Wind"
  = aggregate_feedin unit_pp [("set"%string, late_store)] ["DE01"%string]
      2016 "Wind"
  ∧ aggregate_by_region_coastdat_feedin unit_pp
      [("set"%string, unit_store 8761)] ["DE01"%string] 2016 "Wind"
      "feedin.csv" empty_world
    = aggregate_by_region_coastdat_feedin unit_pp [("set"%string, late_store)]
        ["DE01"%string] 2016 "Wind" "feedin.csv" empty_world.
Proof.
  apply feedin_reads_8760_rows. vm_compute. reflexivity.
Defined.

(** X11.  In the column of a region, a grid point without a value at an hour
    adds nothing to the weighted sum of that hour, while its capacity stays
    in the divisor: at every hour before hour 8760 the column holds the sum
    of value times capacity over the grid points that hold a number, divided
    by the sum of the capacities of all grid points of the region.  From
    hour 8760 on, in the last day of a leap year, the column holds zero
    whatever the grid points hold. *)
Theorem feedin_missing_values (pp : PowerPlants)
    (files : list (string * HDFStore)) (regions : list string) (year : Z)
    (category : string) (reference : DataFrame string)
    (region name col : string) (store : HDFStore) (v : nat -> Z -> option Qc)
    (c : Z -> Qc) :
  feedin_inputs pp files regions category reference ->
  0 < df_rows reference ->
  region ∈ regions ->
  region_ids pp category region ≠ [] ->
  (name, store) ∈ files ->
  col ∈ columns_of store ->
  own_label store col ->
  Forall (λ r, pp_capacity r year = Fin (c (pp_coastdat_id r)))
    (pp_rows pp category region) ->
  (∀ h id, h < df_rows reference -> h < 8760 ->
     id ∈ region_ids pp category region ->
     at_hour (stored_series store col id) h = number_or_nan (v h id)) ->
  sum_Qc (c <$> region_ids pp category region) ≠ 0%Qc ->
  ∃ feed_in out,
    aggregate_feedin pp files regions year category = Ok feed_in
    ∧ get_column (region, name, colname col) (df_columns feed_in) = Some out
    ∧ length out = df_rows reference
    ∧ ∀ h, h < df_rows reference ->
        at_hour out h
        = if decide (h < 8760) then
            Fin (sum_Qc ((λ id, default 0 (v h id) * c id)%Qc
                         <$> region_ids pp category region)
                 / sum_Qc (c <$> region_ids pp category region))%Qc
          else zero.
Proof.
  intros Hinputs Hrows Hregion Hids Hfile Hcol Hlabel Hcap Hvalues Htotal.
  destruct (feedin_hours pp files regions year category reference region name
              col store c Hinputs Hrows Hregion Hids Hfile Hcol Hlabel Hcap
              Htotal) as (feed_in & out & Hrun & Hget & Hlen & Hhours).
  exists feed_in, out. split; [done|]. split; [done|]. split; [done|].
  intros h Hh. destruct (Hhours h Hh) as [Hfirst Hlast].
  destruct (decide (h < 8760)) as [Hcut|Hcut].
  - apply (Hfirst Hcut (v h)). intros gid Hgid. by apply Hvalues.
  - apply Hlast. lia.
Qed.

Lemma gap_inputs :
  feedin_inputs scenario_pp [("set"%string, gap_store)] ["DE01"%string] "Wind"
    (const_frame 2 zero).
Proof.
  apply (single_file_inputs _ _ _ _ _ subset); [done|done| |].
  - apply scenario_unique.
  - rewrite scenario_ids. repeat constructor.
    + eexists. split; [reflexivity|]. by eexists.
    + eexists. split; [reflexivity|]. by eexists.
Qed.

Lemma feedin_missing_values_witness :
  ∃ feed_in out,
    aggregate_feedin scenario_pp [("set"%string, gap_store)] ["DE01"%string]
      2014 "Wind" = Ok feed_in
    ∧ get_column ("DE01", "set", colname subset)%string (df_columns feed_in)
      = Some out
    ∧ at_hour out 0 = Fin (qc 6 5)
    ∧ at_hour out 1 = Fin (qc 8 5).
Proof.
  destruct (feedin_missing_values scenario_pp [("set"%string, gap_store)]
              ["DE01"%string] 2014 "Wind" (const_frame 2 zero) "DE01" "set"
              subset gap_store
              (λ h id, if decide (id = 1%Z)
                       then (if decide (h = 0) then None else Some (qc 1 1))
                       else Some (qc 2 1))
              (λ id, if decide (id = 1%Z) then qc 2 1 else qc 3 1))
    as (feed_in & out & Hrun & Hget & _ & Hhours).
  - apply gap_inputs.
  - cbn. lia.
  - left.
  - by rewrite scenario_ids.
  - left.
  - left.
  - by apply (single_column_label gap_store subset (const_frame 2 zero)).
  - repeat constructor.
  - rewrite scenario_ids. intros h gid Hh _ Hgid.
    change (df_rows (const_frame 2 zero)) with 2 in Hh.
    assert (h = 0 ∨ h = 1) as [-> | ->] by lia;
      (apply elem_of_cons in Hgid as [->|Hgid];
       [reflexivity|apply list_elem_of_singleton in Hgid as ->; reflexivity]).
  - rewrite scenario_ids. apply Qc_nonzero. vm_compute. reflexivity.
  - exists feed_in, out. split; [exact Hrun|]. split; [exact Hget|].
    rewrite scenario_ids in Hhours. split.
    + rewrite (Hhours 0) by (cbn; lia).
      rewrite decide_True by (apply lt_8760; vm_compute; reflexivity).
      f_equal; try Qc_compute.
    + rewrite (Hhours 1) by (cbn; lia).
      rewrite decide_True by (apply lt_8760; vm_compute; reflexivity).
      f_equal; try Qc_compute.
Defined.

(** *** The columns of the written frame *)

Lemma for_each_assign_get {A K} `{EqDecision K} (f : A -> result Series)
    (key : A -> K) (xs : list A) (acc out : DataFrame K) :
  0 < df_rows acc ->
  for_each (λ acc x, v <- f x ;; Ok (setitem acc (key x) v)) xs acc = Ok out ->
  df_rows out = df_rows acc
  ∧ ∀ k, get_column k (df_columns out)
         = match last (filter (λ x, key x = k) xs) with
           | Some x => match f x with
                       | Ok v => Some (reindex (df_rows acc) v)
                       | Raise _ => None
                       end
           | None => get_column k (df_columns acc)
           end.
Proof.
  revert acc. induction xs as [|x xs IH]; intros acc Hpos Hrun.
  - injection Hrun as <-. done.
  - cbn [for_each] in Hrun. destruct (f x) as [v|] eqn:Hfx; [|done].
    cbn [bind] in Hrun.
    destruct (IH (setitem acc (key x) v)) as [Hrows Hget];
      [by rewrite setitem_rows|done|].
    rewrite setitem_rows in Hrows by done. split; [done|]. intros k.
    rewrite Hget, setitem_rows by done. rewrite filter_cons.
    destruct (decide (key x = k)) as [Hk|Hk].
    + rewrite last_cons. destruct (last (filter _ xs)); [done|].
      rewrite Hfx, setitem_columns by done. subst k. apply get_column_set_column.
    + destruct (last (filter _ xs)); [done|]. rewrite setitem_columns by done.
      by apply get_column_set_column_ne.
Qed.

Lemma last_filter_split {A} (P : A -> Prop) `{!∀ x, Decision (P x)}
    (pre post : list A) (x : A) :
  P x -> (∀ y, y ∈ post -> ¬ P y) ->
  last (filter P (pre ++ x :: post)) = Some x.
Proof.
  intros Hx Hpost. rewrite filter_app, filter_cons_True by done.
  assert (filter P post = []) as ->.
  { induction post as [|y post IH]; [done|].
    rewrite filter_cons_False by (apply Hpost; left).
    apply IH. intros z Hz. apply Hpost. by right. }
  by rewrite last_snoc.
Qed.

(** The aggregation as one loop over the regions with grid points, the sets
    and the columns of the sets. *)
Lemma aggregate_feedin_flat (pp : PowerPlants) (files : list (string * HDFStore))
    (regions : list string) (year : Z) (category : string)
    (reference : DataFrame string) :
  NoDup files.*1 ->
  (∀ name store, (name, store) ∈ files -> is_Some (store !! reference_id)) ->
  (∃ last_name last_store,
     last files = Some (last_name, last_store)
     ∧ last_store !! reference_id = Some reference) ->
  ∃ sets,
    (∀ name store, (name, store) ∈ files -> pwr sets !! name = Some store)
    ∧ aggregate_feedin pp files regions year category
      = for_each
          (λ acc x, v <- assigned pp sets (df_rows reference) year category x ;;
                    Ok (setitem acc (assigned_key x) v))
          (regions ≫= λ r, (λ y, (r, y)) <$> region_loop pp files category r)
          (empty_frame (df_rows reference)).
Proof.
  intros Hnames Hrefs (last_name & last_store & Hlast_file & Hreference).
  destruct (open_feedin_files_from files (mk_open_sets [] None ∅ ∅) Hnames Hrefs)
    as (sets & Hopen & Hset_names & Hlast & Hin & _).
  cbn [set_names set_name app] in Hset_names, Hlast.
  rewrite Hlast_file in Hlast. cbn in Hlast.
  assert ((last_name, last_store) ∈ files) as Hlast_in.
  { apply list_elem_of_lookup. exists (pred (length files)).
    rewrite <- last_lookup. exact Hlast_file. }
  exists sets. split; [intros name store Hfile; by apply Hin|].
  unfold aggregate_feedin, open_feedin_files. rewrite Hopen. cbn [bind].
  rewrite Hlast. cbn [of_option bind]. unfold dict_get at 1.
  rewrite (proj1 (Hin _ _ Hlast_in)). cbn [of_option bind].
  unfold store_get. rewrite Hreference. cbn [of_option bind].
  rewrite (for_each_ext _
             (λ acc region,
                for_each
                  (λ acc x,
                     v <- assigned pp sets (df_rows reference) year category x ;;
                     Ok (setitem acc (assigned_key x) v))
                  ((λ y, (region, y)) <$> region_loop pp files category region)
                  acc)).
  2:{ intros acc r _. apply aggregate_region_flat; [done|].
      intros n s Hn. by apply Hin. }
  by rewrite for_each_nested.
Qed.

Lemma region_loop_elem (pp : PowerPlants) (files : list (string * HDFStore))
    (regions : list string) (category : string)
    (x : string * (string * string)) :
  x ∈ (regions ≫= λ r, (λ y, (r, y)) <$> region_loop pp files category r)
  <-> x.1 ∈ regions
      ∧ region_ids pp category x.1 ≠ []
      ∧ ∃ store, (x.2.1, store) ∈ files ∧ x.2.2 ∈ columns_of store.
Proof.
  destruct x as [r [n c]]. cbn [fst snd]. rewrite list_elem_of_bind. split.
  - intros (r' & Hx & Hr).
    apply list_elem_of_fmap in Hx as ([n' c'] & [= -> -> ->] & Hy).
    unfold region_loop in Hy.
    destruct (decide (0 < length (region_ids pp category r'))) as [Hlen|];
      [|by apply elem_of_nil in Hy].
    apply list_elem_of_bind in Hy as ([n0 s0] & Hy & Hf).
    apply list_elem_of_fmap in Hy as (c0 & [= -> ->] & Hc0). cbn [fst snd] in *.
    split; [done|]. split; [|by exists s0].
    intros Hnil. rewrite Hnil in Hlen. cbn in Hlen. lia.
  - intros (Hr & Hids & store & Hfile & Hcol). exists r. split; [|done].
    apply list_elem_of_fmap. exists (n, c). split; [done|].
    unfold region_loop.
    destruct (decide (0 < length (region_ids pp category r))) as [|Hlen].
    + apply list_elem_of_bind. exists (n, store). split; [|done].
      apply list_elem_of_fmap. by exists c.
    + destruct (region_ids pp category r); [done|]. cbn in Hlen. lia.
Qed.

Lemma assigned_length (pp : PowerPlants) (files : list (string * HDFStore))
    (regions : list string) (year : Z) (category : string) (sets : open_sets)
    (n : nat) (x : string * (string * string)) :
  0 < n ->
  complete_inputs pp files regions category ->
  (∀ name store, (name, store) ∈ files -> pwr sets !! name = Some store) ->
  x ∈ (regions ≫= λ r, (λ y, (r, y)) <$> region_loop pp files category r) ->
  ∃ v, assigned pp sets n year category x = Ok v ∧ length v = n.
Proof.
  intros Hn Hcomplete Hin Hx.
  apply region_loop_elem in Hx as (Hr & _ & store & Hfile & Hcol).
  destruct (Hcomplete _ Hr) as [Hnd Hstored].
  unfold assigned, dict_get. rewrite (Hin _ _ Hfile). cbn [of_option bind].
  destruct (region_column_at pp store n category x.1 year x.2.2
              (stored_series store x.2.2) Hnd) with (h := 0)
    as (out & Hout & Hlen & _); [|done|done|by exists out].
  intros id Hid.
  destruct (Hstored _ _ _ id Hfile Hcol Hid) as (frame & Hframe & [s Hs]).
  exists frame. split; [done|]. unfold stored_series. by rewrite Hframe, Hs.
Qed.

(** X12.  With inputs in order, the frame that is written has the rows of
    the index of the reference frame, and its columns are labelled
    (region, set, label of a column of the set) for regions of the list that
    have grid points in the power-plant table: a region without power plants
    of the category gets no column, and every column has as many rows as
    the index. *)
Theorem feedin_frame_columns (pp : PowerPlants)
    (files : list (string * HDFStore)) (regions : list string) (year : Z)
    (category : string) (reference : DataFrame string) :
  feedin_inputs pp files regions category reference ->
  0 < df_rows reference ->
  ∃ feed_in,
    aggregate_feedin pp files regions year category = Ok feed_in
    ∧ df_rows feed_in = df_rows reference
    ∧ ∀ key s, get_column key (df_columns feed_in) = Some s ->
        length s = df_rows reference
        ∧ ∃ region name store col,
            key = (region, name, colname col)
            ∧ region ∈ regions
            ∧ region_ids pp category region ≠ []
            ∧ (name, store) ∈ files
            ∧ col ∈ columns_of store.
Proof.
  intros (Hnames & Hrefs & Hlast & Hcomplete) Hpos.
  destruct (aggregate_feedin_flat pp files regions year category reference
              Hnames Hrefs Hlast) as (sets & Hin & ->).
  destruct (for_each_assign
              (assigned pp sets (df_rows reference) year category)
              assigned_key (df_rows reference) Hpos
              (regions ≫= λ r, (λ y, (r, y)) <$> region_loop pp files category r)
              (empty_frame (df_rows reference)))
    as (feed_in & Hrun & _); [by left| |].
  { intros x Hx. by eapply assigned_length. }
  exists feed_in. split; [done|].
  destruct (for_each_assign_get _ _ _ (empty_frame (df_rows reference)) _ Hpos Hrun) as [Hrows Hget].
  split; [done|]. intros key s Hs. rewrite Hget in Hs.
  destruct (last (filter _ _)) as [x|] eqn:Hx; [|done].
  assert (x ∈ filter (λ x, assigned_key x = key)
                (regions ≫= λ r, (λ y, (r, y)) <$> region_loop pp files category r))
    as Hx'.
  { apply last_Some in Hx as [l' ->]. apply elem_of_app. right. left. }
  apply list_elem_of_filter in Hx' as [Hkey Hx'].
  destruct (assigned pp sets (df_rows reference) year category x) as [v|]; [|done].
  injection Hs as <-. split; [apply length_reindex|].
  apply region_loop_elem in Hx' as (Hr & Hids & store & Hfile & Hcol).
  exists x.1, x.2.1, store, x.2.2. by rewrite <- Hkey.
Qed.

(** X13.  Two columns of a set whose names end in the same three parts are
    written under the same label, the later one replacing the earlier: the
    column of the frame under a label holds the series computed from the
    last column of the set with that label. *)
Theorem feedin_label_last_wins (pp : PowerPlants)
    (files : list (string * HDFStore)) (regions : list string) (year : Z)
    (category : string) (reference : DataFrame string)
    (region name col : string) (store : HDFStore) (before after : list string) :
  feedin_inputs pp files regions category reference ->
  0 < df_rows reference ->
  region ∈ regions ->
  region_ids pp category region ≠ [] ->
  (name, store) ∈ files ->
  columns_of store = before ++ col :: after ->
  (∀ col', col' ∈ after -> colname col' ≠ colname col) ->
  ∃ feed_in out,
    aggregate_feedin pp files regions year category = Ok feed_in
    ∧ region_column pp store (df_rows reference) category region year col
        (region_ids pp category region) = Ok out
    ∧ get_column (region, name, colname col) (df_columns feed_in) = Some out.
Proof.
  intros (Hnames & Hrefs & Hlast & Hcomplete) Hpos Hregion Hids Hfile Hcols Hafter.
  destruct (aggregate_feedin_flat pp files regions year category reference
              Hnames Hrefs Hlast) as (sets & Hin & ->).
  destruct (for_each_assign
              (assigned pp sets (df_rows reference) year category)
              assigned_key (df_rows reference) Hpos
              (regions ≫= λ r, (λ y, (r, y)) <$> region_loop pp files category r)
              (empty_frame (df_rows reference)))
    as (feed_in & Hrun & _); [by left| |].
  { intros x Hx. by eapply assigned_length. }
  destruct (for_each_assign_get _ _ _ (empty_frame (df_rows reference)) _ Hpos Hrun) as [_ Hget].
  assert ((region, (name, col))
          ∈ (regions ≫= λ r, (λ y, (r, y)) <$> region_loop pp files category r))
    as Hx.
  { apply region_loop_elem. cbn [fst snd]. split; [done|]. split; [done|].
    exists store. split; [done|]. rewrite Hcols. apply elem_of_app. right. left. }
  destruct (assigned_length pp files regions year category sets
              (df_rows reference) (region, (name, col)) Hpos Hcomplete Hin Hx)
    as (out & Hout & Hlen).
  exists feed_in, out. split; [done|]. split.
  { unfold assigned, dict_get in Hout. cbn [fst snd] in Hout.
    by rewrite (Hin _ _ Hfile) in Hout. }
  rewrite Hget.
  apply list_elem_of_split_r in Hregion as (rs1 & rs2 & -> & Hrs2).
  apply list_elem_of_split in Hfile as Hsplit.
  destruct Hsplit as (fs1 & fs2 & Hfiles).
  assert (∀ s, (name, s) ∉ fs2) as Hname.
  { intros s Hs. rewrite Hfiles, fmap_app, fmap_cons in Hnames.
    apply NoDup_app in Hnames as (_ & _ & Hnd).
    apply NoDup_cons in Hnd as [Hfresh _]. apply Hfresh.
    apply list_elem_of_fmap. by exists (name, s). }
  assert (region_loop pp files category region
          = (fs1 ≫= λ file, (λ c, (file.1, c)) <$> columns_of file.2)
            ++ ((λ c, (name, c)) <$> before)
            ++ (name, col)
               :: ((λ c, (name, c)) <$> after)
                  ++ (fs2 ≫= λ file, (λ c, (file.1, c)) <$> columns_of file.2))
    as Hloop.
  { unfold region_loop.
    destruct (decide (0 < length (region_ids pp category region))) as [|Hno].
    - rewrite Hfiles, bind_app, bind_cons. cbn [fst snd].
      rewrite Hcols, fmap_app, fmap_cons. by rewrite <- !app_assoc.
    - destruct (region_ids pp category region); [done|]. cbn in Hno. lia. }
  assert (((rs1 ++ region :: rs2)
           ≫= λ r, (λ y, (r, y)) <$> region_loop pp files category r)
          = ((rs1 ≫= λ r, (λ y, (r, y)) <$> region_loop pp files category r)
             ++ ((λ y, (region, y))
                 <$> (fs1 ≫= λ file, (λ c, (file.1, c)) <$> columns_of file.2))
             ++ ((λ y, (region, y)) <$> ((λ c, (name, c)) <$> before)))
            ++ (region, (name, col))
               :: (((λ y, (region, y)) <$> ((λ c, (name, c)) <$> after))
                   ++ ((λ y, (region, y))
                       <$> (fs2 ≫= λ file,
                              (λ c, (file.1, c)) <$> columns_of file.2))
                   ++ (rs2 ≫= λ r,
                         (λ y, (r, y)) <$> region_loop pp files category r)))
    as ->.
  { rewrite bind_app, bind_cons, Hloop.
    rewrite !fmap_app, fmap_cons, !fmap_app.
    rewrite <- !app_assoc. cbn [app]. by rewrite <- !app_assoc. }
  rewrite last_filter_split.
  - rewrite Hout. cbn [empty_frame df_rows]. f_equal.
    rewrite <- Hlen. apply reindex_id.
  - done.
  - intros [r [n c]] Hy Hkey. unfold assigned_key in Hkey. cbn [fst snd] in Hkey.
    injection Hkey as -> -> Hlabel.
    apply elem_of_app in Hy as [Hy|Hy]; [|apply elem_of_app in Hy as [Hy|Hy]].
    + apply list_elem_of_fmap in Hy as ([n' c'] & [= -> ->] & Hy).
      apply list_elem_of_fmap in Hy as (c0 & [= ->] & Hc0).
      by apply (Hafter c0).
    + apply list_elem_of_fmap in Hy as ([n' c'] & [= -> ->] & Hy).
      apply list_elem_of_bind in Hy as ([n0 s0] & Hy & Hf).
      apply list_elem_of_fmap in Hy as (c0 & [= -> ->] & Hc0). cbn [fst snd] in *.
      by apply (Hname s0).
    + apply list_elem_of_bind in Hy as (r' & Hy & Hr').
      apply list_elem_of_fmap in Hy as ([n' c'] & [= -> -> ->] & Hy).
      done.
Qed.

Lemma feedin_frame_columns_witness :
  ∃ feed_in,
    aggregate_feedin scenario_pp [("set"%string, scenario_store 2)]
      ["DE01"%string] 2014 "Wind" = Ok feed_in
    ∧ df_rows feed_in = df_rows (const_frame 2 zero)
    ∧ ∀ key s, get_column key (df_columns feed_in) = Some s ->
        length s = df_rows (const_frame 2 zero)
        ∧ ∃ region name store col,
            key = (region, name, colname col)
            ∧ region ∈ ["DE01"%string]
            ∧ region_ids scenario_pp "Wind" region ≠ []
            ∧ (name, store) ∈ [("set"%string, scenario_store 2)]
            ∧ col ∈ columns_of store.
Proof.
  apply (feedin_frame_columns scenario_pp [("set"%string, scenario_store 2)]
           ["DE01"%string] 2014 "Wind" (const_frame 2 zero)).
  - apply scenario_inputs. lia.
  - cbn. lia.
Defined.

Lemma twin_inputs :
  feedin_inputs unit_pp [("set"%string, twin_store)] ["DE01"%string] "Wind"
    (twin_frame zero zero).
Proof.
  split; [|split; [|split]].
  - apply NoDup_singleton.
  - intros n s Hin. apply list_elem_of_singleton in Hin as [= -> ->]. by eexists.
  - by exists "set"%string, twin_store.
  - intros r Hr. apply list_elem_of_singleton in Hr as ->.
    rewrite unit_ids. split; [apply NoDup_singleton|].
    intros n s c id Hin Hc Hid. apply list_elem_of_singleton in Hin as [= -> ->].
    apply list_elem_of_singleton in Hid as ->.
    exists (twin_frame (Fin (qc 1 1)) (Fin (qc 3 1))). split; [done|].
    change (columns_of twin_store)
      with ["a_E-82_3000_120"%string; "b_E-82_3000_120"%string] in Hc.
    apply elem_of_cons in Hc as [->|Hc]; [by eexists|].
    apply list_elem_of_singleton in Hc as ->. by eexists.
Qed.

Lemma feedin_label_last_wins_witness :
  ∃ feed_in out,
    aggregate_feedin unit_pp [("set"%string, twin_store)] ["DE01"%string]
      2014 "Wind" = Ok feed_in
    ∧ region_column unit_pp twin_store (df_rows (twin_frame zero zero)) "Wind"
        "DE01" 2014 "b_E-82_3000_120" (region_ids unit_pp "Wind" "DE01") = Ok out
    ∧ get_column ("DE01", "set", colname "b_E-82_3000_120")%string
        (df_columns feed_in) = Some out.
Proof.
  apply (feedin_label_last_wins unit_pp [("set"%string, twin_store)]
           ["DE01"%string] 2014 "Wind" (twin_frame zero zero) "DE01" "set"
           "b_E-82_3000_120" twin_store ["a_E-82_3000_120"%string] []).
  - apply twin_inputs.
  - cbn. lia.
  - left.
  - by rewrite unit_ids.
  - left.
  - reflexivity.
  - intros col' Hcol'. by apply elem_of_nil in Hcol'.
Defined.

(** *** The label of a column *)

Lemma string_app_assoc (s1 s2 s3 : string) :
  (s1 +:+ s2) +:+ s3 = s1 +:+ (s2 +:+ s3).
Proof.
  induction s1 as [|a s1 IH]; [done|].
  change (String a ((s1 +:+ s2) +:+ s3) = String a (s1 +:+ (s2 +:+ s3))).
  by rewrite IH.
Qed.

Lemma string_app_nil_r (s : string) : s +:+ "" = s.
Proof.
  induction s as [|a s IH]; [done|].
  change (String a (s +:+ "") = String a s). by rewrite IH.
Qed.

Lemma count_char_app (c : ascii) (s1 s2 : string) :
  count_char c (s1 +:+ s2) = count_char c s1 + count_char c s2.
Proof.
  induction s1 as [|a s1 IH]; [done|].
  change (count_char c (String a (s1 +:+ s2))
          = count_char c (String a s1) + count_char c s2).
  cbn [count_char]. rewrite IH. lia.
Qed.

Lemma split_not_nil (c : ascii) (s : string) : split c s ≠ [].
Proof.
  destruct s as [|a s]; [done|]. cbn.
  destruct (decide (a = c)); [done|]. by destruct (split c s).
Qed.

Lemma join_cons (sep p : string) (l : list string) :
  l ≠ [] -> join sep (p :: l) = p +:+ sep +:+ join sep l.
Proof. by destruct l. Qed.

Lemma join_split (c : ascii) (s : string) :
  join (String c "") (split c s) = s.
Proof.
  induction s as [|a s IH]; [done|]. cbn [split].
  destruct (decide (a = c)) as [->|Hne].
  - rewrite join_cons by apply split_not_nil. cbn. by rewrite IH.
  - pose proof (split_not_nil c s) as Hnil.
    destruct (split c s) as [|p [|q ps]]; [done| |].
    + cbn in *. by rewrite IH.
    + rewrite join_cons by done. rewrite join_cons in IH by done.
      cbn. by rewrite <- IH.
Qed.

Lemma length_split (c : ascii) (s : string) :
  length (split c s) = S (count_char c s).
Proof.
  induction s as [|a s IH]; [done|]. cbn [split count_char].
  destruct (decide (a = c)).
  - cbn. by rewrite IH.
  - pose proof (split_not_nil c s) as Hnil.
    destruct (split c s) as [|p ps]; [done|]. cbn in *. lia.
Qed.

Lemma split_parts (c : ascii) (s : string) :
  Forall (λ part, count_char c part = 0) (split c s).
Proof.
  induction s as [|a s IH]; [by repeat constructor|]. cbn [split].
  destruct (decide (a = c)) as [->|Hne].
  - by constructor.
  - pose proof (split_not_nil c s) as Hnil.
    destruct (split c s) as [|p ps]; [done|].
    apply Forall_cons in IH as [Hp Hps]. constructor; [|done].
    cbn. destruct (decide (a = c)); [done|]. by rewrite Hp.
Qed.

Lemma count_char_join (c : ascii) (parts : list string) :
  Forall (λ part, count_char c part = 0) parts ->
  count_char c (join (String c "") parts) = pred (length parts).
Proof.
  induction parts as [|p [|q parts] IH]; intros Hparts; [done| |].
  - apply Forall_cons in Hparts as [Hp _]. done.
  - apply Forall_cons in Hparts as [Hp Hparts].
    rewrite join_cons by done. rewrite !count_char_app, Hp, IH by done.
    cbn. destruct (decide (c = c)); [lia|done].
Qed.

Lemma join_drop (sep : string) (k : nat) (parts : list string) :
  ∃ prefix, join sep parts = prefix +:+ join sep (drop k parts).
Proof.
  revert k. induction parts as [|p parts IH]; intros k.
  - exists ""%string. by destruct k.
  - destruct k as [|k]; [by exists ""%string|]. cbn [drop].
    destruct (IH k) as [prefix Hprefix].
    destruct parts as [|q parts].
    + exists p. rewrite drop_nil. cbn. by rewrite string_app_nil_r.
    + exists (p +:+ sep +:+ prefix). rewrite join_cons by done.
      by rewrite Hprefix, !string_app_assoc.
Qed.

(** X14.  The label under which a column is written is an end piece of the
    name of the column; it holds the last two underscores of the name, and
    is the whole name when the name has at most two underscores.  Taking the
    label of a label changes nothing. *)
Theorem colname_label (col : string) :
  (∃ prefix, col = prefix +:+ colname col)
  ∧ count_char "_" (colname col) = count_char "_" col `min` 2
  ∧ (count_char "_" col ≤ 2 -> colname col = col)
  ∧ colname (colname col) = colname col.
Proof.
  assert (∀ s, count_char "_" s ≤ 2 -> colname s = s) as Hshort.
  { intros s Hs. unfold colname, last_items. rewrite length_split.
    replace (S (count_char "_" s) - 3) with 0 by lia.
    rewrite drop_0. apply join_split. }
  assert (count_char "_" (colname col) = count_char "_" col `min` 2) as Hcount.
  { unfold colname, last_items.
    rewrite count_char_join by (apply Forall_drop, split_parts).
    rewrite length_drop, length_split. lia. }
  split; [|split; [done|split; [by apply Hshort|]]].
  - unfold colname, last_items.
    destruct (join_drop "_" (length (split "_" col) - 3) (split "_" col))
      as [prefix Hprefix].
    exists prefix. by rewrite <- Hprefix, join_split.
  - apply Hshort. rewrite Hcount. lia.
Qed.

(** ** aggregate_by_region_hydro and aggregate_by_region_geothermal *)

Lemma fmul_not_finite (x : float) (a : Qc) :
  isfinite x = false -> isfinite (fmul x (Fin a)) = false.
Proof.
  destruct x as [b| | |]; [done| | |done]; intros _; cbn [fmul];
    by destruct (a ?= 0)%Qc.
Qed.

Lemma fdiv_not_finite (x : float) (a : Qc) :
  isfinite x = false -> isfinite (fdiv x (Fin a)) = false.
Proof.
  destruct x as [b| | |]; [done| | |done]; intros _; cbn [fdiv];
    by destruct (a ?= 0)%Qc.
Qed.

(** X16.  The hydro estimator raises [KeyError], and leaves the directories
    and the files as they are, when the power-plant table has no row of the
    category Hydro or the energy table has no entry for the year.  With
    Hydro rows whose capacities sum to zero, a year from 1950 to 2261 and an
    output name with a directory part whose file is looked up in the
    directory the function makes, it raises nothing: the energy is divided
    by zero, and every value of every column of the frame that is written is
    an infinity or not-a-number. *)
Theorem hydro_without_capacity (os : os_env) (other_years : Z -> result nat)
    (hydro : Z -> option float) (pp : PowerPlants) (regions : list string)
    (year : Z) (outfile_name : string) (d : disk) :
  (filter (λ r, pp_category r = "Hydro"%string) pp = [] ∨ hydro year = None ->
     aggregate_by_region_hydro os other_years hydro pp regions year
       outfile_name d = (Raise KeyError, d))
  ∧ (∀ energy first rest,
       hydro year = Some energy ->
       filter (λ r, pp_category r = "Hydro"%string) pp ≠ [] ->
       nansum ((λ r, pp_value r "capacity")
               <$> filter (λ r, pp_category r = "Hydro"%string) pp) = zero ->
       (1950 <= year <= 2261)%Z ->
       all_but_last (split "/"%char outfile_name) = first :: rest ->
       holding_dir os outfile_name = abspath os (os_path_join first rest) ->
       let rows :=
         if decide (year mod 4 = 0 ∧ (year mod 100 ≠ 0 ∨ year mod 400 = 0))%Z
         then 8784 else 8760 in
       ∃ d' x,
         aggregate_by_region_hydro os other_years hydro pp regions year
           outfile_name d = (Ok (), d')
         ∧ isfinite x = false
         ∧ tables d'
           = <[outfile_name :=
                 mkDataFrame rows
                   ((λ region, (region, replicate rows x)) <$> regions)]>
               (tables d)).
Proof.
  split.
  - intros Hcase. unfold aggregate_by_region_hydro, hydro_full_load_hours.
    destruct (filter (λ r, pp_category r = "Hydro"%string) pp) as [|r rows];
      [done|].
    destruct Hcase as [?| ->]; done.
  - intros energy first rest Henergy Hrows Hzero Hyear Hparts Hholding.
    cbn zeta.
    unfold aggregate_by_region_hydro, hydro_full_load_hours.
    destruct (filter (λ r, pp_category r = "Hydro"%string) pp) as [|r rows] eqn:Hf;
      [done|].
    cbn [bind]. rewrite Henergy, Hzero. cbn [of_option bind]. rewrite Hparts.
    destruct (estimate_written os other_years regions year outfile_name first
                rest d (fmul (fdiv energy zero) (Fin (Qc_of_nat 1000)))
                Hyear Hholding) as (Hrun & _ & _).
    cbn zeta in Hrun. rewrite Hrun. eexists. eexists. split; [done|].
    split; [|done].
    unfold of_nat. apply fdiv_not_finite, fmul_not_finite, fdiv_zero_not_finite.
Qed.

Lemma hydro_without_capacity_witness :
  ∃ d' x,
    aggregate_by_region_hydro workdir no_other_years hydro_energy idle_hydro_pp
      ["DE01"%string] 2014 "out/hydro.csv" work_disk = (Ok (), d')
    ∧ isfinite x = false
    ∧ tables d'
      = <[ "out/hydro.csv"%string :=
             mkDataFrame 8760 [("DE01"%string, replicate 8760 x)] ]> ∅.
Proof.
  apply (proj2 (hydro_without_capacity workdir no_other_years hydro_energy
                  idle_hydro_pp ["DE01"%string] 2014 "out/hydro.csv" work_disk)
           (Fin (qc 20 1)) "out"%string []).
  - reflexivity.
  - done.
  - float_compute.
  - lia.
  - reflexivity.
  - reflexivity.
Defined.

(** ** adapt_coastdat_weather_to_windpowerlib *)

Lemma with_heights_from {H} (data_height : gmap string H) (height : string -> H)
    (names : list string) (dh : list (string * H)) :
  (∀ name, name ∈ names -> data_height !! name = Some (height name)) ->
  for_each
    (λ dh key, h <- dict_get data_height key ;; Ok (dh ++ [(key, h)]))
    names dh
  = Ok (dh ++ ((λ name, (name, height name)) <$> names)).
Proof.
  intros Hall.
  rewrite (for_each_collect (dict_get data_height) (λ key h, [(key, h)]) height).
  - by f_equal.
  - intros name Hname. unfold dict_get. by rewrite (Hall name Hname).
Qed.

(** X17.  [adapt_coastdat_weather_to_windpowerlib] renames the columns
    [v_wind], [z0] and [temp_air] and looks the heights up under the new
    names.  With a height for every renamed column it labels the columns
    (name, height), keeping their order and their data; it raises [KeyError]
    when a height is missing and [TypeError] when the frame has no column,
    and then leaves the frame of the caller renamed. *)
Theorem adapt_windpowerlib {H} (w : DataFrame string) (data_height : gmap string H) :
  (∀ height : string -> H,
     df_columns w ≠ [] ->
     (∀ name, name ∈ (df_columns w).*1 ->
        data_height !! rename windpowerlib_cols name
        = Some (height (rename windpowerlib_cols name))) ->
     adapt_coastdat_weather_to_windpowerlib w data_height
     = (Ok (),
        WithHeights
          (mkDataFrame (df_rows w)
             ((λ kv, ((rename windpowerlib_cols kv.1,
                       height (rename windpowerlib_cols kv.1)), kv.2))
              <$> df_columns w))))
  ∧ (∀ name, name ∈ (df_columns w).*1 ->
       data_height !! rename windpowerlib_cols name = None ->
       adapt_coastdat_weather_to_windpowerlib w data_height
       = (Raise KeyError, Plain (rename_columns windpowerlib_cols w)))
  ∧ (df_columns w = [] ->
       adapt_coastdat_weather_to_windpowerlib w data_height
       = (Raise TypeError, Plain (rename_columns windpowerlib_cols w))).
Proof.
  split; [|split].
  - intros height Hcols Hall. unfold adapt_coastdat_weather_to_windpowerlib.
    unfold with_heights.
    rewrite (with_heights_from data_height height).
    2:{ intros name Hname. cbn [rename_columns df_columns] in Hname.
        rewrite <- list_fmap_compose in Hname.
        apply list_elem_of_fmap in Hname as ([k s] & -> & Hin). cbn.
        apply Hall. by apply (list_elem_of_fmap_2 fst) in Hin. }
    cbn [app rename_columns df_columns df_rows].
    destruct (df_columns w) as [|[k s] cols] eqn:Hw; [done|].
    cbn [fmap list_fmap fst snd]. f_equal. f_equal. f_equal.
    clear. cbn [zip zip_with]. f_equal.
    induction cols as [|[k' s'] cols IH]; [done|].
    cbn [fmap list_fmap fst snd zip zip_with]. f_equal. apply IH.
  - intros name Hname Hnone. unfold adapt_coastdat_weather_to_windpowerlib.
    unfold with_heights.
    rewrite (for_each_raise _ _ _ (rename windpowerlib_cols name) KeyError);
      [done| | |].
    + cbn [rename_columns df_columns]. rewrite <- list_fmap_compose.
      apply list_elem_of_fmap in Hname as ([k s] & -> & Hin).
      apply list_elem_of_fmap. by exists (k, s).
    + intros dh. unfold dict_get. by rewrite Hnone.
    + intros dh key e _. unfold dict_get.
      destruct (data_height !! key); cbn [of_option bind]; [done|].
      by intros [= <-].
  - intros Hcols. unfold adapt_coastdat_weather_to_windpowerlib, rename_columns.
    by rewrite Hcols.
Qed.

Lemma adapt_windpowerlib_witness :
  adapt_coastdat_weather_to_windpowerlib coastdat_frame heights
  = (Ok (),
     WithHeights
       (mkDataFrame 1
          [(("wind_speed"%string, 10%Z), [Fin (qc 3 1)]);
           (("roughness_length"%string, 0%Z), [Fin (qc 1 10)]);
           (("pressure"%string, 0%Z), [Fin (qc 1000 1)])])).
Proof.
  rewrite (proj1 (adapt_windpowerlib coastdat_frame heights)
             (λ name, default 0%Z (heights !! name))).
  - vm_compute. reflexivity.
  - done.
  - intros name Hname. cbn in Hname.
    repeat (apply elem_of_cons in Hname as [->|Hname]; [reflexivity|]).
    by apply elem_of_nil in Hname.
Defined.

(** ** fetch_coastdat2_year_from_db *)

(** X18.  The store written for a year holds, under the name of a weather
    set, the data of the last weather set with that name, and nothing under
    a name that no weather set has. *)
Theorem store_weather_sets_lookup (weather_sets : list weather_set) (name : Z) :
  store_weather_sets weather_sets !! name
  = ws_data <$> last (filter (λ s, ws_name s = name) weather_sets).
Proof.
  unfold store_weather_sets.
  assert (∀ store : HDFStore,
            foldl (λ store weather_set,
                     <[ws_name weather_set := ws_data weather_set]> store)
              store weather_sets !! name
            = match last (filter (λ s, ws_name s = name) weather_sets) with
              | Some s => Some (ws_data s)
              | None => store !! name
              end) as Hfrom.
  { induction weather_sets as [|s sets IH]; intros store; [done|].
    cbn [foldl]. rewrite IH, filter_cons.
    destruct (decide (ws_name s = name)) as [Hs|Hs].
    - rewrite last_cons. destruct (last (filter _ sets)); [done|].
      subst name. apply lookup_insert_eq.
    - destruct (last (filter _ sets)); [done|]. by apply lookup_insert_ne. }
  rewrite Hfrom. by destruct (last _).
Qed.

Lemma fetch_years (weather_file : Z -> string)
    (get_weather : Z -> result (list weather_set)) (overwrite : bool)
    (years : list Z) (dir : gmap string HDFStore) :
  (∀ year e, get_weather year = Raise e -> ∃ msg, e = AttributeError msg) ->
  ∃ dir',
    for_each_on (fetch_year weather_file get_weather overwrite) years dir
    = (Ok (), dir')
    ∧ ∀ filename,
        dir' !! filename = dir !! filename
        ∨ ∃ year weather_sets,
            year ∈ years
            ∧ filename = weather_file year
            ∧ get_weather year = Ok weather_sets
            ∧ weather_sets ≠ []
            ∧ (overwrite = true ∨ dir !! filename = None)
            ∧ dir' !! filename = Some (store_weather_sets weather_sets).
Proof.
  intros Hraises. revert dir.
  induction years as [|year years IH]; intros dir.
  - exists dir. split; [done|]. by left.
  - cbn [for_each_on].
    assert (fetch_year weather_file get_weather overwrite year dir = (Ok (), dir)
            ∨ ∃ weather_sets,
                get_weather year = Ok weather_sets
                ∧ weather_sets ≠ []
                ∧ (overwrite = true ∨ dir !! weather_file year = None)
                ∧ fetch_year weather_file get_weather overwrite year dir
                  = (Ok (),
                     <[weather_file year := store_weather_sets weather_sets]>
                       dir)) as Hstep.
    { unfold fetch_year.
      destruct (negb (bool_decide (is_Some (dir !! weather_file year)))
                || overwrite) eqn:Hfetch; [|by left].
      assert (overwrite = true ∨ dir !! weather_file year = None) as Hnew.
      { destruct overwrite; [by left|right]. rewrite orb_false_r in Hfetch.
        apply negb_true_iff, bool_decide_eq_false in Hfetch.
        destruct (dir !! weather_file year); [|done].
        exfalso. apply Hfetch. by eexists. }
      destruct (get_weather year) as [sets|e] eqn:Hget.
      - destruct (decide (0 < length sets)) as [Hlen|]; [|by left].
        right. exists sets. repeat split; try done.
        intros ->. cbn in Hlen. lia.
      - destruct (Hraises year e Hget) as [msg ->]. by left. }
    destruct Hstep as [->|(weather_sets & Hget & Hne & Hnew & ->)].
    + destruct (IH dir) as (dir' & Hrun & Hfiles).
      exists dir'. split; [done|]. intros filename.
      destruct (Hfiles filename)
        as [Hsame|(y & sets & Hy & Hname & Hsets & Hne & Hnew & Hstore)];
        [by left|right].
      exists y, sets. repeat split; try done. by right.
    + destruct (IH (<[weather_file year := store_weather_sets weather_sets]> dir))
        as (dir' & Hrun & Hfiles).
      exists dir'. split; [done|]. intros filename.
      destruct (Hfiles filename)
        as [Hsame|(y & sets & Hy & Hname & Hget' & Hne' & Hnew' & Hstore)].
      * destruct (decide (filename = weather_file year)) as [->|Hother].
        -- right. exists year, weather_sets. rewrite Hsame, lookup_insert_eq.
           repeat split; try done. left.
        -- left. by rewrite Hsame, lookup_insert_ne.
      * right. exists y, sets. repeat split; try done; [by right|].
        destruct Hnew' as [?|Hnone]; [by left|right].
        destruct (decide (filename = weather_file year)) as [->|Hother].
        -- by rewrite lookup_insert_eq in Hnone.
        -- by rewrite lookup_insert_ne in Hnone.
Qed.

(** X19.  With the four entries of the configuration and a readable polygon
    of Germany, [fetch_coastdat2_year_from_db] raises [AttributeError]
    before it looks at a year when [oemof.db] could not be imported, and
    raises what [db.connection()] raises when that is no
    [OperationalError]; no weather file is changed then.  With a connection,
    or without one after an [OperationalError], and when
    [coastdat.get_weather] raises nothing but [AttributeError], the function
    returns, and a weather file differs afterwards only if it is the file of
    one of the years, the database gave weather sets for that year, and the
    file did not exist or [overwrite] is set; it then holds those weather
    sets.  So without [overwrite] no existing file is touched, and when
    every year raises [AttributeError] nothing is written at all. *)
Theorem fetch_changes_fetched_years {C P : Type} (env : environment)
    (dbase : database C P) (years : option (list Z)) (overwrite : bool)
    (dir : gmap string HDFStore)
    (weather_path file_pattern geometry_path germany : string) (polygon : P) :
  cfg_get env "paths" "weather" = Some weather_path ->
  cfg_get env "weather" "file_pattern" = Some file_pattern ->
  cfg_get env "paths" "geometry" = Some geometry_path ->
  cfg_get env "geometry" "germany_polygon" = Some germany ->
  read_polygon dbase (path_join geometry_path germany) = Ok polygon ->
  let weather_file := format_year dbase (path_join weather_path file_pattern) in
  (db dbase = None ->
     fetch_coastdat2_year_from_db env dbase years overwrite dir
     = (Raise (AttributeError
                 "'NoneType' object has no attribute 'OperationalError'"), dir))
  ∧ (∀ e, db dbase = Some (Failed e) ->
       fetch_coastdat2_year_from_db env dbase years overwrite dir
       = (Raise e, dir))
  ∧ (∀ conn,
       (∃ c, db dbase = Some (Connected c) ∧ conn = Some c)
       ∨ (db dbase = Some Refused ∧ conn = None) ->
       (∀ year e, get_weather dbase conn polygon year = Raise e ->
          ∃ msg, e = AttributeError msg) ->
       ∃ dir',
         fetch_coastdat2_year_from_db env dbase years overwrite dir
         = (Ok (), dir')
         ∧ (∀ filename,
              dir' !! filename = dir !! filename
              ∨ ∃ year weather_sets,
                  year ∈ default (seqZ 1980 40) years
                  ∧ filename = weather_file year
                  ∧ get_weather dbase conn polygon year = Ok weather_sets
                  ∧ weather_sets ≠ []
                  ∧ (overwrite = true ∨ dir !! filename = None)
                  ∧ dir' !! filename = Some (store_weather_sets weather_sets))
         ∧ (overwrite = false ->
            ∀ filename, is_Some (dir !! filename) ->
              dir' !! filename = dir !! filename)
         ∧ ((∀ year, ∃ msg,
               get_weather dbase conn polygon year = Raise (AttributeError msg)) ->
            dir' = dir)).
Proof.
  intros Hweather Hpattern Hgeometry Hgermany Hpolygon. cbn zeta.
  unfold fetch_coastdat2_year_from_db.
  rewrite Hweather, Hpattern, Hgeometry, Hgermany. cbn [of_option bind].
  rewrite Hpolygon. cbn [bind].
  split; [by intros ->|]. split; [by intros e ->|].
  intros conn Hconn Hraises.
  assert (match db dbase with
          | None =>
              Raise (AttributeError
                       "'NoneType' object has no attribute 'OperationalError'")
          | Some (Connected conn) => Ok (Some conn)
          | Some Refused => Ok None
          | Some (Failed e) => Raise e
          end = Ok conn) as ->.
  { by destruct Hconn as [(c & -> & ->)|[-> ->]]. }
  cbn [bind].
  destruct (fetch_years (format_year dbase (path_join weather_path file_pattern))
              (get_weather dbase conn polygon) overwrite
              (default (seqZ 1980 40) years) dir Hraises)
    as (dir' & Hrun & Hfiles).
  exists dir'. split; [done|]. split; [done|]. split.
  - intros -> filename [store Hstore].
    destruct (Hfiles filename) as [Hsame|(y & sets & _ & _ & _ & _ & Hnew & _)];
      [done|].
    destruct Hnew as [?|Hnone]; [done|]. by rewrite Hnone in Hstore.
  - intros Hnone. apply map_eq. intros filename.
    destruct (Hfiles filename) as [Hsame|(y & sets & _ & _ & Hget & _)]; [done|].
    destruct (Hnone y) as [msg Hmsg]. by rewrite Hmsg in Hget.
Qed.

Lemma fetch_changes_fetched_years_witness :
  ∃ dir',
    fetch_coastdat2_year_from_db not_found database2
      (Some [1979; 2014; 2015]%Z) false ∅ = (Ok (), dir')
    ∧ (∀ filename,
         dir' !! filename = (∅ : gmap string HDFStore) !! filename
         ∨ ∃ year weather_sets,
             year ∈ default (seqZ 1980 40) (Some [1979; 2014; 2015]%Z)
             ∧ filename
               = format_year database2
                   (path_join "paths.weather" "weather.file_pattern") year
             ∧ get_weather database2 (Some ()) () year = Ok weather_sets
             ∧ weather_sets ≠ []
             ∧ (false = true ∨ (∅ : gmap string HDFStore) !! filename = None)
             ∧ dir' !! filename = Some (store_weather_sets weather_sets))
    ∧ (false = false ->
       ∀ filename, is_Some ((∅ : gmap string HDFStore) !! filename) ->
         dir' !! filename = (∅ : gmap string HDFStore) !! filename)
    ∧ ((∀ year, ∃ msg,
          get_weather database2 (Some ()) () year = Raise (AttributeError msg)) ->
       dir' = ∅).
Proof.
  apply (proj2 (proj2 (fetch_changes_fetched_years not_found database2
                         (Some [1979; 2014; 2015]%Z) false ∅
                         "paths.weather" "weather.file_pattern"
                         "paths.geometry" "geometry.germany_polygon" ()
                         eq_refl eq_refl eq_refl eq_refl eq_refl)) (Some ())).
  - left. by exists ().
  - intros year e. cbn. by destruct (decide (year = 2014%Z)).
Defined.

(** ** get_ew_geometry and get_ew_by_region *)

Lemma int64_add_l (a b : Z) : int64 (int64 a + b) = int64 (a + b).
Proof.
  unfold int64. f_equal.
  replace ((a + 2 ^ 63) mod 2 ^ 64 - 2 ^ 63 + b + 2 ^ 63)%Z
    with ((a + 2 ^ 63) mod 2 ^ 64 + b)%Z by lia.
  rewrite Zplus_mod_idemp_l. f_equal. lia.
Qed.

Lemma int64_small (z : Z) : (- 2 ^ 63 <= z < 2 ^ 63)%Z -> int64 z = z.
Proof.
  intros Hz. unfold int64. rewrite Z.mod_small; lia.
Qed.

Lemma groupby_sum_from (rows : list (option string * Z)) (sums : gmap string Z)
    (region : string) :
  foldl (λ sums row,
           match row.1 with
           | Some region =>
               <[region := int64 (default 0%Z (sums !! region) + row.2)]> sums
           | None => sums
           end) sums rows !! region
  = match (filter (λ row, row.1 = Some region) rows).*2 with
    | [] => sums !! region
    | zs => Some (int64 (default 0%Z (sums !! region) + sum_Z zs))
    end.
Proof.
  revert sums. induction rows as [|[[r|] z] rows IH]; intros sums; [done| |].
  - cbn [foldl fst snd]. rewrite IH, filter_cons. cbn [fst].
    destruct (decide (Some r = Some region)) as [[= ->]|Hne].
    + rewrite fmap_cons, lookup_insert_eq. cbn [snd default from_option id].
      destruct (filter _ rows).*2 as [|z' zs].
      * cbn. by rewrite Z.add_0_r.
      * rewrite int64_add_l. f_equal. f_equal.
        change (sum_Z (z :: z' :: zs)) with (z + sum_Z (z' :: zs))%Z. lia.
    + rewrite lookup_insert_ne by congruence. done.
  - cbn [foldl fst snd]. rewrite IH, filter_cons. cbn [fst].
    destruct (decide (None = Some region)); done.
Qed.

Section inhabitants_properties.
Context {Polygon Point : Type} `{Shapes Polygon Point}.
Variable read_file : gmap string file -> string -> result (list (Polygon * Z)).
Variable join :
  list (Point * Z) -> list (string * Polygon) -> list (option string * Z).

(** X21.  [get_ew_geometry] asks for the shapefile of the year only when it
    is missing: with the file in place it reads it, for every year, also one
    before 2011, and sends and writes nothing; with the file missing and a
    year before 2011 it raises the [AttributeError] of [get_ew_shp_file] and
    reads nothing, and so does [get_ew_by_region]. *)
Theorem get_ew_geometry_guard (env : environment) (year : Z) (w : world)
    (path : string) (geo : list (string * Polygon)) :
  cfg_get env "paths" "inhabitants" = Some path ->
  let filename_shp := path_join path ("VG250_VWG_" +:+ pretty year +:+ ".shp") in
  (isfile w filename_shp = true ->
     get_ew_geometry read_file env year w
     = (gdf <- read_file (files w) filename_shp ;;
        Ok ((λ row, (representative_point row.1, row.2)) <$> gdf), w))
  ∧ (isfile w filename_shp = false -> (year < 2011)%Z ->
       get_ew_geometry read_file env year w
       = (Raise (AttributeError "Years < 2011 are not allowed in this function."),
          w)
       ∧ get_ew_by_region read_file join env year geo w
         = (Raise (AttributeError "Years < 2011 are not allowed in this function."),
            w)).
Proof.
  intros Hpath. cbn zeta. split.
  - intros Hfile. unfold get_ew_geometry. by rewrite Hpath, Hfile.
  - intros Hfile Hyear.
    assert (get_ew_geometry read_file env year w
            = (Raise (AttributeError
                        "Years < 2011 are not allowed in this function."), w))
      as Hraise.
    { unfold get_ew_geometry. rewrite Hpath, Hfile. cbn [negb].
      unfold get_ew_shp_file. by destruct (decide (year < 2011)%Z). }
    split; [done|]. unfold get_ew_by_region. by rewrite Hraise.
Qed.

(** X22.  The inhabitants of a region that [get_ew_by_region] returns are
    the sum of the inhabitants of the rows the join put into the region, as
    a 64-bit integer; a region into which no row fell has no entry, and rows
    outside every region are counted nowhere. *)
Theorem get_ew_by_region_sums (env : environment) (year : Z)
    (geo : list (string * Polygon)) (w w' : world) (ew : list (Point * Z))
    (region : string) :
  get_ew_geometry read_file env year w = (Ok ew, w') ->
  ∃ sums,
    get_ew_by_region read_file join env year geo w = (Ok sums, w')
    ∧ sums !! region
      = match (filter (λ row, row.1 = Some region) (join ew geo)).*2 with
        | [] => None
        | zs => Some (int64 (sum_Z zs))
        end
    ∧ ((- 2 ^ 63 <= sum_Z (filter (λ row, row.1 = Some region) (join ew geo)).*2
        < 2 ^ 63)%Z ->
       (filter (λ row, row.1 = Some region) (join ew geo)).*2 ≠ [] ->
       sums !! region
       = Some (sum_Z (filter (λ row, row.1 = Some region) (join ew geo)).*2)).
Proof.
  intros Hew. unfold get_ew_by_region. rewrite Hew. cbn [bind].
  eexists. split; [done|].
  assert (groupby_sum (join ew geo) !! region
          = match (filter (λ row, row.1 = Some region) (join ew geo)).*2 with
            | [] => None
            | zs => Some (int64 (sum_Z zs))
            end) as Hsum.
  { unfold groupby_sum. rewrite groupby_sum_from, lookup_empty.
    by destruct (filter _ _).*2. }
  split; [done|]. intros Hsmall Hne. rewrite Hsum.
  destruct (filter _ _).*2; [done|]. by rewrite int64_small.
Qed.
End inhabitants_properties.

Lemma get_ew_geometry_guard_witness :
  get_ew_geometry read_municipalities not_found 2005 shp_world
  = (gdf <- read_municipalities (files shp_world)
              (path_join "paths.inhabitants"
                 ("VG250_VWG_" +:+ pretty 2005%Z +:+ ".shp")) ;;
     Ok ((λ row, (representative_point row.1, row.2)) <$> gdf), shp_world).
Proof.
  apply (proj1 (get_ew_geometry_guard read_municipalities join_points not_found
                  2005 shp_world "paths.inhabitants" regions2 eq_refl)).
  reflexivity.
Defined.

Lemma municipalities_2005 :
  get_ew_geometry read_municipalities not_found 2005 shp_world
  = (Ok [((2, 2)%Z, 100%Z); ((7, 2)%Z, 50%Z); ((30, 0)%Z, 7%Z)], shp_world).
Proof. reflexivity. Qed.

Lemma get_ew_by_region_sums_witness :
  ∃ sums,
    get_ew_by_region read_municipalities join_points not_found 2005 regions2
      shp_world = (Ok sums, shp_world)
    ∧ sums !! "A"%string = Some (int64 (sum_Z [100; 50]%Z)).
Proof.
  destruct (get_ew_by_region_sums read_municipalities join_points not_found 2005
              regions2 shp_world shp_world _ "A" municipalities_2005)
    as (sums & Hrun & Hsum & _).
  exists sums. split; [exact Hrun|exact Hsum].
Defined.
